(** * Plotly documentation examples: error bars page and Ledoit-Wolf vs OAS notebook

    The repository holds two example documents:
    - [_posts/python/statistical/error-bar/2015-06-30-error-bars.html],
      a rendered notebook with seven code cells and a YAML front matter;
    - [_posts/scikit/ledoit-wolf-vs-oas/Ledoit-Wolf-vs-OAS-estimation.ipynb],
      a notebook with eight code cells.

    Each code cell is a straight-line Python script (one cell has a double
    loop) that runs in the kernel of its document.  The cells are embedded
    as functions from kernel states to outcomes; calls into numpy, scipy,
    scikit-learn, plotly, IPython and publisher are recorded in the kernel's
    log and return uninterpreted terms, except for what steers the control
    flow of the notebook (the elements and [size] of [np.arange] arrays,
    the arrays of [np.zeros]) and the random generator, whose state is part
    of the kernel. *)

From Stdlib Require Import ZArith String Ascii List Bool Lia.
From stdpp Require Import base option list gmap strings.

#[local] Set Warnings "-register-all".
Local Open Scope string_scope.
Local Open Scope list_scope.
Local Open Scope Z_scope.

(** ** Values *)

(** State of numpy's global random generator: where it started (unknown
    at kernel start, or fixed by [np.random.seed]) and the draws made
    since, most recent first, equal shapes in a row kept as one run with
    its length. *)
Inductive gen_start : Type :=
| GStart (tag : nat)
| GSeed (seed : Z).

Record gen : Type := Gen {
  since : gen_start;
  drawn : list (list Z * Z)
}.

(** Python values.  A float literal is carried as its source text: no cell
    does float arithmetic itself.  [VAttr] and [VCall] are the results of
    attribute reads and calls on library objects, kept as terms. *)
Inductive val : Type :=
| VNone
| VBool (b : bool)
| VInt (n : Z)
| VFloat (lit : string)
| VStr (s : string)
| VTuple (items : list val)
| VList (items : list val)
| VDict (items : list (string * val))
| VArray (items : list val)
| VBuiltin (name : string)
| VModule (path : string)
| VAttr (obj : val) (name : string)
| VCall (callee : val) (args : list val) (kwargs : list (string * val))
| VSample (g : gen) (shape : list Z).

Definition kwargs : Type := list (string * val).

(** What a cell does to the world outside the kernel. *)
Inductive action : Type :=
| AImport (path : string)
| ACall (callee : val) (args : list val) (kw : kwargs)
| AShell (cmd : string) (status : Z).

Inductive event : Type :=
| EEnter (cell : nat)
| ELoad (name : string)
| EBind (name : string)
| EMutate (name : string)
| EAct (a : action).

(** Python's exceptions, [LibraryError] for whatever an import or a
    library call raises, and [Unmodelled] where the embedding stops: a loop
    over a library object whose elements it does not know. *)
Inductive exn : Type :=
| NameError (name : string)
| TypeError (what : string)
| IndexError
| LibraryError (a : action)
| Unmodelled (what : string).

(** The world decides which imports and library calls raise and what a
    shell command exits with. *)
Class World : Type := {
  fails : action -> bool;
  exit_status : string -> Z
}.

(** ** Deciding equality of values *)

Section ListEqb.
Context {A : Type} (eqb : A -> A -> bool).

Fixpoint list_eqb (l1 l2 : list A) : bool :=
  match l1, l2 with
  | [], [] => true
  | a :: l1', b :: l2' => eqb a b && list_eqb l1' l2'
  | _, _ => false
  end.
End ListEqb.

Definition gen_start_eqb (a b : gen_start) : bool :=
  match a, b with
  | GStart m, GStart n => Nat.eqb m n
  | GSeed m, GSeed n => Z.eqb m n
  | _, _ => false
  end.

Definition run_eqb (a b : list Z * Z) : bool :=
  list_eqb Z.eqb a.1 b.1 && Z.eqb a.2 b.2.

Definition gen_eqb (g1 g2 : gen) : bool :=
  gen_start_eqb (since g1) (since g2) && list_eqb run_eqb (drawn g1) (drawn g2).

(** The generator after one more draw of [shape]. *)
Definition draw (g : gen) (shape : list Z) : gen :=
  match drawn g with
  | (s, n) :: rest =>
      if list_eqb Z.eqb s shape
      then Gen (since g) ((s, n + 1) :: rest)
      else Gen (since g) ((shape, 1) :: drawn g)
  | [] => Gen (since g) [(shape, 1)]
  end.

Fixpoint val_eqb (a b : val) {struct a} : bool :=
  match a, b with
  | VNone, VNone => true
  | VBool x, VBool y => Bool.eqb x y
  | VInt x, VInt y => Z.eqb x y
  | VFloat x, VFloat y => String.eqb x y
  | VStr x, VStr y => String.eqb x y
  | VTuple x, VTuple y => list_eqb val_eqb x y
  | VList x, VList y => list_eqb val_eqb x y
  | VDict x, VDict y =>
      list_eqb (fun p q => match p, q with (s, v), (t, w) => String.eqb s t && val_eqb v w end) x y
  | VArray x, VArray y => list_eqb val_eqb x y
  | VBuiltin x, VBuiltin y => String.eqb x y
  | VModule x, VModule y => String.eqb x y
  | VAttr o x, VAttr o' y => val_eqb o o' && String.eqb x y
  | VCall f x k, VCall f' y k' =>
      val_eqb f f' && list_eqb val_eqb x y &&
      list_eqb (fun p q => match p, q with (s, v), (t, w) => String.eqb s t && val_eqb v w end) k k'
  | VSample g s, VSample g' s' => gen_eqb g g' && list_eqb Z.eqb s s'
  | _, _ => false
  end.

Definition kwargs_eqb : kwargs -> kwargs -> bool :=
  list_eqb (fun p q => match p, q with (s, v), (t, w) => String.eqb s t && val_eqb v w end).

Definition action_eqb (a b : action) : bool :=
  match a, b with
  | AImport p, AImport q => String.eqb p q
  | ACall f x k, ACall f' y k' => val_eqb f f' && list_eqb val_eqb x y && kwargs_eqb k k'
  | AShell c s, AShell c' s' => String.eqb c c' && Z.eqb s s'
  | _, _ => false
  end.

Definition event_eqb (a b : event) : bool :=
  match a, b with
  | EEnter m, EEnter n => Nat.eqb m n
  | ELoad x, ELoad y => String.eqb x y
  | EBind x, EBind y => String.eqb x y
  | EMutate x, EMutate y => String.eqb x y
  | EAct x, EAct y => action_eqb x y
  | _, _ => false
  end.

(** Induction on values that reaches inside the lists. *)
Section ValInd.
Variable P : val -> Prop.
Hypothesis HNone : P VNone.
Hypothesis HBool : forall b, P (VBool b).
Hypothesis HInt : forall n, P (VInt n).
Hypothesis HFloat : forall s, P (VFloat s).
Hypothesis HStr : forall s, P (VStr s).
Hypothesis HTuple : forall l, Forall P l -> P (VTuple l).
Hypothesis HList : forall l, Forall P l -> P (VList l).
Hypothesis HDict : forall l, Forall (fun p => P p.2) l -> P (VDict l).
Hypothesis HArray : forall l, Forall P l -> P (VArray l).
Hypothesis HBuiltin : forall s, P (VBuiltin s).
Hypothesis HModule : forall s, P (VModule s).
Hypothesis HAttr : forall o a, P o -> P (VAttr o a).
Hypothesis HCall : forall f x k,
  P f -> Forall P x -> Forall (fun p => P p.2) k -> P (VCall f x k).
Hypothesis HSample : forall g s, P (VSample g s).

Fixpoint val_nested_ind (v : val) : P v :=
  let all := fix all (l : list val) : Forall P l :=
    match l with
    | [] => @List.Forall_nil val P
    | x :: l' => @List.Forall_cons val P x l' (val_nested_ind x) (all l')
    end in
  let all_kw := fix all_kw (l : list (string * val)) : Forall (fun p => P p.2) l :=
    match l with
    | [] => @List.Forall_nil _ (fun p => P p.2)
    | p :: l' => @List.Forall_cons _ (fun p => P p.2) p l' (val_nested_ind p.2) (all_kw l')
    end in
  match v with
  | VNone => HNone
  | VBool b => HBool b
  | VInt n => HInt n
  | VFloat s => HFloat s
  | VStr s => HStr s
  | VTuple l => HTuple l (all l)
  | VList l => HList l (all l)
  | VDict l => HDict l (all_kw l)
  | VArray l => HArray l (all l)
  | VBuiltin s => HBuiltin s
  | VModule s => HModule s
  | VAttr o a => HAttr o a (val_nested_ind o)
  | VCall f x k => HCall f x k (val_nested_ind f) (all x) (all_kw k)
  | VSample g s => HSample g s
  end.
End ValInd.

(** ** Kernel state and the cell monad *)

Record kernel : Type := {
  ns : gmap string val;   (* the interactive namespace, shared by the cells *)
  rng : gen;              (* numpy's global generator *)
  log : list event        (* most recent event first *)
}.

Definition trace (k : kernel) : list event := rev (log k).

Inductive outcome (A : Type) : Type :=
| Ok (a : A) (k : kernel)
| Raise (e : exn) (k : kernel).
Arguments Ok {A} a k.
Arguments Raise {A} e k.

Definition Py (A : Type) : Type := kernel -> outcome A.

#[export] Instance Py_ret : MRet Py := fun A a k => Ok a k.
#[export] Instance Py_bind : MBind Py := fun A B f m k =>
  match m k with
  | Ok a k' => f a k'
  | Raise e k' => Raise e k'
  end.

#[export] Instance Py_fmap : FMap Py := fun A B f m k =>
  match m k with
  | Ok a k' => Ok (f a) k'
  | Raise e k' => Raise e k'
  end.

Definition raise {A} (e : exn) : Py A := fun k => Raise e k.

Definition final {A} (o : outcome A) : kernel :=
  match o with Ok _ k => k | Raise _ k => k end.

Definition emit (e : event) : Py unit := fun k =>
  Ok tt {| ns := ns k; rng := rng k; log := e :: log k |}.

Definition get_ns : Py (gmap string val) := fun k => Ok (ns k) k.
Definition put_ns (m : gmap string val) : Py unit := fun k =>
  Ok tt {| ns := m; rng := rng k; log := log k |}.
Definition get_rng : Py gen := fun k => Ok (rng k) k.
Definition put_rng (g : gen) : Py unit := fun k =>
  Ok tt {| ns := ns k; rng := g; log := log k |}.

(** Sequencing of a list of computations, left to right. *)
Fixpoint sequence {A} (ms : list (Py A)) : Py (list A) :=
  match ms with
  | [] => mret []
  | m :: ms' => a ← m; r ← sequence ms'; mret (a :: r)
  end.

Fixpoint sequence_kw (ms : list (string * Py val)) : Py kwargs :=
  match ms with
  | [] => mret []
  | (x, m) :: ms' => a ← m; r ← sequence_kw ms'; mret ((x, a) :: r)
  end.

(** ** Python primitives *)

(** Names that resolve in the builtins when the namespace has no binding. *)
Definition builtins : list string := ["print"; "dict"; "range"; "enumerate"].

Definition is_builtin (x : string) : bool := existsb (String.eqb x) builtins.

Definition lookup_name (m : gmap string val) (x : string) : option val :=
  match m !! x with
  | Some v => Some v
  | None => if is_builtin x then Some (VBuiltin x) else None
  end.

(** [x] as an expression. *)
Definition name (x : string) : Py val :=
  _ ← emit (ELoad x);
  m ← get_ns;
  match lookup_name m x with
  | Some v => mret v
  | None => raise (NameError x)
  end.

(** [x = v]: (re)binds the name. *)
Definition bind_name (x : string) (v : val) : Py unit :=
  m ← get_ns; _ ← put_ns (<[x:=v]> m); emit (EBind x).

(** The object bound to [x] changes in place: the binding stays. *)
Definition mutate_name (x : string) (v : val) : Py unit :=
  m ← get_ns; _ ← put_ns (<[x:=v]> m); emit (EMutate x).

Definition lit (v : val) : Py val := mret v.
Definition int_ (n : Z) : Py val := mret (VInt n).
Definition float_ (s : string) : Py val := mret (VFloat s).
Definition str_ (s : string) : Py val := mret (VStr s).
Definition True_ : Py val := mret (VBool true).
Definition False_ : Py val := mret (VBool false).

Definition list_ (es : list (Py val)) : Py val := VList <$> sequence es.
Definition tuple_ (es : list (Py val)) : Py val := VTuple <$> sequence es.

(** ** Library objects *)

(** Dotted path of a library object: module path, then attribute names. *)
Fixpoint qualname (v : val) : option (string * list string) :=
  match v with
  | VModule p => Some (p, [])
  | VAttr o a =>
      match qualname o with
      | Some (p, l) => Some (p, l ++ [a])
      | None => None
      end
  | _ => None
  end.

Definition strings_eqb (l1 l2 : list string) : bool :=
  (length l1 =? length l2)%nat && forallb (fun p => String.eqb p.1 p.2) (combine l1 l2).

Definition is_lib (v : val) (p : string) (l : list string) : bool :=
  match qualname v with
  | Some (p', l') => String.eqb p p' && strings_eqb l l'
  | None => false
  end.

Definition is_builtin_val (v : val) (b : string) : bool :=
  match v with VBuiltin b' => String.eqb b b' | _ => false end.

(** Library objects kept as terms. *)
Definition is_term (v : val) : bool :=
  match v with
  | VAttr _ _ | VCall _ _ _ | VSample _ _ => true
  | _ => false
  end.

Definition not_iterable (v : val) : exn :=
  if is_term v then Unmodelled "iteration over a library object"
  else TypeError "object is not iterable".

(** Values that Python refuses to call. *)
Definition not_callable (v : val) : bool :=
  match v with
  | VNone | VBool _ | VInt _ | VFloat _ | VStr _ | VTuple _ | VList _
  | VDict _ | VArray _ | VModule _ | VSample _ _ => true
  | VBuiltin _ | VAttr _ _ | VCall _ _ _ => false
  end.

Definition ints_of (l : list val) : option (list Z) :=
  mapM (fun v => match v with VInt n => Some n | _ => None end) l.

(** [0, 1, ..., n-1] *)
Definition range_list (n : Z) : list val :=
  map (fun i => VInt (Z.of_nat i)) (seq 0 (Z.to_nat n)).

(** [start, start+step, ...] below [stop], for a positive step. *)
Definition arange_list (start stop step : Z) : list val :=
  map (fun i => VInt (start + Z.of_nat i * step))
      (seq 0 (Z.to_nat ((stop - start + step - 1) / step))).

(** Elements of the array [np.arange(...)] returns, read off the
    arguments of the call: the array itself is kept as a term. *)
Definition arange_items (v : val) : option (list val) :=
  match v with
  | VCall f args [] =>
      if is_lib f "numpy" ["arange"] then
        match ints_of args with
        | Some [stop] => Some (arange_list 0 stop 1)
        | Some [start; stop; step] =>
            if 0 <? step then Some (arange_list start stop step) else None
        | _ => None
        end
      else None
  | _ => None
  end.

(** Elements a [for] loop visits. *)
Definition iter_items (v : val) : option (list val) :=
  match v with
  | VTuple l | VList l | VArray l => Some l
  | _ => arange_items v
  end.

Definition enumerate_list (l : list val) : list val :=
  map (fun p => VTuple [VInt (Z.of_nat p.1); p.2]) (combine (seq 0 (length l)) l).

Definition zeros (shape : list Z) : val :=
  fold_right (fun n inner => VArray (replicate (Z.to_nat n) inner)) (VFloat "0.0") shape.

Fixpoint array_size (v : val) : Z :=
  match v with
  | VArray l => fold_right (fun x acc => array_size x + acc) 0 l
  | _ => 1
  end.

(** Python index: negative counts from the end, out of range is refused. *)
Definition norm_index (len : nat) (i : Z) : option nat :=
  let n := Z.of_nat len in
  let i' := if i <? 0 then i + n else i in
  if (0 <=? i') && (i' <? n) then Some (Z.to_nat i') else None.

(** [a[i1, ..., in] = v] on nested arrays. *)
Fixpoint store_item (a : val) (idx : list Z) (v : val) : exn + val :=
  match idx with
  | [] => inr v
  | i :: idx' =>
      match a with
      | VArray l =>
          match norm_index (length l) i with
          | Some n =>
              match l !! n with
              | Some row =>
                  match store_item row idx' v with
                  | inr row' => inr (VArray (<[n:=row']> l))
                  | inl e => inl e
                  end
              | None => inl IndexError
              end
          | None => inl IndexError
          end
      | _ => inl (TypeError "object does not support item assignment")
      end
  end.

(** The double quote character, for source strings that contain it. *)
Definition dq : string := String (ascii_of_nat 34) EmptyString.

Definition kw_lookup (kw : kwargs) (x : string) : option val :=
  snd <$> find (fun p => String.eqb x p.1) kw.

Section Cells.
Context `{W : World}.

(** An interaction with the world: logged, then raised if the world
    refuses it. *)
Definition perform (a : action) : Py unit :=
  _ ← emit (EAct a);
  if fails a then raise (LibraryError a) else mret tt.

(** Result of calling [f]: the builtins and [np.zeros] are computed, the
    generator is threaded through the kernel, everything else is a term. *)
Definition result_of (f : val) (args : list val) (kw : kwargs) : Py val :=
  let default := mret (VCall f args kw) in
  if is_builtin_val f "dict" then
    match args with [] => mret (VDict kw) | _ => default end
  else if is_builtin_val f "range" then
    match args, kw with [VInt n], [] => mret (VList (range_list n)) | _, _ => default end
  else if is_builtin_val f "enumerate" then
    match args, kw with
    | [v], [] =>
        match iter_items v with
        | Some l => mret (VList (enumerate_list l))
        | None => raise (not_iterable v)
        end
    | _, _ => default
    end
  else if is_builtin_val f "print" then mret VNone
  else if is_lib f "numpy" ["zeros"] then
    match args, kw with
    | [VTuple dims], [] =>
        match ints_of dims with Some shape => mret (zeros shape) | None => default end
    | _, _ => default
    end
  else if is_lib f "numpy" ["random"; "seed"] then
    match args, kw with
    | [VInt s], [] => _ ← put_rng (Gen (GSeed s) []); mret VNone
    | _, _ => default
    end
  else if is_lib f "numpy" ["random"; "normal"] then
    match args, kw with
    | [], [(key, VTuple dims)] =>
        match String.eqb key "size", ints_of dims with
        | true, Some shape =>
            g ← get_rng; _ ← put_rng (draw g shape); mret (VSample g shape)
        | _, _ => default
        end
    | _, _ => default
    end
  else default.

Definition apply (f : val) (args : list val) (kw : kwargs) : Py val :=
  if not_callable f then raise (TypeError "object is not callable")
  else _ ← perform (ACall f args kw); result_of f args kw.

(** [e.a]: the [size] of an array is computed, any other attribute of a
    library object is a term. *)
Definition getattr (v : val) (a : string) : val :=
  if String.eqb a "size" then
    match v, arange_items v with
    | VArray _, _ => VInt (array_size v)
    | _, Some l => VInt (Z.of_nat (length l))
    | _, None => VAttr v a
    end
  else VAttr v a.

Definition attr (e : Py val) (a : string) : Py val := v ← e; mret (getattr v a).

(** [f(args, kw)]: callee first, then positional and keyword arguments
    from left to right. *)
Definition call (f : Py val) (args : list (Py val)) (kw : list (string * Py val)) : Py val :=
  fv ← f; avs ← sequence args; kvs ← sequence_kw kw; apply fv avs kvs.

(** [e1 ** e2] with a library object on the right: its [__rpow__]. *)
Definition pow (e1 e2 : Py val) : Py val :=
  a ← e1; b ← e2; apply (VAttr b "__rpow__") [a] [].

(** [x.m(args, kw)] for a method that updates its receiver and returns
    it ([fit] of the scikit-learn estimators): afterwards [x] stands for
    the updated object. *)
Definition call_inplace (x m : string) (args : list (Py val)) (kw : list (string * Py val)) : Py val :=
  r ← call (attr (name x) m) args kw;
  _ ← mutate_name x r;
  mret r.

(** [x = e] *)
Definition assign (x : string) (e : Py val) : Py unit := v ← e; bind_name x v.

(** [x[i1, ..., in] = e]: the right-hand side first, then the target. *)
Definition assign_item (x : string) (idx : list (Py val)) (e : Py val) : Py unit :=
  v ← e;
  a ← name x;
  ixs ← sequence idx;
  match ints_of ixs with
  | Some zs =>
      match store_item a zs v with
      | inr a' => mutate_name x a'
      | inl err => raise err
      end
  | None => raise (TypeError "indices must be integers")
  end.

(** An expression statement: evaluated, value dropped. *)
Definition expr (e : Py val) : Py unit := _ ← e; mret tt.

(** Binding of loop targets, with tuple unpacking for several names. *)
Definition bind_targets (xs : list string) (v : val) : Py unit :=
  match xs with
  | [x] => bind_name x v
  | _ =>
      match iter_items v with
      | Some vs =>
          if (length xs =? length vs)%nat
          then (fix go (ps : list (string * val)) : Py unit :=
                  match ps with
                  | [] => mret tt
                  | (x, v) :: ps' => _ ← bind_name x v; go ps'
                  end) (combine xs vs)
          else raise (TypeError "cannot unpack")
      | None => raise (TypeError "cannot unpack")
      end
  end.

Fixpoint for_items (xs : list string) (items : list val) (body : Py unit) : Py unit :=
  match items with
  | [] => mret tt
  | v :: items' => _ ← bind_targets xs v; _ ← body; for_items xs items' body
  end.

(** [for xs in e: body] *)
Definition for_in (xs : list string) (e : Py val) (body : Py unit) : Py unit :=
  v ← e;
  match iter_items v with
  | Some items => for_items xs items body
  | None => raise (not_iterable v)
  end.

(** [import path as alias] *)
Definition import_as (path alias : string) : Py unit :=
  _ ← perform (AImport path); bind_name alias (VModule path).

(** [import path] for an undotted path *)
Definition import (path : string) : Py unit := import_as path path.

(** [from path import x1, ..., xn] *)
Definition from_import (path : string) (xs : list string) : Py unit :=
  _ ← perform (AImport path);
  (fix go (xs : list string) : Py unit :=
     match xs with
     | [] => mret tt
     | x :: xs' => _ ← bind_name x (VAttr (VModule path) x); go xs'
     end) xs.

(** [! cmd]: IPython runs the command and goes on whatever it exits with. *)
Definition shell (cmd : string) : Py unit :=
  emit (EAct (AShell cmd (exit_status cmd))).

(** Statements of a cell in order. *)
Fixpoint block (stmts : list (Py unit)) : Py unit :=
  match stmts with
  | [] => mret tt
  | s :: stmts' => _ ← s; block stmts'
  end.

Definition run_cell (n : nat) (body : Py unit) : Py unit :=
  _ ← emit (EEnter n); body.

End Cells.

(** ** The notebook  Ledoit-Wolf-vs-OAS-estimation.ipynb *)

Module Notebook.
Section Source.
Context `{W : World}.

(** In [1] *)
Definition version : Py unit := block [
  (* import sklearn *)
  import "sklearn";
  (* sklearn.__version__ *)
  expr (attr (name "sklearn") "__version__")
].

(** In [2] *)
Definition imports : Py unit := block [
  (* print(__doc__) *)
  expr (call (name "print") [name "__doc__"] []);
  (* import plotly.plotly as py *)
  import_as "plotly.plotly" "py";
  (* import plotly.graph_objs as go *)
  import_as "plotly.graph_objs" "go";
  (* import numpy as np *)
  import_as "numpy" "np";
  (* from scipy.linalg import toeplitz, cholesky *)
  from_import "scipy.linalg" ["toeplitz"; "cholesky"];
  (* from sklearn.covariance import LedoitWolf, OAS *)
  from_import "sklearn.covariance" ["LedoitWolf"; "OAS"]
].

(** Body of the inner loop of In [3]. *)
Definition simulate_once : Py unit := block [
  (* X = np.dot(
         np.random.normal(size=(n_samples, n_features)), coloring_matrix.T) *)
  assign "X"
    (call (attr (name "np") "dot")
       [ call (attr (attr (name "np") "random") "normal") []
           [("size", tuple_ [name "n_samples"; name "n_features"])];
         attr (name "coloring_matrix") "T" ] []);
  (* lw = LedoitWolf(store_precision=False, assume_centered=True) *)
  assign "lw"
    (call (name "LedoitWolf") []
       [("store_precision", False_); ("assume_centered", True_)]);
  (* lw.fit(X) *)
  expr (call_inplace "lw" "fit" [name "X"] []);
  (* lw_mse[i, j] = lw.error_norm(real_cov, scaling=False) *)
  assign_item "lw_mse" [name "i"; name "j"]
    (call (attr (name "lw") "error_norm") [name "real_cov"] [("scaling", False_)]);
  (* lw_shrinkage[i, j] = lw.shrinkage_ *)
  assign_item "lw_shrinkage" [name "i"; name "j"] (attr (name "lw") "shrinkage_");
  (* oa = OAS(store_precision=False, assume_centered=True) *)
  assign "oa"
    (call (name "OAS") []
       [("store_precision", False_); ("assume_centered", True_)]);
  (* oa.fit(X) *)
  expr (call_inplace "oa" "fit" [name "X"] []);
  (* oa_mse[i, j] = oa.error_norm(real_cov, scaling=False) *)
  assign_item "oa_mse" [name "i"; name "j"]
    (call (attr (name "oa") "error_norm") [name "real_cov"] [("scaling", False_)]);
  (* oa_shrinkage[i, j] = oa.shrinkage_ *)
  assign_item "oa_shrinkage" [name "i"; name "j"] (attr (name "oa") "shrinkage_")
].

(** np.zeros((n_samples_range.size, repeat)) *)
Definition zeros_like_results : Py val :=
  call (attr (name "np") "zeros")
    [tuple_ [attr (name "n_samples_range") "size"; name "repeat"]] [].

(** The statements of In [3] before the loop, after the seeding. *)
Definition setup : Py unit := block [
  (* n_features = 100 *)
  assign "n_features" (int_ 100);
  (* r = 0.1 *)
  assign "r" (float_ "0.1");
  (* real_cov = toeplitz(r ** np.arange(n_features)) *)
  assign "real_cov"
    (call (name "toeplitz")
       [pow (name "r") (call (attr (name "np") "arange") [name "n_features"] [])] []);
  (* coloring_matrix = cholesky(real_cov) *)
  assign "coloring_matrix" (call (name "cholesky") [name "real_cov"] []);
  (* n_samples_range = np.arange(6, 31, 1) *)
  assign "n_samples_range"
    (call (attr (name "np") "arange") [int_ 6; int_ 31; int_ 1] []);
  (* repeat = 100 *)
  assign "repeat" (int_ 100);
  (* lw_mse = np.zeros((n_samples_range.size, repeat)) *)
  assign "lw_mse" zeros_like_results;
  (* oa_mse = np.zeros((n_samples_range.size, repeat)) *)
  assign "oa_mse" zeros_like_results;
  (* lw_shrinkage = np.zeros((n_samples_range.size, repeat)) *)
  assign "lw_shrinkage" zeros_like_results;
  (* oa_shrinkage = np.zeros((n_samples_range.size, repeat)) *)
  assign "oa_shrinkage" zeros_like_results
].

(** for i, n_samples in enumerate(n_samples_range):
        for j in range(repeat): ... *)
Definition simulation : Py unit :=
  for_in ["i"; "n_samples"] (call (name "enumerate") [name "n_samples_range"] [])
    (for_in ["j"] (call (name "range") [name "repeat"] [])
       simulate_once).

(** np.random.seed(0) *)
Definition seeding : Py unit :=
  expr (call (attr (attr (name "np") "random") "seed") [int_ 0] []).

(** In [3] *)
Definition calculations : Py unit := block [seeding; setup; simulation].

(** go.Scatter(x=n_samples_range, y=ys, error_y=dict(visible=True,
    arrayminus=errs), name=label, mode='lines', line=dict(color=colour,
    width=2)): the shape shared by the four traces of In [4] and In [6]. *)
Definition line_trace (ys errs : Py val) (label colour : string) : Py val :=
  call (attr (name "go") "Scatter") []
    [ ("x", name "n_samples_range");
      ("y", ys);
      ("error_y", call (name "dict") [] [("visible", True_); ("arrayminus", errs)]);
      ("name", str_ label);
      ("mode", str_ "lines");
      ("line", call (name "dict") [] [("color", str_ colour); ("width", int_ 2)]) ].

(** x.mean(1) and x.std(1) *)
Definition mean1 (x : string) : Py val := call (attr (name x) "mean") [int_ 1] [].
Definition std1 (x : string) : Py val := call (attr (name x) "std") [int_ 1] [].

(** The last three statements of In [4] and In [6], which differ in the
    title of the y axis only. *)
Definition figure (ytitle : string) : list (Py unit) := [
  (* data = [Ledoit_Wolf, OAS] *)
  assign "data" (list_ [name "Ledoit_Wolf"; name "OAS"]);
  (* layout = go.Layout(title="Comparison of covariance estimators",
                        yaxis=dict(title=ytitle),
                        xaxis=dict(title="n_samples")) *)
  assign "layout"
    (call (attr (name "go") "Layout") []
       [ ("title", str_ "Comparison of covariance estimators");
         ("yaxis", call (name "dict") [] [("title", str_ ytitle)]);
         ("xaxis", call (name "dict") [] [("title", str_ "n_samples")]) ]);
  (* fig = go.Figure(data=data, layout=layout) *)
  assign "fig"
    (call (attr (name "go") "Figure") [] [("data", name "data"); ("layout", name "layout")])
].

(** In [4] *)
Definition plot_mse : Py unit := block (
  [ (* Ledoit_Wolf = go.Scatter(x=n_samples_range, y=lw_mse.mean(1),
         error_y=dict(visible=True, arrayminus=lw_mse.std(1)),
         name='Ledoit-Wolf', mode='lines', line= dict(color='navy', width=2)) *)
    assign "Ledoit_Wolf" (line_trace (mean1 "lw_mse") (std1 "lw_mse") "Ledoit-Wolf" "navy");
    (* OAS = go.Scatter(x=n_samples_range, y=oa_mse.mean(1),
         error_y=dict(visible=True, arrayminus=oa_mse.std(1)),
         name='OAS', mode='lines', line=dict(color='#FF8C00', width=2)) *)
    assign "OAS" (line_trace (mean1 "oa_mse") (std1 "oa_mse") "OAS" "#FF8C00") ]
  ++ figure "Squared error").

(** In [5] and In [7]: py.iplot(fig) *)
Definition show_figure : Py unit :=
  expr (call (attr (name "py") "iplot") [name "fig"] []).

(** In [6] *)
Definition plot_shrinkage : Py unit := block (
  [ (* Ledoit_Wolf = go.Scatter(x=n_samples_range, y=lw_shrinkage.mean(1),
         error_y=dict(visible=True, arrayminus=lw_mse.std(1)),
         name='Ledoit-Wolf', mode='lines', line= dict(color='navy', width=2)) *)
    assign "Ledoit_Wolf" (line_trace (mean1 "lw_shrinkage") (std1 "lw_mse") "Ledoit-Wolf" "navy");
    (* OAS = go.Scatter(x=n_samples_range, y=oa_shrinkage.mean(1),
         error_y=dict(visible=True, arrayminus=oa_shrinkage.std(1)),
         name='OAS', mode='lines', line=dict(color='#FF8C00', width=2)) *)
    assign "OAS" (line_trace (mean1 "oa_shrinkage") (std1 "oa_shrinkage") "OAS" "#FF8C00") ]
  ++ figure "Shrinkage").

Definition fonts_link : string :=
  "<link href=" +:+ dq +:+
  "//fonts.googleapis.com/css?family=Open+Sans:600,400,300,200|Inconsolata|Ubuntu+Mono:400,700"
  +:+ dq +:+ " rel=" +:+ dq +:+ "stylesheet" +:+ dq +:+ " type=" +:+ dq +:+ "text/css"
  +:+ dq +:+ " />".

Definition css_link : string :=
  "<link rel=" +:+ dq +:+ "stylesheet" +:+ dq +:+ " type=" +:+ dq +:+ "text/css" +:+ dq
  +:+ " href=" +:+ dq
  +:+ "http://help.plot.ly/documentation/all_static/css/ipython-notebook-custom.css"
  +:+ dq +:+ ">".

Definition pip_install : string :=
  "pip install git+https://github.com/plotly/publisher.git --upgrade".

(** The last code cell with a source (its prompt is In [2]: it was run in
    another session than the cells above). *)
Definition publish : Py unit := block [
  (* from IPython.display import display, HTML *)
  from_import "IPython.display" ["display"; "HTML"];
  (* display(HTML('<link href=... />')) *)
  expr (call (name "display") [call (name "HTML") [str_ fonts_link] []] []);
  (* display(HTML('<link rel=... >')) *)
  expr (call (name "display") [call (name "HTML") [str_ css_link] []] []);
  (* ! pip install git+https://github.com/plotly/publisher.git --upgrade *)
  shell pip_install;
  (* import publisher *)
  import "publisher";
  (* publisher.publish('Ledoit-Wolf-vs-OAS-estimation.ipynb', ...) *)
  expr (call (attr (name "publisher") "publish")
    [ str_ "Ledoit-Wolf-vs-OAS-estimation.ipynb";
      str_ "scikit-learn/plot-lw-vs-oas/";
      str_ "Ledoit-Wolf vs OAS Estimation | plotly";
      str_ " " ]
    [ ("title", str_ "Ledoit-Wolf vs OAS Estimation | plotly");
      ("name", str_ "Ledoit-Wolf vs OAS Estimation");
      ("has_thumbnail", str_ "true");
      ("thumbnail", str_ "thumbnail/ledoit.jpg");
      ("language", str_ "scikit-learn");
      ("page_type", str_ "example_index");
      ("display_as", str_ "covariance_estimation");
      ("order", int_ 1);
      ("ipynb", str_ "~Diksha_Gabha/2871") ])
].

(** The code cells in document order (the trailing empty cell has no
    statement). *)
Definition cells : list (Py unit) :=
  [ version; imports; calculations; plot_mse; show_figure;
    plot_shrinkage; show_figure; publish; block [] ].

End Source.
End Notebook.

(** ** The page  2015-06-30-error-bars.html *)

Module ErrorBars.
Section Source.
Context `{W : World}.

(** import plotly.plotly as py
    import plotly.graph_objs as go *)
Definition plotly_imports : list (Py unit) :=
  [ import_as "plotly.plotly" "py"; import_as "plotly.graph_objs" "go" ].

Definition ints (l : list Z) : Py val := list_ (map int_ l).
Definition floats (l : list string) : Py val := list_ (map float_ l).

(** py.iplot(data, filename=f) *)
Definition iplot_data (f : string) : Py unit :=
  expr (call (attr (name "py") "iplot") [name "data"] [("filename", str_ f)]).

(** In [1]: Basic Symmetric Error Bars *)
Definition basic : Py unit := block (plotly_imports ++ [
  (* data = [go.Scatter(x=[0, 1, 2], y=[6, 10, 2],
               error_y=dict(type='data', array=[1, 2, 3], visible=True))] *)
  assign "data" (list_ [
    call (attr (name "go") "Scatter") []
      [ ("x", ints [0; 1; 2]);
        ("y", ints [6; 10; 2]);
        ("error_y", call (name "dict") []
           [ ("type", str_ "data"); ("array", ints [1; 2; 3]); ("visible", True_) ]) ] ]);
  (* py.iplot(data, filename='basic-error-bar') *)
  iplot_data "basic-error-bar" ]).

(** In [2]: Asymmetric Error Bars *)
Definition asymmetric : Py unit := block (plotly_imports ++ [
  (* data = [go.Scatter(x=[1, 2, 3, 4], y=[2, 1, 3, 4],
               error_y=dict(type='data', symmetric=False,
                 array=[0.1, 0.2, 0.1, 0.1], arrayminus=[0.2, 0.4, 1, 0.2]))] *)
  assign "data" (list_ [
    call (attr (name "go") "Scatter") []
      [ ("x", ints [1; 2; 3; 4]);
        ("y", ints [2; 1; 3; 4]);
        ("error_y", call (name "dict") []
           [ ("type", str_ "data");
             ("symmetric", False_);
             ("array", floats ["0.1"; "0.2"; "0.1"; "0.1"]);
             ("arrayminus", list_ [float_ "0.2"; float_ "0.4"; int_ 1; float_ "0.2"]) ]) ] ]);
  (* py.iplot(data, filename='error-bar-asymmetric-array') *)
  iplot_data "error-bar-asymmetric-array" ]).

(** In [3]: Error Bars as a Percentage of the y Value *)
Definition percent : Py unit := block (plotly_imports ++ [
  (* data = [go.Scatter(x=[0, 1, 2], y=[6, 10, 2],
               error_y=dict(type='percent', value=50, visible=True))] *)
  assign "data" (list_ [
    call (attr (name "go") "Scatter") []
      [ ("x", ints [0; 1; 2]);
        ("y", ints [6; 10; 2]);
        ("error_y", call (name "dict") []
           [ ("type", str_ "percent"); ("value", int_ 50); ("visible", True_) ]) ] ]);
  (* py.iplot(data, filename='percent-error-bar') *)
  iplot_data "percent-error-bar" ]).

(** In [4]: Asymmetric Error Bars with a Constant Offset *)
Definition asymmetric_constant : Py unit := block (plotly_imports ++ [
  (* data = [go.Scatter(x=[1, 2, 3, 4], y=[2, 1, 3, 4],
               error_y=dict(type='percent', symmetric=False, value=15, valueminus=25))] *)
  assign "data" (list_ [
    call (attr (name "go") "Scatter") []
      [ ("x", ints [1; 2; 3; 4]);
        ("y", ints [2; 1; 3; 4]);
        ("error_y", call (name "dict") []
           [ ("type", str_ "percent");
             ("symmetric", False_);
             ("value", int_ 15);
             ("valueminus", int_ 25) ]) ] ]);
  (* py.iplot(data, filename='error-bar-asymmetric-constant') *)
  iplot_data "error-bar-asymmetric-constant" ]).

(** In [5]: Horizontal Error Bars *)
Definition horizontal : Py unit := block (plotly_imports ++ [
  (* data = [go.Scatter(x=[1, 2, 3, 4], y=[2, 1, 3, 4],
               error_x=dict(type='percent', value=10))] *)
  assign "data" (list_ [
    call (attr (name "go") "Scatter") []
      [ ("x", ints [1; 2; 3; 4]);
        ("y", ints [2; 1; 3; 4]);
        ("error_x", call (name "dict") []
           [ ("type", str_ "percent"); ("value", int_ 10) ]) ] ]);
  (* py.iplot(data, filename='error-bar-horizontal') *)
  iplot_data "error-bar-horizontal" ]).

(** go.Bar(x=['Trial 1', 'Trial 2', 'Trial 3'], y=ys, name=label,
      error_y=dict(type='data', array=errs, visible=True)) *)
Definition bar_trace (ys : list Z) (label : string) (errs : Py val) : Py val :=
  call (attr (name "go") "Bar") []
    [ ("x", list_ [str_ "Trial 1"; str_ "Trial 2"; str_ "Trial 3"]);
      ("y", ints ys);
      ("name", str_ label);
      ("error_y", call (name "dict") []
         [ ("type", str_ "data"); ("array", errs); ("visible", True_) ]) ].

(** In [6]: Bar Chart with Error Bars *)
Definition bar_chart : Py unit := block (plotly_imports ++ [
  (* trace1 = go.Bar(x=[...], y=[3, 6, 4], name='Control',
                error_y=dict(type='data', array=[1, 0.5, 1.5], visible=True)) *)
  assign "trace1"
    (bar_trace [3; 6; 4] "Control" (list_ [int_ 1; float_ "0.5"; float_ "1.5"]));
  (* trace2 = go.Bar(x=[...], y=[4, 7, 3], name='Experimental',
                error_y=dict(type='data', array=[0.5, 1, 2], visible=True)) *)
  assign "trace2"
    (bar_trace [4; 7; 3] "Experimental" (list_ [float_ "0.5"; int_ 1; int_ 2]));
  (* data = [trace1, trace2] *)
  assign "data" (list_ [name "trace1"; name "trace2"]);
  (* layout = go.Layout(barmode='group') *)
  assign "layout" (call (attr (name "go") "Layout") [] [("barmode", str_ "group")]);
  (* fig = go.Figure(data=data, layout=layout) *)
  assign "fig"
    (call (attr (name "go") "Figure") [] [("data", name "data"); ("layout", name "layout")]);
  (* py.iplot(fig, filename='error-bar-bar') *)
  expr (call (attr (name "py") "iplot") [name "fig"] [("filename", str_ "error-bar-bar")]) ]).

(** dict(type='constant', value=v, color='#85144B', thickness=1.5, width=3,) *)
Definition styled_error (v : string) : Py val :=
  call (name "dict") []
    [ ("type", str_ "constant");
      ("value", float_ v);
      ("color", str_ "#85144B");
      ("thickness", float_ "1.5");
      ("width", int_ 3) ].

(** In [1] (the seventh cell): Colored and Styled Error Bars *)
Definition styled : Py unit := block (plotly_imports ++ [
  (* import numpy as np *)
  import_as "numpy" "np";
  (* x_theo = np.linspace(-4, 4, 100) *)
  assign "x_theo" (call (attr (name "np") "linspace") [int_ (-4); int_ 4; int_ 100] []);
  (* sincx = np.sinc(x_theo) *)
  assign "sincx" (call (attr (name "np") "sinc") [name "x_theo"] []);
  (* x = [-3.8, -3.03, -1.91, -1.46, -0.89, -0.24, -0.0, 0.41, 0.89, 1.01,
          1.91, 2.28, 2.79, 3.56] *)
  assign "x" (floats ["-3.8"; "-3.03"; "-1.91"; "-1.46"; "-0.89"; "-0.24"; "-0.0";
                      "0.41"; "0.89"; "1.01"; "1.91"; "2.28"; "2.79"; "3.56"]);
  (* y = [-0.02, 0.04, -0.01, -0.27, 0.36, 0.75, 1.03, 0.65, 0.28, 0.02,
          -0.11, 0.16, 0.04, -0.15] *)
  assign "y" (floats ["-0.02"; "0.04"; "-0.01"; "-0.27"; "0.36"; "0.75"; "1.03";
                      "0.65"; "0.28"; "0.02"; "-0.11"; "0.16"; "0.04"; "-0.15"]);
  (* trace1 = go.Scatter(x=x_theo, y=sincx, name='sinc(x)') *)
  assign "trace1"
    (call (attr (name "go") "Scatter") []
       [ ("x", name "x_theo"); ("y", name "sincx"); ("name", str_ "sinc(x)") ]);
  (* trace2 = go.Scatter(x=x, y=y, mode='markers', name='measured',
                error_y=dict(...0.1...), error_x=dict(...0.2...),
                marker=dict(color='#85144B', size=8)) *)
  assign "trace2"
    (call (attr (name "go") "Scatter") []
       [ ("x", name "x");
         ("y", name "y");
         ("mode", str_ "markers");
         ("name", str_ "measured");
         ("error_y", styled_error "0.1");
         ("error_x", styled_error "0.2");
         ("marker", call (name "dict") [] [("color", str_ "#85144B"); ("size", int_ 8)]) ]);
  (* data = [trace1, trace2] *)
  assign "data" (list_ [name "trace1"; name "trace2"]);
  (* py.iplot(data, filename='error-bar-style') *)
  iplot_data "error-bar-style" ]).

Definition cells : list (Py unit) :=
  [ basic; asymmetric; percent; asymmetric_constant; horizontal; bar_chart; styled ].

End Source.
End ErrorBars.

(** ** Running a document *)

(** Cells run in document order in one kernel; the first exception stops
    the run. *)
Definition run_from (first : nat) (cells : list (Py unit)) : Py unit :=
  block (imap (fun i c => run_cell (first + i) c) cells).

Definition run_all (cells : list (Py unit)) : Py unit := run_from 1 cells.

(** ** Worlds and kernels *)

(** A world where every import and call succeeds and every shell command
    exits with [status]. *)
Definition world (status : Z) : World :=
  {| fails := fun _ => false; exit_status := fun _ => status |}.

(** The kernel IPython hands to the first cell. *)
Definition ipython_doc : string :=
  "Automatically created module for IPython interactive environment".

Definition fresh (g : gen) : kernel :=
  {| ns := {["__doc__" := VStr ipython_doc]}; rng := g; log := [] |}.

(** ** Reading a log *)

(** External actions in the order they happened. *)
Definition actions_of (l : list event) : list action :=
  fold_left (fun acc e => match e with EAct a => a :: acc | _ => acc end) l [].

Definition actions (k : kernel) : list action := actions_of (log k).

(** The events a computation added to the log, oldest first. *)
Definition added (before after : kernel) : list event :=
  reverse (take (length (log after) - length (log before)) (log after)).

Definition is_method (m : string) (a : action) : bool :=
  match a with
  | ACall (VAttr _ m') _ _ => String.eqb m m'
  | _ => false
  end.

(** Calls of [fit], of [py.iplot]. *)
Definition fits (l : list action) : list action := filter (fun a => is_method "fit" a) l.

Definition is_send (a : action) : bool :=
  match a with
  | ACall f _ _ => is_lib f "plotly.plotly" ["iplot"]
  | _ => false
  end.

Definition sends (l : list action) : list action := filter (fun a => is_send a) l.

(** *** Uses of names across cells *)

(** A use of a name in cell [user] whose binding dates from cell [binder]. *)
Record use : Type := Use { user : nat; used : string; binder : nat }.

Definition use_eqb (a b : use) : bool :=
  Nat.eqb (user a) (user b) && String.eqb (used a) (used b) && Nat.eqb (binder a) (binder b).

Definition add_use (u : use) (l : list use) : list use :=
  if existsb (use_eqb u) l then l else u :: l.

Record uses : Type := {
  current : nat;                 (* the cell being run *)
  bound_in : gmap string nat;    (* the cell that last bound each name *)
  reads : list use;              (* loads, most recent first, no repeats *)
  writes : list use              (* in-place changes, likewise *)
}.

Definition scan (s : uses) (e : event) : uses :=
  match e with
  | EEnter n =>
      {| current := n; bound_in := bound_in s; reads := reads s; writes := writes s |}
  | EBind x =>
      {| current := current s; bound_in := <[x := current s]> (bound_in s);
         reads := reads s; writes := writes s |}
  | ELoad x =>
      match bound_in s !! x with
      | Some c =>
          {| current := current s; bound_in := bound_in s;
             reads := add_use (Use (current s) x c) (reads s); writes := writes s |}
      | None => s
      end
  | EMutate x =>
      match bound_in s !! x with
      | Some c =>
          {| current := current s; bound_in := bound_in s;
             reads := reads s; writes := add_use (Use (current s) x c) (writes s) |}
      | None => s
      end
  | EAct _ => s
  end.

Definition scan_log (l : list event) : uses :=
  fold_left scan (reverse l) {| current := 0; bound_in := ∅; reads := []; writes := [] |}.

Definition crosses (u : use) : bool := negb (Nat.eqb (user u) (binder u)).

(** Loads, and in-place changes, of an object bound by another cell. *)
Definition cross_reads (k : kernel) : list use :=
  reverse (filter (fun u => crosses u) (reads (scan_log (log k)))).
Definition cross_writes (k : kernel) : list use :=
  reverse (filter (fun u => crosses u) (writes (scan_log (log k)))).
Definition all_writes (k : kernel) : list use := reverse (writes (scan_log (log k))).

(** *** Kinds of processing *)

Inductive kind : Type := Data | Stats | Chart | Send | Other.

Definition kind_eqb (a b : kind) : bool :=
  match a, b with
  | Data, Data | Stats, Stats | Chart, Chart | Send, Send | Other, Other => true
  | _, _ => false
  end.

(** The library an object comes from: its module, the module of what was
    called to make it, numpy for arrays and samples. *)
Fixpoint origin (v : val) : option string :=
  match v with
  | VModule p => Some p
  | VAttr o _ => origin o
  | VCall f _ _ => origin f
  | VArray _ | VSample _ _ => Some "numpy"
  | _ => None
  end.

(** The step of the documents' recipe a call belongs to; imports and the
    loop helpers [range] and [enumerate] belong to none. *)
Definition kind_of (a : action) : option kind :=
  match a with
  | AImport _ => None
  | AShell _ _ => Some Other
  | ACall (VBuiltin b) _ _ =>
      if String.eqb b "dict" then Some Chart
      else if String.eqb b "range" || String.eqb b "enumerate" then None
      else Some Other
  | ACall f _ _ =>
      match origin f with
      | Some p =>
          if String.eqb p "numpy" || String.eqb p "scipy.linalg" then Some Data
          else if String.eqb p "sklearn.covariance" then Some Stats
          else if String.eqb p "plotly.graph_objs" then Some Chart
          else if String.eqb p "plotly.plotly" then Some Send
          else Some Other
      | None => Some Other
      end
  end.

(** Kinds in order, a run of calls of one kind counted once. *)
Definition steps_of (l : list action) : list kind :=
  reverse (fold_left (fun acc a =>
    match kind_of a, acc with
    | None, _ => acc
    | Some k, k' :: _ => if kind_eqb k k' then acc else k :: acc
    | Some k, [] => [k]
    end) l []).

Definition steps (k : kernel) : list kind := steps_of (actions k).

(** The recipe of the specification: a dataset step, then possibly a
    statistics step, then a chart step, then a send step, nothing else. *)
Definition recipe (l : list kind) : bool :=
  list_eqb kind_eqb l [Data; Chart; Send] || list_eqb kind_eqb l [Data; Stats; Chart; Send].

(** ** What the notebook computes, in closed form *)

Module Expected.

Definition numpy : val := VModule "numpy".
Definition go : val := VModule "plotly.graph_objs".
Definition toeplitz : val := VAttr (VModule "scipy.linalg") "toeplitz".
Definition cholesky : val := VAttr (VModule "scipy.linalg") "cholesky".
Definition LedoitWolf : val := VAttr (VModule "sklearn.covariance") "LedoitWolf".
Definition OAS : val := VAttr (VModule "sklearn.covariance") "OAS".

Definition n_features : Z := 100.
Definition repeat : nat := 100.
Definition n_samples_range : val :=
  VCall (VAttr numpy "arange") [VInt 6; VInt 31; VInt 1] [].

(** toeplitz(r ** np.arange(n_features)) and its Cholesky factor *)
Definition real_cov : val :=
  VCall toeplitz
    [VCall (VAttr (VCall (VAttr numpy "arange") [VInt n_features] []) "__rpow__")
       [VFloat "0.1"] []] [].
Definition coloring_matrix : val := VCall cholesky [real_cov] [].

(** Sample size of row [i], shape of its draws. *)
Definition n_samples (i : nat) : Z := 6 + Z.of_nat i.
Definition shape (i : nat) : list Z := [n_samples i; n_features].

(** Generator state when iteration [(i, j)] draws: seeded with 0, then
    [repeat] draws for each earlier row and [j] draws for this row. *)
Definition draws_before (i j : nat) : list (list Z * Z) :=
  (if (0 <? j)%nat then [(shape i, Z.of_nat j)] else [])
  ++ map (fun i' => (shape i', Z.of_nat repeat)) (reverse (seq 0 i)).
Definition gen_at (i j : nat) : gen := Gen (GSeed 0) (draws_before i j).

(** The sample matrix [X] of iteration [(i, j)]. *)
Definition X (i j : nat) : val :=
  VCall (VAttr numpy "dot") [VSample (gen_at i j) (shape i); VAttr coloring_matrix "T"] [].

(** cls(store_precision=False, assume_centered=True), and the same
    estimator after fit(x). *)
Definition estimator (cls : val) : val :=
  VCall cls [] [("store_precision", VBool false); ("assume_centered", VBool true)].
Definition fitted (cls x : val) : val := VCall (VAttr (estimator cls) "fit") [x] [].

Definition mse (cls : val) (i j : nat) : val :=
  VCall (VAttr (fitted cls (X i j)) "error_norm") [real_cov] [("scaling", VBool false)].
Definition shrinkage (cls : val) (i j : nat) : val :=
  VAttr (fitted cls (X i j)) "shrinkage_".

(** A 25 x 100 array with entry [f i j] at [(i, j)]. *)
Definition table_rows (f : nat -> nat -> val) : list val :=
  map (fun i => VArray (map (f i) (seq 0 repeat))) (seq 0 25).
Definition table (f : nat -> nat -> val) : val := VArray (table_rows f).

Definition lw_mse : val := table (mse LedoitWolf).
Definition oa_mse : val := table (mse OAS).
Definition lw_shrinkage : val := table (shrinkage LedoitWolf).
Definition oa_shrinkage : val := table (shrinkage OAS).

(** The four arrays in the order [lw_mse], [oa_mse], [lw_shrinkage],
    [oa_shrinkage]. *)
Definition results : list (option val) :=
  [Some lw_mse; Some oa_mse; Some lw_shrinkage; Some oa_shrinkage].

(** The two fit calls of iteration [(i, j)], and all of them in order. *)
Definition fit_pair (i j : nat) : list action :=
  [ ACall (VAttr (estimator LedoitWolf) "fit") [X i j] [];
    ACall (VAttr (estimator OAS) "fit") [X i j] [] ].
Definition all_fits : list action :=
  flat_map (fun i => flat_map (fit_pair i) (seq 0 repeat)) (seq 0 25).

(** x.mean(1), x.std(1) *)
Definition mean1 (x : val) : val := VCall (VAttr x "mean") [VInt 1] [].
Definition std1 (x : val) : val := VCall (VAttr x "std") [VInt 1] [].

Definition line_trace (ys errs : val) (label colour : string) : val :=
  VCall (VAttr go "Scatter") []
    [ ("x", n_samples_range);
      ("y", ys);
      ("error_y", VDict [("visible", VBool true); ("arrayminus", errs)]);
      ("name", VStr label);
      ("mode", VStr "lines");
      ("line", VDict [("color", VStr colour); ("width", VInt 2)]) ].

Definition figure (lw oa : val) (ytitle : string) : val :=
  VCall (VAttr go "Figure") []
    [ ("data", VList [lw; oa]);
      ("layout",
       VCall (VAttr go "Layout") []
         [ ("title", VStr "Comparison of covariance estimators");
           ("yaxis", VDict [("title", VStr ytitle)]);
           ("xaxis", VDict [("title", VStr "n_samples")]) ]) ].

(** The figures of In [4] and In [6], given the four result arrays. *)
Definition mse_figure (lw_mse oa_mse : val) : val :=
  figure (line_trace (mean1 lw_mse) (std1 lw_mse) "Ledoit-Wolf" "navy")
         (line_trace (mean1 oa_mse) (std1 oa_mse) "OAS" "#FF8C00")
         "Squared error".

Definition shrinkage_lw_trace (lw_mse lw_shrinkage : val) : val :=
  line_trace (mean1 lw_shrinkage) (std1 lw_mse) "Ledoit-Wolf" "navy".
Definition shrinkage_oa_trace (oa_shrinkage : val) : val :=
  line_trace (mean1 oa_shrinkage) (std1 oa_shrinkage) "OAS" "#FF8C00".

Definition shrinkage_figure (lw_mse lw_shrinkage oa_shrinkage : val) : val :=
  figure (shrinkage_lw_trace lw_mse lw_shrinkage) (shrinkage_oa_trace oa_shrinkage)
         "Shrinkage".

Definition iplot : val := VAttr (VModule "plotly.plotly") "iplot".

(** The two calls of py.iplot. *)
Definition sends_of (lw_mse oa_mse lw_shrinkage oa_shrinkage : val) : list action :=
  [ ACall iplot [mse_figure lw_mse oa_mse] [];
    ACall iplot [shrinkage_figure lw_mse lw_shrinkage oa_shrinkage] [] ].

Definition all_sends : list action := sends_of lw_mse oa_mse lw_shrinkage oa_shrinkage.

(** Steps of the notebook: the printing of [__doc__], the simulation
    alternating draws and fits, two rounds of summarising, chart
    building and sending, the publishing cell. *)
Definition all_steps : list kind :=
  [Other] ++ concat (replicate 2500 [Data; Stats])
  ++ [Data; Chart; Data; Chart; Send; Data; Chart; Data; Chart; Send; Other].


(** *** Actions of the first three cells *)

Definition doc : val := VStr ipython_doc.
Definition py : val := VModule "plotly.plotly".
Definition np_random (f : string) : val := VAttr (VAttr numpy "random") f.
Definition zeros_call : action :=
  ACall (VAttr numpy "zeros") [VTuple [VInt 25; VInt (Z.of_nat repeat)]] [].

(** In [1] and In [2]. *)
Definition import_actions : list action :=
  [ AImport "sklearn";
    ACall (VBuiltin "print") [doc] [];
    AImport "plotly.plotly";
    AImport "plotly.graph_objs";
    AImport "numpy";
    AImport "scipy.linalg";
    AImport "sklearn.covariance" ].

(** In [3] up to the loop. *)
Definition setup_actions : list action :=
  [ ACall (np_random "seed") [VInt 0] [];
    ACall (VAttr numpy "arange") [VInt n_features] [];
    ACall (VAttr (VCall (VAttr numpy "arange") [VInt n_features] []) "__rpow__")
      [VFloat "0.1"] [];
    ACall toeplitz
      [VCall (VAttr (VCall (VAttr numpy "arange") [VInt n_features] []) "__rpow__")
         [VFloat "0.1"] []] [];
    ACall cholesky [real_cov] [];
    ACall (VAttr numpy "arange") [VInt 6; VInt 31; VInt 1] [];
    zeros_call; zeros_call; zeros_call; zeros_call;
    ACall (VBuiltin "enumerate") [n_samples_range] [] ].

(** One pass through the body of the loop. *)
Definition actions_once (i j : nat) : list action :=
  [ ACall (np_random "normal") [] [("size", VTuple [VInt (n_samples i); VInt n_features])];
    ACall (VAttr numpy "dot") [VSample (gen_at i j) (shape i); VAttr coloring_matrix "T"] [];
    ACall LedoitWolf [] [("store_precision", VBool false); ("assume_centered", VBool true)];
    ACall (VAttr (estimator LedoitWolf) "fit") [X i j] [];
    ACall (VAttr (fitted LedoitWolf (X i j)) "error_norm") [real_cov] [("scaling", VBool false)];
    ACall OAS [] [("store_precision", VBool false); ("assume_centered", VBool true)];
    ACall (VAttr (estimator OAS) "fit") [X i j] [];
    ACall (VAttr (fitted OAS (X i j)) "error_norm") [real_cov] [("scaling", VBool false)] ].

(** One row: the inner loop evaluates [range(repeat)], then runs its body
    [repeat] times. *)
Definition actions_row (i : nat) : list action :=
  ACall (VBuiltin "range") [VInt (Z.of_nat repeat)] []
  :: flat_map (actions_once i) (seq 0 repeat).

Definition loop_actions : list action := flat_map actions_row (seq 0 25).

(** In [3], and the first three cells. *)
Definition cell3_actions : list action := setup_actions ++ loop_actions.
Definition calc_actions : list action := import_actions ++ cell3_actions.

(** The log after In [1] and In [2], most recent event first. *)
Definition imports_log : list event :=
  [ EBind "OAS"; EBind "LedoitWolf"; EAct (AImport "sklearn.covariance");
    EBind "cholesky"; EBind "toeplitz"; EAct (AImport "scipy.linalg");
    EBind "np"; EAct (AImport "numpy");
    EBind "go"; EAct (AImport "plotly.graph_objs");
    EBind "py"; EAct (AImport "plotly.plotly");
    EAct (ACall (VBuiltin "print") [doc] []); ELoad "__doc__"; ELoad "print";
    EEnter 2;
    ELoad "sklearn"; EBind "sklearn"; EAct (AImport "sklearn");
    EEnter 1 ].

(** The namespace In [2] leaves in a fresh kernel. *)
Definition after_imports : gmap string val :=
  list_to_map
    [ ("__doc__", doc);
      ("sklearn", VModule "sklearn");
      ("py", py);
      ("go", go);
      ("np", numpy);
      ("toeplitz", toeplitz);
      ("cholesky", cholesky);
      ("LedoitWolf", LedoitWolf);
      ("OAS", OAS) ].

(** *** The namespace after In [3] *)

(** The names the first three cells bind, with the four result arrays
    left open. *)
Definition after_calc (a b c d : val) : gmap string val :=
  list_to_map
    [ ("__doc__", doc);
      ("sklearn", VModule "sklearn");
      ("py", py);
      ("go", go);
      ("np", numpy);
      ("toeplitz", toeplitz);
      ("cholesky", cholesky);
      ("LedoitWolf", LedoitWolf);
      ("OAS", OAS);
      ("n_features", VInt n_features);
      ("r", VFloat "0.1");
      ("real_cov", real_cov);
      ("coloring_matrix", coloring_matrix);
      ("n_samples_range", n_samples_range);
      ("repeat", VInt (Z.of_nat repeat));
      ("lw_mse", a);
      ("oa_mse", b);
      ("lw_shrinkage", c);
      ("oa_shrinkage", d);
      ("i", VInt 24);
      ("n_samples", VInt 30);
      ("j", VInt 99);
      ("X", X 24 99);
      ("lw", fitted LedoitWolf (X 24 99));
      ("oa", fitted OAS (X 24 99)) ].

(** The generator after the 2500 draws. *)
Definition gen_after : gen := gen_at 25 0.

(** Uses of names up to the end of In [3]. *)
Definition uses_after_calc : uses :=
  {| current := 3;
     bound_in := list_to_map
       [ ("sklearn", 1%nat); ("py", 2%nat); ("go", 2%nat); ("np", 2%nat);
         ("toeplitz", 2%nat); ("cholesky", 2%nat); ("LedoitWolf", 2%nat); ("OAS", 2%nat);
         ("n_features", 3%nat); ("r", 3%nat); ("real_cov", 3%nat);
         ("coloring_matrix", 3%nat); ("n_samples_range", 3%nat); ("repeat", 3%nat);
         ("lw_mse", 3%nat); ("oa_mse", 3%nat); ("lw_shrinkage", 3%nat);
         ("oa_shrinkage", 3%nat); ("i", 3%nat); ("n_samples", 3%nat); ("j", 3%nat);
         ("X", 3%nat); ("lw", 3%nat); ("oa", 3%nat) ];
     reads := map (fun p => Use p.1.1 p.1.2 p.2)
       [ (3, "oa_shrinkage", 3); (3, "oa_mse", 3); (3, "oa", 3); (3, "OAS", 2);
         (3, "lw_shrinkage", 3); (3, "j", 3); (3, "i", 3); (3, "lw_mse", 3);
         (3, "X", 3); (3, "lw", 3); (3, "LedoitWolf", 2); (3, "coloring_matrix", 3);
         (3, "n_samples", 3); (3, "repeat", 3); (3, "n_samples_range", 3);
         (3, "real_cov", 3); (3, "cholesky", 2); (3, "n_features", 3); (3, "r", 3);
         (3, "toeplitz", 2); (3, "np", 2); (1, "sklearn", 1) ]%nat;
     writes := map (fun p => Use p.1.1 p.1.2 p.2)
       [ (3, "oa_shrinkage", 3); (3, "oa_mse", 3); (3, "oa", 3);
         (3, "lw_shrinkage", 3); (3, "lw_mse", 3); (3, "lw", 3) ]%nat |}.

(** *** The namespace at the end of the notebook *)

(** In [4] to In [7] rebind [Ledoit_Wolf], [OAS], [data], [layout] and
    [fig], last to the traces and figure of the shrinkage plot; the
    publishing cell adds its three imports. *)
Definition after_publish (a b c d : val) : gmap string val :=
  <["publisher" := VModule "publisher"]>
  (<["HTML" := VAttr (VModule "IPython.display") "HTML"]>
  (<["display" := VAttr (VModule "IPython.display") "display"]>
  (<["fig" := shrinkage_figure a c d]>
  (<["layout" := VCall (VAttr go "Layout") []
       [ ("title", VStr "Comparison of covariance estimators");
         ("yaxis", VDict [("title", VStr "Shrinkage")]);
         ("xaxis", VDict [("title", VStr "n_samples")]) ]]>
  (<["data" := VList [shrinkage_lw_trace a c; shrinkage_oa_trace d]]>
  (<["OAS" := shrinkage_oa_trace d]>
  (<["Ledoit_Wolf" := shrinkage_lw_trace a c]>
  (after_calc a b c d)))))))).

(** Uses of names over the whole notebook: the loads across cells. *)
Definition cross_reads : list use :=
  map (fun p => Use p.1.1 p.1.2 p.2)
    [ (3, "np", 2); (3, "toeplitz", 2); (3, "cholesky", 2); (3, "LedoitWolf", 2);
      (3, "OAS", 2);
      (4, "go", 2); (4, "n_samples_range", 3); (4, "lw_mse", 3); (4, "oa_mse", 3);
      (5, "py", 2); (5, "fig", 4);
      (6, "go", 2); (6, "n_samples_range", 3); (6, "lw_shrinkage", 3); (6, "lw_mse", 3);
      (6, "oa_shrinkage", 3);
      (7, "py", 2); (7, "fig", 6) ]%nat.

(** The objects changed in place, all of them in In [3]. *)
Definition all_writes : list use :=
  map (fun p => Use p.1.1 p.1.2 p.2)
    [ (3, "lw", 3); (3, "lw_mse", 3); (3, "lw_shrinkage", 3);
      (3, "oa", 3); (3, "oa_mse", 3); (3, "oa_shrinkage", 3) ]%nat.

(** The actions of the publishing cell, given what pip exits with. *)
Definition html (link : string) : val :=
  VCall (VAttr (VModule "IPython.display") "HTML") [VStr link] [].

Definition publish_actions (st : Z) : list action :=
  [ AImport "IPython.display";
    ACall (VAttr (VModule "IPython.display") "HTML") [VStr Notebook.fonts_link] [];
    ACall (VAttr (VModule "IPython.display") "display") [html Notebook.fonts_link] [];
    ACall (VAttr (VModule "IPython.display") "HTML") [VStr Notebook.css_link] [];
    ACall (VAttr (VModule "IPython.display") "display") [html Notebook.css_link] [];
    AShell Notebook.pip_install st;
    AImport "publisher";
    ACall (VAttr (VModule "publisher") "publish")
      [ VStr "Ledoit-Wolf-vs-OAS-estimation.ipynb";
        VStr "scikit-learn/plot-lw-vs-oas/";
        VStr "Ledoit-Wolf vs OAS Estimation | plotly";
        VStr " " ]
      [ ("title", VStr "Ledoit-Wolf vs OAS Estimation | plotly");
        ("name", VStr "Ledoit-Wolf vs OAS Estimation");
        ("has_thumbnail", VStr "true");
        ("thumbnail", VStr "thumbnail/ledoit.jpg");
        ("language", VStr "scikit-learn");
        ("page_type", VStr "example_index");
        ("display_as", VStr "covariance_estimation");
        ("order", VInt 1);
        ("ipynb", VStr "~Diksha_Gabha/2871") ] ].

End Expected.

(** ** Stored outputs *)

(** What a document keeps under a code cell: text written to a stream,
    line by line, or a displayed value with its plain and HTML forms. *)
Inductive output : Type :=
| Stream (channel : string) (lines : list string)
| Shown (plain : string) (html : option string).

Definition esc : string := String (ascii_of_nat 27) EmptyString.
Definition backspace : string := String (ascii_of_nat 8) EmptyString.

(** <iframe id="igraph" ... src="..." height="525px" width="100%"></iframe> *)
Definition iframe (src : string) : string :=
  "<iframe id=" +:+ dq +:+ "igraph" +:+ dq +:+ " scrolling=" +:+ dq +:+ "no" +:+ dq
  +:+ " style=" +:+ dq +:+ "border:none;" +:+ dq +:+ " seamless=" +:+ dq +:+ "seamless" +:+ dq
  +:+ " src=" +:+ dq +:+ src +:+ dq +:+ " height=" +:+ dq +:+ "525px" +:+ dq
  +:+ " width=" +:+ dq +:+ "100%" +:+ dq +:+ "></iframe>".

Definition plot (src : string) : output :=
  Shown "<plotly.tools.PlotlyDisplay object>" (Some (iframe src)).

(** The command line pip reports, twice, in its transcript. *)
Definition setup_command : string :=
  "/usr/bin/python -u -c " +:+ dq
  +:+ "import setuptools, tokenize;__file__='/tmp/pip-mhXnyL-build/setup.py';"
  +:+ "exec(compile(getattr(tokenize, 'open', open)(__file__).read().replace('\r\n', '\n'), __file__, 'exec'))"
  +:+ dq
  +:+ " install --record /tmp/pip-neKoOx-record/install-record.txt"
  +:+ " --single-version-externally-managed --compile".

Definition pip_transcript : list string := [
  "Collecting git+https://github.com/plotly/publisher.git";
  "  Cloning https://github.com/plotly/publisher.git to /tmp/pip-mhXnyL-build";
  "Installing collected packages: publisher";
  "  Running setup.py install for publisher ... " +:+ esc +:+ "[?25l-" +:+ backspace
    +:+ " " +:+ backspace +:+ "error";
  "    Complete output from command " +:+ setup_command +:+ ":";
  "    running install";
  "    running build";
  "    running build_py";
  "    creating build";
  "    creating build/lib.linux-x86_64-2.7";
  "    creating build/lib.linux-x86_64-2.7/publisher";
  "    copying publisher/publisher.py -> build/lib.linux-x86_64-2.7/publisher";
  "    copying publisher/__init__.py -> build/lib.linux-x86_64-2.7/publisher";
  "    running install_lib";
  "    creating /usr/local/lib/python2.7/dist-packages/publisher";
  "    error: could not create '/usr/local/lib/python2.7/dist-packages/publisher': Permission denied";
  "    ";
  "    ----------------------------------------";
  esc +:+ "[31mCommand " +:+ dq +:+ setup_command +:+ dq
    +:+ " failed with error code 1 in /tmp/pip-mhXnyL-build/" +:+ esc +:+ "[0m";
  esc +:+ "[33mYou are using pip version 8.1.2, however version 9.0.1 is available.";
  "You should consider upgrading via the 'pip install --upgrade pip' command." +:+ esc +:+ "[0m";
  esc +:+ "[?25h"
].

(** A code cell as a document stores it: the number in its prompt and the
    outputs kept under it. *)
Record stored : Type := Stored {
  prompt : option nat;
  outputs : list output
}.

Definition html_object : string := "<IPython.core.display.HTML object>".

Definition notebook_stored : list stored := [
  Stored (Some 1%nat) [Shown "'0.18'" None];
  Stored (Some 2%nat) [Stream "stdout" [ipython_doc]];
  Stored (Some 3%nat) [];
  Stored (Some 4%nat) [];
  Stored (Some 5%nat) [plot "https://plot.ly/~Diksha_Gabha/2867.embed"];
  Stored (Some 6%nat) [];
  Stored (Some 7%nat) [plot "https://plot.ly/~Diksha_Gabha/2869.embed"];
  Stored (Some 2%nat)
    [ Shown html_object (Some Notebook.fonts_link);
      Shown html_object (Some Notebook.css_link);
      Stream "stdout" pip_transcript ];
  Stored None []
].

Definition error_bars_stored : list stored := [
  Stored (Some 1%nat) [plot "https://plot.ly/~PythonPlotBot/2622.embed"];
  Stored (Some 2%nat) [plot "https://plot.ly/~PythonPlotBot/2624.embed"];
  Stored (Some 3%nat) [plot "https://plot.ly/~PythonPlotBot/2626.embed"];
  Stored (Some 4%nat) [plot "https://plot.ly/~PythonPlotBot/2628.embed"];
  Stored (Some 5%nat) [plot "https://plot.ly/~PythonPlotBot/2630.embed"];
  Stored (Some 6%nat) [plot "https://plot.ly/~PythonPlotBot/2632.embed"];
  Stored (Some 1%nat) [plot "https://plot.ly/~jordanpeterson/440.embed"]
].

(** [needle] occurs in [hay]. *)
Fixpoint occurs_in (needle hay : string) : bool :=
  String.prefix needle hay ||
  match hay with
  | EmptyString => false
  | String _ rest => occurs_in needle rest
  end.

Definition text_of (o : output) : list string :=
  match o with
  | Stream _ lines => lines
  | Shown plain (Some html) => [plain; html]
  | Shown plain None => [plain]
  end.

Definition mentions (needle : string) (o : output) : bool :=
  existsb (occurs_in needle) (text_of o).

(** A transcript of a package installation that failed: pip installing
    [package] ran into an error. *)
Definition failed_install (package : string) (o : output) : bool :=
  mentions ("Installing collected packages: " +:+ package) o
  && mentions "Permission denied" o
  && mentions "failed with error code 1" o.

(** Any trace of a failure in an output: pip's or a Python traceback. *)
Definition shows_failure (o : output) : bool :=
  mentions "failed with error code" o || mentions "Traceback" o
  || mentions "Error" o || mentions "error:" o.

Definition all_outputs : list output :=
  flat_map outputs (notebook_stored ++ error_bars_stored).

(** ** Front matter of the error bars page *)

(** Lines 2 to 15 of the page, between the two [---] lines. *)
Definition front_matter : list string := [
  "permalink: python/error-bars/";
  "description: How to add error-bars to charts in Python with Plotly.";
  "name: Error Bars | plotly";
  "has_thumbnail: true";
  "thumbnail: thumbnail/error-bar.jpg";
  "layout: user-guide";
  "name: Error Bars";
  "language: python";
  "title: Error Bars | plotly";
  "display_as: statistical";
  "has_thumbnail: true";
  "page_type: example_index";
  "order: 1";
  "ipynb: ~notebook_demo/18"
].

(** A [key: value] line split at its first colon, the blank after the
    colon dropped. *)
Fixpoint split_colon (s : string) : option (string * string) :=
  match s with
  | EmptyString => None
  | String c rest =>
      if Ascii.eqb c ":"%char
      then Some (EmptyString,
                 match rest with
                 | String d rest' => if Ascii.eqb d " "%char then rest' else rest
                 | EmptyString => rest
                 end)
      else match split_colon rest with
           | Some (k, v) => Some (String c k, v)
           | None => None
           end
  end.

Definition metadata : list (string * string) := omap split_colon front_matter.

(** The site generator reads the front matter as a YAML mapping: of two
    lines with one key, the later one counts. *)
Definition field (key : string) : option string :=
  snd <$> find (fun p => String.eqb key p.1) (reverse metadata).

Definition occurrences (key : string) : nat :=
  length (filter (fun p => String.eqb key p.1 = true) metadata).

(** ** The documents as runs *)

Section Runs.
Context `{W : World}.

(** The first three code cells of the notebook, and the rest. *)
Definition notebook_first : list (Py unit) :=
  [ run_cell 1 Notebook.version; run_cell 2 Notebook.imports;
    run_cell 3 Notebook.calculations ].

Definition notebook_later : list (Py unit) :=
  [ run_cell 4 Notebook.plot_mse; run_cell 5 Notebook.show_figure;
    run_cell 6 Notebook.plot_shrinkage; run_cell 7 Notebook.show_figure;
    run_cell 8 Notebook.publish; run_cell 9 (block []) ].

(** The cells before In [3], In [3] and all after it, and what follows
    the seeding in In [3] and after. *)
Definition notebook_imports : list (Py unit) :=
  [ run_cell 1 Notebook.version; run_cell 2 Notebook.imports ].

Definition from_calc : list (Py unit) :=
  run_cell 3 Notebook.calculations :: notebook_later.

Definition rest_of_calc : list (Py unit) :=
  [ Notebook.setup; Notebook.simulation ].

Definition notebook : Py unit := run_all Notebook.cells.
Definition error_bars : Py unit := run_all ErrorBars.cells.

End Runs.

(** A kernel whose namespace is the one In [3] leaves, with the given
    result arrays, generator and log. *)
Definition calc_kernel (a b c d : val) (r : gen) (l : list event) : kernel :=
  {| ns := Expected.after_calc a b c d; rng := r; log := l |}.

(** What the later cells of the notebook add to the log, most recent
    first, when the result arrays hold the rows [a], [b], [c], [d]. *)
Definition later_log (st : Z) (a b c d : list val) : list event :=
  log (final (block (notebook_later (W:=world st))
                (calc_kernel (VArray a) (VArray b) (VArray c) (VArray d) (Gen (GStart 0) []) []))).

(** The actions of the later cells, and of In [3] and the later cells. *)
Definition later_actions (st : Z) : list action :=
  actions_of (later_log st (Expected.table_rows (Expected.mse Expected.LedoitWolf))
                (Expected.table_rows (Expected.mse Expected.OAS))
                (Expected.table_rows (Expected.shrinkage Expected.LedoitWolf))
                (Expected.table_rows (Expected.shrinkage Expected.OAS))).

(** The kernel after In [1] and In [2], from a fresh kernel. *)
Definition imports_kernel (g : gen) : kernel :=
  {| ns := Expected.after_imports; rng := g; log := Expected.imports_log |}.

(** The kernel the error bars page leaves, and what the page adds to the
    log, most recent first. *)
Definition bars_kernel (g : gen) : kernel :=
  final (error_bars (W:=world 0) (fresh g)).

Definition bars_log : list event := log (bars_kernel (Gen (GStart 0) [])).

(** The kernel right after [np.random.seed(0)] in In [3]. *)
Definition seeded (k : kernel) : kernel :=
  {| ns := ns k; rng := Gen (GSeed 0) [];
     log := [ EAct (ACall (Expected.np_random "seed") [VInt 0] []); ELoad "np"; EEnter 3 ]
            ++ log k |}.

(** The actions between two states of a kernel. *)
Definition new_actions (before after : kernel) : list action :=
  actions_of (take (length (log after) - length (log before)) (log after)).

(** No object bound in one cell is loaded or changed in place by another
    cell. *)
Definition isolated (k : kernel) : Prop := cross_reads k = [] /\ cross_writes k = [].

(** In a list of steps, every send follows directly on a chart step. *)
Fixpoint sends_follow_charts (l : list kind) : bool :=
  match l with
  | [] => true
  | Send :: _ => false
  | Chart :: Send :: l' => sends_follow_charts l'
  | _ :: l' => sends_follow_charts l'
  end.

(** The figure a call of py.iplot submits, the traces of a figure, and
    [error_y.arrayminus] of a trace. *)
Definition submitted (a : action) : option val :=
  match a with
  | ACall _ (v :: _) _ => Some v
  | _ => None
  end.

Definition traces_of (fig : val) : list val :=
  match fig with
  | VCall _ _ kw =>
      match kw_lookup kw "data" with
      | Some (VList l) => l
      | _ => []
      end
  | _ => []
  end.

Definition trace_field (trace : val) (x : string) : option val :=
  match trace with
  | VCall _ _ kw => kw_lookup kw x
  | _ => None
  end.

Definition error_minus (trace : val) : option val :=
  match trace with
  | VCall _ _ kw =>
      match kw_lookup kw "error_y" with
      | Some (VDict d) => kw_lookup d "arrayminus"
      | _ => None
      end
  | _ => None
  end.

(** Rows of an array value. *)
Definition rows (v : val) : list val :=
  match v with VArray l => l | _ => [] end.

(** Entry [(i, j)] of a two-dimensional array. *)
Definition entry (v : val) (i j : nat) : option val :=
  match v with
  | VArray l =>
      match l !! i with
      | Some (VArray r) => r !! j
      | _ => None
      end
  | _ => None
  end.

(** Number of rows, and the length of each row. *)
Definition dims (v : val) : nat * list nat :=
  (length (rows v), map (fun r => length (rows r)) (rows v)).

(** The four result arrays in a namespace. *)
Definition results (k : kernel) : list (option val) :=
  map (fun x => ns k !! x) ["lw_mse"; "oa_mse"; "lw_shrinkage"; "oa_shrinkage"].

(** ** Cells that cannot tell two kernels apart *)

Definition mem (x : string) (names : list string) : bool :=
  existsb (String.eqb x) names.

(** Two kernels with the same generator state and the same bindings for
    [names]. *)
Definition agree (names : list string) (k1 k2 : kernel) : Prop :=
  rng k1 = rng k2 /\ forall x, mem x names = true -> ns k1 !! x = ns k2 !! x.

(** Both runs added the same events. *)
Definition same_added (k1 k1' k2 k2' : kernel) : Prop :=
  exists evs, log k1' = evs ++ log k1 /\ log k2' = evs ++ log k2.

(** [m] reads no more of the kernel than the generator and [names]: from
    kernels that agree on them it returns the same value or raises the
    same exception, adds the same events, and leaves kernels that agree
    on [names']. *)
Definition sim {A} (names names' : list string) (m : Py A) : Prop :=
  forall k1 k2, agree names k1 k2 ->
    match m k1, m k2 with
    | Ok a1 k1', Ok a2 k2' =>
        a1 = a2 /\ agree names' k1' k2' /\ same_added k1 k1' k2 k2'
    | Raise e1 k1', Raise e2 k2' => e1 = e2 /\ same_added k1 k1' k2 k2'
    | _, _ => False
    end.

(** The names In [3] and the later cells read before they bind them: the
    imports of In [2] and three builtins. *)
Definition seeded_reads : list string :=
  ["np"; "toeplitz"; "cholesky"; "LedoitWolf"; "OAS"; "go"; "py";
   "enumerate"; "range"; "dict"].

(** In [2]'s imports are in effect and the three builtins are not
    shadowed: the kernel binds the names of [seeded_reads] as In [2]
    leaves them in a fresh kernel. *)
Definition imports_in_scope (k : kernel) : Prop :=
  Forall (fun x => ns k !! x = Expected.after_imports !! x) seeded_reads.

(** The names the cells after In [3] read before they bind them. *)
Definition later_reads : list string :=
  ["go"; "py"; "dict"; "n_samples_range"; "lw_mse"; "oa_mse"; "lw_shrinkage"; "oa_shrinkage"].

(** The kernel binds the names of [later_reads] as In [3] leaves them. *)
Definition ready_to_plot (k : kernel) : Prop :=
  Forall (fun x => ns k !! x
                   = Expected.after_calc Expected.lw_mse Expected.oa_mse
                       Expected.lw_shrinkage Expected.oa_shrinkage !! x) later_reads.

(** Two namespaces bind [x] alike. *)
Definition same_binding (m1 m2 : gmap string val) (x : string) : bool :=
  match m1 !! x, m2 !! x with
  | Some a, Some b => val_eqb a b
  | None, None => true
  | _, _ => false
  end.

(** [imports_in_scope] and [ready_to_plot] as checks. *)
Definition imports_checked (k : kernel) : bool :=
  forallb (same_binding (ns k) Expected.after_imports) seeded_reads.

Definition plot_checked (k : kernel) : bool :=
  forallb (same_binding (ns k)
             (Expected.after_calc Expected.lw_mse Expected.oa_mse
                Expected.lw_shrinkage Expected.oa_shrinkage)) later_reads.

(** ** Cells that handle no failure *)

Section Strict.
Context `{W : World}.

(** An event the world refused: an import or a call that raised.  A shell
    command raises nothing, whatever it exits with. *)
Definition refused (e : event) : bool :=
  match e with
  | EAct (AShell _ _) => false
  | EAct a => fails a
  | _ => false
  end.

Definition accepted (evs : list event) : bool := forallb (fun e => negb (refused e)) evs.

(** Exceptions of Python itself, not raised by the world. *)
Definition plain (e : exn) : Prop :=
  match e with LibraryError _ => False | _ => True end.

(** [m] has no handler: it ends normally only if the world refused
    nothing, and when the world refuses an action it stops there, with
    that action's exception and that action last in the log. *)
Definition strict {A} (m : Py A) : Prop :=
  forall k,
    match m k with
    | Ok _ k' => exists evs, log k' = evs ++ log k /\ accepted evs = true
    | Raise e k' =>
        exists evs, log k' = evs ++ log k /\
          match e with
          | LibraryError a =>
              exists evs', evs = EAct a :: evs' /\ refused (EAct a) = true
                           /\ accepted evs' = true
          | _ => accepted evs = true
          end
    end.

End Strict.

(** ** The sends of the error bars page *)

Module ExpectedBars.

Definition go : val := VModule "plotly.graph_objs".
Definition numpy : val := VModule "numpy".
Definition ints (l : list Z) : val := VList (map VInt l).
Definition floats (l : list string) : val := VList (map VFloat l).

Definition scatter (kw : kwargs) : val := VCall (VAttr go "Scatter") [] kw.

Definition send_data (traces : list val) (filename : string) : action :=
  ACall Expected.iplot [VList traces] [("filename", VStr filename)].

Definition basic : action :=
  send_data
    [ scatter [ ("x", ints [0; 1; 2]);
                ("y", ints [6; 10; 2]);
                ("error_y", VDict [ ("type", VStr "data");
                                    ("array", ints [1; 2; 3]);
                                    ("visible", VBool true) ]) ] ]
    "basic-error-bar".

Definition asymmetric : action :=
  send_data
    [ scatter [ ("x", ints [1; 2; 3; 4]);
                ("y", ints [2; 1; 3; 4]);
                ("error_y", VDict [ ("type", VStr "data");
                                    ("symmetric", VBool false);
                                    ("array", floats ["0.1"; "0.2"; "0.1"; "0.1"]);
                                    ("arrayminus",
                                     VList [VFloat "0.2"; VFloat "0.4"; VInt 1; VFloat "0.2"]) ]) ] ]
    "error-bar-asymmetric-array".

Definition percent : action :=
  send_data
    [ scatter [ ("x", ints [0; 1; 2]);
                ("y", ints [6; 10; 2]);
                ("error_y", VDict [ ("type", VStr "percent");
                                    ("value", VInt 50);
                                    ("visible", VBool true) ]) ] ]
    "percent-error-bar".

Definition asymmetric_constant : action :=
  send_data
    [ scatter [ ("x", ints [1; 2; 3; 4]);
                ("y", ints [2; 1; 3; 4]);
                ("error_y", VDict [ ("type", VStr "percent");
                                    ("symmetric", VBool false);
                                    ("value", VInt 15);
                                    ("valueminus", VInt 25) ]) ] ]
    "error-bar-asymmetric-constant".

Definition horizontal : action :=
  send_data
    [ scatter [ ("x", ints [1; 2; 3; 4]);
                ("y", ints [2; 1; 3; 4]);
                ("error_x", VDict [ ("type", VStr "percent"); ("value", VInt 10) ]) ] ]
    "error-bar-horizontal".

Definition bar (ys : list Z) (label : string) (errs : list val) : val :=
  VCall (VAttr go "Bar") []
    [ ("x", VList [VStr "Trial 1"; VStr "Trial 2"; VStr "Trial 3"]);
      ("y", ints ys);
      ("name", VStr label);
      ("error_y", VDict [ ("type", VStr "data");
                          ("array", VList errs);
                          ("visible", VBool true) ]) ].

Definition bar_chart : action :=
  ACall Expected.iplot
    [ VCall (VAttr go "Figure") []
        [ ("data", VList [ bar [3; 6; 4] "Control" [VInt 1; VFloat "0.5"; VFloat "1.5"];
                           bar [4; 7; 3] "Experimental" [VFloat "0.5"; VInt 1; VInt 2] ]);
          ("layout", VCall (VAttr go "Layout") [] [("barmode", VStr "group")]) ] ]
    [("filename", VStr "error-bar-bar")].

Definition x_theo : val := VCall (VAttr numpy "linspace") [VInt (-4); VInt 4; VInt 100] [].

Definition styled_error (v : string) : val :=
  VDict [ ("type", VStr "constant");
          ("value", VFloat v);
          ("color", VStr "#85144B");
          ("thickness", VFloat "1.5");
          ("width", VInt 3) ].

Definition styled : action :=
  send_data
    [ scatter [ ("x", x_theo);
                ("y", VCall (VAttr numpy "sinc") [x_theo] []);
                ("name", VStr "sinc(x)") ];
      scatter [ ("x", floats ["-3.8"; "-3.03"; "-1.91"; "-1.46"; "-0.89"; "-0.24"; "-0.0";
                              "0.41"; "0.89"; "1.01"; "1.91"; "2.28"; "2.79"; "3.56"]);
                ("y", floats ["-0.02"; "0.04"; "-0.01"; "-0.27"; "0.36"; "0.75"; "1.03";
                              "0.65"; "0.28"; "0.02"; "-0.11"; "0.16"; "0.04"; "-0.15"]);
                ("mode", VStr "markers");
                ("name", VStr "measured");
                ("error_y", styled_error "0.1");
                ("error_x", styled_error "0.2");
                ("marker", VDict [("color", VStr "#85144B"); ("size", VInt 8)]) ] ]
    "error-bar-style".

Definition all_sends : list action :=
  [ basic; asymmetric; percent; asymmetric_constant; horizontal; bar_chart; styled ].

Definition all_steps : list kind :=
  concat (replicate 6 [Chart; Send]) ++ [Data; Chart; Send].

End ExpectedBars.

(** The kernel at the end of the notebook, given the events [l] of the
    first three cells. *)
Definition end_kernel (st : Z) (l : list event) : kernel :=
  {| ns := Expected.after_publish Expected.lw_mse Expected.oa_mse
             Expected.lw_shrinkage Expected.oa_shrinkage;
     rng := Expected.gen_after;
     log := later_log st (Expected.table_rows (Expected.mse Expected.LedoitWolf))
              (Expected.table_rows (Expected.mse Expected.OAS))
              (Expected.table_rows (Expected.shrinkage Expected.LedoitWolf))
              (Expected.table_rows (Expected.shrinkage Expected.OAS)) ++ l |}.

(** ** Checking a run of the first three cells *)

Definition binding_eqb (p q : string * val) : bool :=
  String.eqb p.1 q.1 && val_eqb p.2 q.2.

Definition origin_eqb (p q : string * nat) : bool :=
  String.eqb p.1 q.1 && Nat.eqb p.2 q.2.

Definition uses_eqb (u v : uses) : bool :=
  Nat.eqb (current u) (current v)
  && list_eqb origin_eqb (map_to_list (bound_in u)) (map_to_list (bound_in v))
  && list_eqb use_eqb (reads u) (reads v)
  && list_eqb use_eqb (writes u) (writes v).

(** The kernel after the first three cells is the expected one: its
    namespace, its generator, the actions and the uses in its log. *)
Definition calc_checks (k : kernel) : bool :=
  list_eqb binding_eqb (map_to_list (ns k))
    (map_to_list (Expected.after_calc Expected.lw_mse Expected.oa_mse
                    Expected.lw_shrinkage Expected.oa_shrinkage))
  && gen_eqb (rng k) Expected.gen_after
  && list_eqb action_eqb (actions k) Expected.calc_actions
  && uses_eqb (scan_log (log k)) Expected.uses_after_calc.

Definition ran_to {A} (check : kernel -> bool) (o : outcome A) : bool :=
  match o with
  | Ok _ k => check k
  | Raise _ _ => false
  end.

(** * Further definitions *)
(** ** The cells of the error bars page one by one *)


Section Order.
Context `{W : World}.

(** The [i]-th code cell of the error bars page, counted from 0, on its
    own; the cells in a given order, each as often as it is listed. *)
Definition bars_cell (i : nat) : Py unit :=
  run_cell (1 + i) (nth i ErrorBars.cells (block [])).


End Order.

(** ** What a generator has drawn *)

(** Number of arrays drawn since the start, and number of variates in
    them. *)
Definition arrays_drawn (g : gen) : Z :=
  fold_right (fun run acc => run.2 + acc) 0 (drawn g).

Definition variates_drawn (g : gen) : Z :=
  fold_right (fun run acc => fold_right Z.mul 1 run.1 * run.2 + acc) 0 (drawn g).

(** ** A world in which a trace cannot be called *)

(** Calling an instance of a plotly graph object raises (a trace is not
    callable); every other import and call succeeds and every shell
    command exits with [status]. *)
Definition traces_not_callable (status : Z) : World :=
  {| fails := fun a =>
       match a with
       | ACall (VCall f _ _) _ _ =>
           match qualname f with
           | Some (p, _) => String.eqb p "plotly.graph_objs"
           | None => false
           end
       | _ => false
       end;
     exit_status := fun _ => status |}.

(** The exception a run ended with, if any. *)
Definition raised {A} (o : outcome A) : option exn :=
  match o with
  | Ok _ _ => None
  | Raise e _ => Some e
  end.

(** A 25 x 100 array of zeros but for [v] at (0, 0). *)
Definition only_first (v : val) : val :=
  VArray (<[0%nat := VArray (<[0%nat := v]> (replicate 100 (VFloat "0.0")))]>
            (replicate 25 (VArray (replicate 100 (VFloat "0.0"))))).

(** In [3] run once more in a kernel that binds the names as the
    notebook leaves them, in a world where a trace cannot be called. *)
Definition rerun (st : Z) (a b c d : val) (r : gen) (l : list event) : outcome unit :=
  run_cell 3 (Notebook.calculations (W:=traces_not_callable st))
    {| ns := Expected.after_publish a b c d; rng := r; log := l |}.

(** ** Stored plots and sends, cell by cell *)

(** The actions logged while cell [n] ran, oldest first.  The log is read
    from its most recent event back: the actions met since the last
    [EEnter] belong to the cell whose [EEnter] comes next. *)
Definition file_action (n : nat) (st : list action * list action) (e : event)
    : list action * list action :=
  match e with
  | EAct a => (a :: st.1, st.2)
  | EEnter m => ([], if Nat.eqb m n then st.1 ++ st.2 else st.2)
  | _ => st
  end.

Definition cell_actions (n : nat) (l : list event) : list action :=
  (fold_left (file_action n) l ([], [])).2.

(** An output that embeds a plot. *)
Definition is_plot (o : output) : bool :=
  match o with
  | Shown _ (Some html) => occurs_in "<iframe" html
  | _ => false
  end.

(** For the first [n] cells of a document: how many charts each cell
    sent in a run, and how many plots each stored cell shows. *)
Definition sends_by_cell (n : nat) (k : kernel) : list nat :=
  map (fun i => length (sends (cell_actions i (log k)))) (seq 1 n).

Definition plots_by_cell (cells : list stored) : list nat :=
  map (fun c => length (filter (fun o => is_plot o) (outputs c))) cells.

(** ** Keys of the front matter and of the publishing call *)

Definition keys : list string := map fst metadata.

Definition values_of (key : string) : list string :=
  map snd (filter (fun p => String.eqb key p.1 = true) metadata).

(** The keywords of the call of [publisher.publish]. *)
Definition publish_keywords : list string :=
  match last (Expected.publish_actions 0) with
  | Some (ACall _ _ kw) => map fst kw
  | _ => []
  end.

(** ** Sizes of the data in a trace *)

(** The traces a call of py.iplot submits: the list it is given, or the
    data of the figure it is given. *)
Definition sent_traces (a : action) : list val :=
  match submitted a with
  | Some (VList l) => l
  | Some fig => traces_of fig
  | None => []
  end.

(** Number of points of a coordinate or error array, where the source
    gives it as a list or as [np.arange(...)]. *)
Definition points (v : val) : option nat :=
  match v with
  | VList l => Some (length l)
  | _ => length <$> arange_items v
  end.

Definition error_arrays (trace : val) (axis : string) : list val :=
  match trace_field trace axis with
  | Some (VDict d) => omap (kw_lookup d) ["array"; "arrayminus"]
  | _ => []
  end.

(** The sizes of x, y and the error arrays of a trace, as far as known. *)
Definition sizes (trace : val) : list nat :=
  omap points (omap (trace_field trace) ["x"; "y"]
               ++ error_arrays trace "error_y" ++ error_arrays trace "error_x").

Definition same_sizes (trace : val) : bool :=
  match sizes trace with
  | [] => true
  | n :: l => forallb (Nat.eqb n) l
  end.

(** ** A world without a module *)

(** Importing [path] raises; every other import and every call succeeds. *)
Definition world_without (path : string) (status : Z) : World :=
  {| fails := fun a => match a with AImport p => String.eqb p path | _ => false end;
     exit_status := fun _ => status |}.

(** ** The same cells in another world *)

Section Follow.
Context `{W : World}.

(** [m2], run in this world, goes the way [m1] went, wherever [m1]
    ended normally and this world refuses none of the events [m1] added
    to the log. *)
Definition follows {A} (m1 m2 : Py A) : Prop :=
  forall k a k', m1 k = Ok a k' ->
    exists evs, log k' = evs ++ log k /\ (accepted evs = true -> m2 k = Ok a k').

End Follow.

(** The world [W] made obliging: nothing is refused, the shell commands
    exit as in [W]. *)
Definition obliging (W : World) : World :=
  {| fails := fun _ => false; exit_status := @exit_status W |}.

(** The cells after In [3] where publisher cannot be imported, in a
    kernel that binds the names as In [3] leaves them. *)
Definition later_without (st : Z) (a b c d : list val) (r : gen) (l : list event)
    : outcome unit :=
  block (notebook_later (W:=world_without "publisher" st))
    (calc_kernel (VArray a) (VArray b) (VArray c) (VArray d) r l).

(** ** The statement forms of the cells *)

Section Forms.
Context `{W : World}.

(** The expressions the cells are written with: names, literals,
    attribute reads, calls, powers, list and tuple displays, and calls of
    a method that updates its receiver. *)
Inductive expression : Py val -> Prop :=
| expression_name (x : string) : expression (name x)
| expression_literal (v : val) : expression (mret v)
| expression_attr (e : Py val) (a : string) : expression e -> expression (attr e a)
| expression_call (f : Py val) (args : list (Py val)) (kw : list (string * Py val)) :
    expression f -> Forall expression args -> Forall (fun p => expression p.2) kw ->
    expression (call f args kw)
| expression_pow (e1 e2 : Py val) : expression e1 -> expression e2 -> expression (pow e1 e2)
| expression_list (es : list (Py val)) : Forall expression es -> expression (list_ es)
| expression_tuple (es : list (Py val)) : Forall expression es -> expression (tuple_ es)
| expression_method (x m : string) (args : list (Py val)) (kw : list (string * Py val)) :
    Forall expression args -> Forall (fun p => expression p.2) kw ->
    expression (call_inplace x m args kw).

(** The statements the cells are written with: assignments to a name or
    to an item, expression statements, [for] loops, imports, shell
    commands, and sequences of these.  There is no [try], [if], [while],
    [def] or [raise] among them. *)
Inductive statement : Py unit -> Prop :=
| statement_assign (x : string) (e : Py val) : expression e -> statement (assign x e)
| statement_assign_item (x : string) (idx : list (Py val)) (e : Py val) :
    Forall expression idx -> expression e -> statement (assign_item x idx e)
| statement_expr (e : Py val) : expression e -> statement (expr e)
| statement_for (xs : list string) (e : Py val) (body : Py unit) :
    expression e -> statement body -> statement (for_in xs e body)
| statement_import_as (path alias : string) : statement (import_as path alias)
| statement_from_import (path : string) (xs : list string) : statement (from_import path xs)
| statement_shell (cmd : string) : statement (shell cmd)
| statement_block (stmts : list (Py unit)) : Forall statement stmts -> statement (block stmts).

Section ExpressionInd.
Variable P : Py val -> Prop.
Hypothesis Hname : forall x, P (name x).
Hypothesis Hliteral : forall v, P (mret v).
Hypothesis Hattr : forall e a, P e -> P (attr e a).
Hypothesis Hcall : forall f args kw,
  P f -> Forall P args -> Forall (fun p => P p.2) kw -> P (call f args kw).
Hypothesis Hpow : forall e1 e2, P e1 -> P e2 -> P (pow e1 e2).
Hypothesis Hlist : forall es, Forall P es -> P (list_ es).
Hypothesis Htuple : forall es, Forall P es -> P (tuple_ es).
Hypothesis Hmethod : forall x m args kw,
  Forall P args -> Forall (fun p => P p.2) kw -> P (call_inplace x m args kw).

Fixpoint expression_all (e : Py val) (H : expression e) {struct H} : P e :=
  let all := fix all (l : list (Py val)) (Hl : Forall expression l) {struct Hl}
      : Forall P l :=
    match Hl with
    | @List.Forall_nil _ _ => @List.Forall_nil _ P
    | @List.Forall_cons _ _ x l' Hx Hl' =>
        @List.Forall_cons _ P x l' (expression_all x Hx) (all l' Hl')
    end in
  let all_kw := fix all_kw (l : list (string * Py val))
      (Hl : Forall (fun p => expression p.2) l) {struct Hl}
      : Forall (fun p => P p.2) l :=
    match Hl with
    | @List.Forall_nil _ _ => @List.Forall_nil _ (fun p => P p.2)
    | @List.Forall_cons _ _ p l' Hp Hl' =>
        @List.Forall_cons _ (fun p => P p.2) p l' (expression_all p.2 Hp) (all_kw l' Hl')
    end in
  match H with
  | expression_name x => Hname x
  | expression_literal v => Hliteral v
  | expression_attr e a He => Hattr e a (expression_all e He)
  | expression_call f args kw Hf Ha Hk =>
      Hcall f args kw (expression_all f Hf) (all args Ha) (all_kw kw Hk)
  | expression_pow e1 e2 H1 H2 => Hpow e1 e2 (expression_all e1 H1) (expression_all e2 H2)
  | expression_list es Hes => Hlist es (all es Hes)
  | expression_tuple es Hes => Htuple es (all es Hes)
  | expression_method x m args kw Ha Hk => Hmethod x m args kw (all args Ha) (all_kw kw Hk)
  end.
End ExpressionInd.

Section StatementInd.
Variable P : Py unit -> Prop.
Hypothesis Hassign : forall x e, expression e -> P (assign x e).
Hypothesis Hassign_item : forall x idx e,
  Forall expression idx -> expression e -> P (assign_item x idx e).
Hypothesis Hexpr : forall e, expression e -> P (expr e).
Hypothesis Hfor : forall xs e body, expression e -> P body -> P (for_in xs e body).
Hypothesis Himport_as : forall path alias, P (import_as path alias).
Hypothesis Hfrom_import : forall path xs, P (from_import path xs).
Hypothesis Hshell : forall cmd, P (shell cmd).
Hypothesis Hblock : forall stmts, Forall P stmts -> P (block stmts).

Fixpoint statement_all (s : Py unit) (H : statement s) {struct H} : P s :=
  let all := fix all (l : list (Py unit)) (Hl : Forall statement l) {struct Hl}
      : Forall P l :=
    match Hl with
    | @List.Forall_nil _ _ => @List.Forall_nil _ P
    | @List.Forall_cons _ _ x l' Hx Hl' =>
        @List.Forall_cons _ P x l' (statement_all x Hx) (all l' Hl')
    end in
  match H with
  | statement_assign x e He => Hassign x e He
  | statement_assign_item x idx e Hi He => Hassign_item x idx e Hi He
  | statement_expr e He => Hexpr e He
  | statement_for xs e body He Hb => Hfor xs e body He (statement_all body Hb)
  | statement_import_as path alias => Himport_as path alias
  | statement_from_import path xs => Hfrom_import path xs
  | statement_shell cmd => Hshell cmd
  | statement_block stmts Hs => Hblock stmts (all stmts Hs)
  end.
End StatementInd.

End Forms.

(** ** Names that are found *)

(** The names loaded in a list of events. *)
Definition loads (evs : list event) : list string :=
  omap (fun e => match e with ELoad x => Some x | _ => None end) evs.

(** [m] swallows no NameError: where it ends normally, every name it
    loaded is bound or a builtin when it ends; and it unbinds no name. *)
Definition finds {A} (m : Py A) : Prop :=
  forall k a k', m k = Ok a k' ->
    (forall x, is_Some (ns k !! x) -> is_Some (ns k' !! x))
    /\ exists evs, log k' = evs ++ log k
                   /\ Forall (fun x => is_Some (lookup_name (ns k') x)) (loads evs).

(** ** Where the estimates are computed *)










(** * Proofs *)

(** ** The boolean equalities are sound *)

Lemma list_eqb_sound {A} (eqb : A -> A -> bool) (l1 l2 : list A) :
  Forall (fun a => forall b, eqb a b = true -> a = b) l1 ->
  list_eqb eqb l1 l2 = true -> l1 = l2.
Proof.
  intros H. revert l2.
  induction H as [|a l1 Ha _ IH]; intros [|b l2]; simpl; try discriminate; auto.
  destruct (eqb a b) eqn:E; [|discriminate].
  intros Hl. f_equal; auto.
Qed.

Lemma list_eqb_sound_all {A} (eqb : A -> A -> bool) (l1 l2 : list A) :
  (forall a b, eqb a b = true -> a = b) ->
  list_eqb eqb l1 l2 = true -> l1 = l2.
Proof.
  intros H. apply list_eqb_sound. apply Forall_forall. auto.
Qed.

Lemma zs_eqb_sound (l1 l2 : list Z) : list_eqb Z.eqb l1 l2 = true -> l1 = l2.
Proof. apply list_eqb_sound_all. intros a b. apply Z.eqb_eq. Qed.

Lemma gen_eqb_sound (g1 g2 : gen) : gen_eqb g1 g2 = true -> g1 = g2.
Proof.
  destruct g1 as [s1 d1], g2 as [s2 d2]. unfold gen_eqb. simpl.
  intros H. apply andb_true_iff in H as [Hs Hd].
  f_equal.
  - destruct s1, s2; simpl in Hs; try discriminate.
    + apply Nat.eqb_eq in Hs. congruence.
    + apply Z.eqb_eq in Hs. congruence.
  - revert Hd. apply list_eqb_sound_all.
    intros [sa na] [sb nb]. unfold run_eqb. simpl. intros H.
    apply andb_true_iff in H as [H1 H2].
    apply zs_eqb_sound in H1. apply Z.eqb_eq in H2. congruence.
Qed.

Lemma kw_eqb_sound (k1 k2 : list (string * val)) :
  Forall (fun p => forall w, val_eqb p.2 w = true -> p.2 = w) k1 ->
  list_eqb (fun p q => match p, q with
                       | (s, v), (t, w) => String.eqb s t && val_eqb v w
                       end) k1 k2 = true ->
  k1 = k2.
Proof.
  intros H. apply list_eqb_sound.
  eapply Forall_impl; [exact H|].
  intros [s v] Hv [t w]. simpl in *. intros E.
  apply andb_true_iff in E as [E1 E2].
  apply String.eqb_eq in E1. apply Hv in E2. congruence.
Qed.

Lemma val_eqb_sound (a b : val) : val_eqb a b = true -> a = b.
Proof.
  revert b. induction a using val_nested_ind; intros [] E; simpl in E;
    try discriminate; try reflexivity.
  - f_equal. by apply Bool.eqb_prop.
  - f_equal. by apply Z.eqb_eq.
  - f_equal. by apply String.eqb_eq.
  - f_equal. by apply String.eqb_eq.
  - f_equal. eapply list_eqb_sound; eauto.
  - f_equal. eapply list_eqb_sound; eauto.
  - f_equal. eapply kw_eqb_sound; eauto.
  - f_equal. eapply list_eqb_sound; eauto.
  - f_equal. by apply String.eqb_eq.
  - f_equal. by apply String.eqb_eq.
  - apply andb_true_iff in E as [E1 E2].
    apply IHa in E1. apply String.eqb_eq in E2. congruence.
  - apply andb_true_iff in E as [E E3]. apply andb_true_iff in E as [E1 E2].
    apply IHa in E1. f_equal; auto.
    + eapply list_eqb_sound; eauto.
    + eapply kw_eqb_sound; eauto.
  - apply andb_true_iff in E as [E1 E2].
    apply gen_eqb_sound in E1. apply zs_eqb_sound in E2. congruence.
Qed.

Lemma vals_eqb_sound (l1 l2 : list val) : list_eqb val_eqb l1 l2 = true -> l1 = l2.
Proof. apply list_eqb_sound_all, val_eqb_sound. Qed.

Lemma kwargs_eqb_sound (k1 k2 : kwargs) : kwargs_eqb k1 k2 = true -> k1 = k2.
Proof.
  apply kw_eqb_sound.
  apply Forall_forall. intros p _ w. apply val_eqb_sound.
Qed.

Lemma action_eqb_sound (a b : action) : action_eqb a b = true -> a = b.
Proof.
  destruct a, b; simpl; try discriminate.
  - intros E. apply String.eqb_eq in E. congruence.
  - intros E. apply andb_true_iff in E as [E E3]. apply andb_true_iff in E as [E1 E2].
    apply val_eqb_sound in E1. apply vals_eqb_sound in E2.
    apply kwargs_eqb_sound in E3. congruence.
  - intros E. apply andb_true_iff in E as [E1 E2].
    apply String.eqb_eq in E1. apply Z.eqb_eq in E2. congruence.
Qed.

Lemma actions_eqb_sound (l1 l2 : list action) :
  list_eqb action_eqb l1 l2 = true -> l1 = l2.
Proof. apply list_eqb_sound_all, action_eqb_sound. Qed.

Lemma use_eqb_sound (a b : use) : use_eqb a b = true -> a = b.
Proof.
  destruct a, b. unfold use_eqb. simpl. intros E.
  apply andb_true_iff in E as [E E3]. apply andb_true_iff in E as [E1 E2].
  apply Nat.eqb_eq in E1. apply String.eqb_eq in E2. apply Nat.eqb_eq in E3.
  congruence.
Qed.

Lemma kind_eqb_sound (a b : kind) : kind_eqb a b = true -> a = b.
Proof. destruct a, b; simpl; congruence. Qed.

(** ** Blocks and logs *)

Lemma block_app (l1 l2 : list (Py unit)) (k : kernel) :
  block (l1 ++ l2) k =
  match block l1 k with
  | Ok _ k' => block l2 k'
  | Raise e k' => Raise e k'
  end.
Proof.
  revert k. induction l1 as [|s l1 IH]; intros k; simpl.
  - reflexivity.
  - unfold mbind, Py_bind. destruct (s k) as [[] k'|e k']; [apply IH|reflexivity].
Qed.

Lemma block_app_ok (l1 l2 : list (Py unit)) (k k' : kernel) (o : outcome unit) :
  block l1 k = Ok tt k' -> block l2 k' = o -> block (l1 ++ l2) k = o.
Proof. intros H1 H2. rewrite block_app, H1. exact H2. Qed.

Lemma actions_of_acc (l : list event) (acc : list action) :
  fold_left (fun acc e => match e with EAct a => a :: acc | _ => acc end) l acc
  = actions_of l ++ acc.
Proof.
  unfold actions_of. revert acc.
  induction l as [|e l IH]; intros acc; simpl; [reflexivity|].
  destruct e; try apply IH.
  rewrite IH. rewrite (IH [a]). rewrite <- app_assoc. reflexivity.
Qed.

Lemma actions_of_app (new old : list event) :
  actions_of (new ++ old) = actions_of old ++ actions_of new.
Proof.
  unfold actions_of at 1. rewrite fold_left_app. apply actions_of_acc.
Qed.

Lemma scan_log_app (new old : list event) :
  scan_log (new ++ old) = fold_left scan (reverse new) (scan_log old).
Proof.
  unfold scan_log. rewrite reverse_app, fold_left_app. reflexivity.
Qed.

Lemma sends_app (l1 l2 : list action) : sends (l1 ++ l2) = sends l1 ++ sends l2.
Proof. apply filter_app. Qed.

Lemma fits_app (l1 l2 : list action) : fits (l1 ++ l2) = fits l1 ++ fits l2.
Proof. apply filter_app. Qed.

(** ** The first three cells of the notebook *)

Lemma bindings_eqb_sound (l1 l2 : list (string * val)) :
  list_eqb binding_eqb l1 l2 = true -> l1 = l2.
Proof.
  apply list_eqb_sound_all. intros [s v] [t w]. unfold binding_eqb. simpl.
  intros E. apply andb_true_iff in E as [E1 E2].
  apply String.eqb_eq in E1. apply val_eqb_sound in E2. congruence.
Qed.

Lemma same_bindings {V} (m1 m2 : gmap string V) :
  map_to_list m1 = map_to_list m2 -> m1 = m2.
Proof.
  intros H. rewrite <- (list_to_map_to_list m1), <- (list_to_map_to_list m2).
  by rewrite H.
Qed.

Lemma uses_eqb_sound (u v : uses) : uses_eqb u v = true -> u = v.
Proof.
  destruct u as [c1 b1 r1 w1], v as [c2 b2 r2 w2]. unfold uses_eqb. simpl.
  intros E.
  apply andb_true_iff in E as [E E4]. apply andb_true_iff in E as [E E3].
  apply andb_true_iff in E as [E1 E2].
  apply Nat.eqb_eq in E1.
  apply (list_eqb_sound_all use_eqb _ _ use_eqb_sound) in E3.
  apply (list_eqb_sound_all use_eqb _ _ use_eqb_sound) in E4.
  assert (b1 = b2).
  { apply same_bindings. revert E2. apply list_eqb_sound_all.
    intros [s m] [t n]. unfold origin_eqb. simpl. intros E.
    apply andb_true_iff in E as [Ea Eb].
    apply String.eqb_eq in Ea. apply Nat.eqb_eq in Eb. congruence. }
  congruence.
Qed.

(** The run of the first three cells from a fresh kernel, whatever the
    state of the generator and the exit status of shell commands. *)
Lemma calc_checked (g : gen) (st : Z) :
  ran_to calc_checks (block (notebook_first (W:=world st)) (fresh g)) = true.
Proof. vm_compute. reflexivity. Qed.

Lemma calc_run (g : gen) (st : Z) :
  exists l,
    block (notebook_first (W:=world st)) (fresh g)
    = Ok tt (calc_kernel Expected.lw_mse Expected.oa_mse Expected.lw_shrinkage
               Expected.oa_shrinkage Expected.gen_after l)
    /\ actions_of l = Expected.calc_actions
    /\ scan_log l = Expected.uses_after_calc.
Proof.
  pose proof (calc_checked g st) as H.
  destruct (block notebook_first (fresh g)) as [[] [m r l]|]; [|discriminate].
  unfold ran_to, calc_checks, actions in H. cbn [ns rng log] in H.
  apply andb_true_iff in H as [H H4]. apply andb_true_iff in H as [H H3].
  apply andb_true_iff in H as [H1 H2].
  apply bindings_eqb_sound, same_bindings in H1.
  apply gen_eqb_sound in H2. apply actions_eqb_sound in H3. apply uses_eqb_sound in H4.
  exists l. unfold calc_kernel. by subst.
Qed.

(** ** The later cells of the notebook *)

(** From the namespace In [3] leaves, whatever the contents of the result
    arrays, the generator, the log and the exit status of pip. *)
Lemma later_run (st : Z) (a b c d : list val) (r : gen) (l : list event) :
  block (notebook_later (W:=world st))
    (calc_kernel (VArray a) (VArray b) (VArray c) (VArray d) r l)
  = Ok tt {| ns := Expected.after_publish (VArray a) (VArray b) (VArray c) (VArray d);
             rng := r;
             log := later_log st a b c d ++ l |}.
Proof. vm_compute. reflexivity. Qed.

(** ** The whole notebook *)

Lemma notebook_split `{W : World} : notebook = block (notebook_first ++ notebook_later).
Proof. reflexivity. Qed.

Lemma notebook_run (g : gen) (st : Z) :
  exists l,
    notebook (W:=world st) (fresh g) = Ok tt (end_kernel st l)
    /\ actions_of l = Expected.calc_actions
    /\ scan_log l = Expected.uses_after_calc.
Proof.
  destruct (calc_run g st) as (l & Hrun & Hacts & Huses).
  exists l. split; [|split]; try assumption.
  exact (block_app_ok notebook_first notebook_later (fresh g) _ _ Hrun
           (later_run st _ _ _ _ Expected.gen_after l)).
Qed.

Lemma later_sends (st : Z) (a b c d : list val) :
  sends (actions_of (later_log st a b c d))
  = Expected.sends_of (VArray a) (VArray b) (VArray c) (VArray d).
Proof. vm_compute. reflexivity. Qed.

Lemma later_fits (st : Z) (a b c d : list val) :
  fits (actions_of (later_log st a b c d)) = [].
Proof. vm_compute. reflexivity. Qed.

Lemma later_cross_reads (st : Z) (a b c d : list val) :
  reverse (filter (fun u => crosses u)
             (reads (fold_left scan (reverse (later_log st a b c d))
                       Expected.uses_after_calc)))
  = Expected.cross_reads.
Proof. vm_compute. reflexivity. Qed.

Lemma later_writes (st : Z) (a b c d : list val) :
  reverse (writes (fold_left scan (reverse (later_log st a b c d))
                     Expected.uses_after_calc))
  = Expected.all_writes.
Proof. vm_compute. reflexivity. Qed.

Lemma calc_sends : sends Expected.calc_actions = [].
Proof. vm_compute. reflexivity. Qed.

Lemma notebook_steps (st : Z) (a b c d : list val) :
  steps_of (Expected.calc_actions ++ actions_of (later_log st a b c d))
  = Expected.all_steps.
Proof. vm_compute. reflexivity. Qed.

(** ** Cells that cannot tell two kernels apart: the rules *)

Lemma mem_cons (x y : string) (names : list string) :
  mem x (y :: names) = String.eqb x y || mem x names.
Proof. reflexivity. Qed.

Lemma mem_app (x : string) (l1 l2 : list string) :
  mem x (l1 ++ l2) = mem x l1 || mem x l2.
Proof. unfold mem. apply existsb_app. Qed.

Lemma agree_weaken (names names' : list string) (k1 k2 : kernel) :
  forallb (fun x => mem x names) names' = true ->
  agree names k1 k2 -> agree names' k1 k2.
Proof.
  intros Hsub [Hr Hn]. split; [exact Hr|].
  intros x Hx. apply Hn.
  unfold mem in Hx. apply existsb_exists in Hx as (y & Hy & E).
  apply String.eqb_eq in E. subst y.
  rewrite forallb_forall in Hsub. by apply Hsub.
Qed.

Lemma agree_insert (names : list string) (x : string) (v : val) (m1 m2 : gmap string val)
    (r1 r2 : gen) (l1 l2 : list event) :
  agree names {| ns := m1; rng := r1; log := l1 |} {| ns := m2; rng := r2; log := l2 |} ->
  agree (x :: names) {| ns := <[x:=v]> m1; rng := r1; log := l1 |}
                     {| ns := <[x:=v]> m2; rng := r2; log := l2 |}.
Proof.
  intros [Hr Hn]. split; [exact Hr|]. cbn [ns rng log] in *.
  intros y Hy. rewrite mem_cons in Hy.
  destruct (String.eqb y x) eqn:E.
  - apply String.eqb_eq in E. subst y. by rewrite !lookup_insert_eq.
  - apply String.eqb_neq in E. rewrite !lookup_insert_ne by congruence. by apply Hn.
Qed.

Lemma same_added_refl (k1 k2 : kernel) : same_added k1 k1 k2 k2.
Proof. by exists []. Qed.

Lemma same_added_trans (k1 k1' k1'' k2 k2' k2'' : kernel) :
  same_added k1 k1' k2 k2' -> same_added k1' k1'' k2' k2'' ->
  same_added k1 k1'' k2 k2''.
Proof.
  intros (e & H1 & H2) (e' & H1' & H2'). exists (e' ++ e).
  rewrite H1', H2', H1, H2, <- !app_assoc. done.
Qed.

Lemma sim_ret {A} (names : list string) (a : A) : sim names names (mret a).
Proof. intros k1 k2 H. repeat split; auto using same_added_refl; apply H. Qed.

Lemma sim_raise {A} (names names' : list string) (e : exn) :
  sim (A:=A) names names' (raise e).
Proof. intros k1 k2 H. split; auto using same_added_refl. Qed.

Lemma sim_bind {A B} (names names' names'' : list string) (m : Py A) (f : A -> Py B) :
  sim names names' m -> (forall a, sim names' names'' (f a)) ->
  sim names names'' (m ≫= f).
Proof.
  intros Hm Hf k1 k2 H. specialize (Hm k1 k2 H).
  unfold mbind, Py_bind.
  destruct (m k1) as [a1 k1'|e1 k1'], (m k2) as [a2 k2'|e2 k2']; try done.
  destruct Hm as (-> & H' & Hadd).
  specialize (Hf a2 k1' k2' H').
  destruct (f a2 k1') as [b1 k1''|e1 k1''], (f a2 k2') as [b2 k2''|e2 k2'']; try done.
  - destruct Hf as (-> & H'' & Hadd'). eauto using same_added_trans.
  - destruct Hf as (-> & Hadd'). eauto using same_added_trans.
Qed.

Lemma sim_fmap {A B} (names names' : list string) (f : A -> B) (m : Py A) :
  sim names names' m -> sim names names' (f <$> m).
Proof.
  intros Hm k1 k2 H. specialize (Hm k1 k2 H).
  unfold fmap, Py_fmap.
  destruct (m k1) as [a1 k1'|e1 k1'], (m k2) as [a2 k2'|e2 k2']; try done.
  destruct Hm as (-> & H' & Hadd). done.
Qed.

Lemma sim_weaken {A} (names names' names'' : list string) (m : Py A) :
  forallb (fun x => mem x names') names'' = true ->
  sim names names' m -> sim names names'' m.
Proof.
  intros Hsub Hm k1 k2 H. specialize (Hm k1 k2 H).
  destruct (m k1) as [a1 k1'|e1 k1'], (m k2) as [a2 k2'|e2 k2']; try done.
  destruct Hm as (-> & H' & Hadd). eauto using agree_weaken.
Qed.

Lemma sim_emit (names : list string) (e : event) : sim names names (emit e).
Proof.
  intros [m1 r1 l1] [m2 r2 l2] H. repeat split; try apply H.
  by exists [e].
Qed.

Lemma sim_get_rng (names : list string) : sim names names get_rng.
Proof. intros k1 k2 H. repeat split; auto using same_added_refl; apply H. Qed.

Lemma sim_put_rng (names : list string) (g : gen) : sim names names (put_rng g).
Proof.
  intros [m1 r1 l1] [m2 r2 l2] [Hr Hn]. split; [done|]. split.
  - split; [done|exact Hn].
  - by exists [].
Qed.

Lemma sim_name (names : list string) (x : string) :
  mem x names = true -> sim names names (name x).
Proof.
  intros Hx [m1 r1 l1] [m2 r2 l2] H.
  assert (m1 !! x = m2 !! x) as E by (by apply H).
  unfold name, mbind, Py_bind, emit, get_ns, lookup_name. simpl. rewrite E.
  assert (same_added {| ns := m1; rng := r1; log := l1 |}
            {| ns := m1; rng := r1; log := ELoad x :: l1 |}
            {| ns := m2; rng := r2; log := l2 |}
            {| ns := m2; rng := r2; log := ELoad x :: l2 |}) by (by exists [ELoad x]).
  destruct (m2 !! x); [|destruct (is_builtin x)]; simpl; repeat split; try apply H; done.
Qed.

Lemma sim_bind_name (names : list string) (x : string) (v : val) :
  sim names (x :: names) (bind_name x v).
Proof.
  intros [m1 r1 l1] [m2 r2 l2] H.
  unfold bind_name, mbind, Py_bind, emit, get_ns, put_ns. simpl.
  split; [done|]. split.
  - by apply agree_insert.
  - by exists [EBind x].
Qed.

Lemma sim_mutate_name (names : list string) (x : string) (v : val) :
  sim names (x :: names) (mutate_name x v).
Proof.
  intros [m1 r1 l1] [m2 r2 l2] H.
  unfold mutate_name, mbind, Py_bind, emit, get_ns, put_ns. simpl.
  split; [done|]. split.
  - by apply agree_insert.
  - by exists [EMutate x].
Qed.

Section SimCells.
Context `{W : World}.

Lemma sim_perform (names : list string) (a : action) : sim names names (perform a).
Proof.
  unfold perform. eapply sim_bind; [apply sim_emit|].
  intros _. destruct (fails a); [apply sim_raise|apply sim_ret].
Qed.

Lemma sim_result_of (names : list string) (f : val) (args : list val) (kw : kwargs) :
  sim names names (result_of f args kw).
Proof.
  unfold result_of.
  repeat first
    [ apply sim_ret
    | apply sim_raise
    | apply sim_get_rng
    | apply sim_put_rng
    | eapply sim_bind; [|intros ?]
    | case_match ].
Qed.

Lemma sim_apply (names : list string) (f : val) (args : list val) (kw : kwargs) :
  sim names names (apply f args kw).
Proof.
  unfold apply. destruct (not_callable f); [apply sim_raise|].
  eapply sim_bind; [apply sim_perform|]. intros _. apply sim_result_of.
Qed.

Lemma sim_sequence {A} (names : list string) (ms : list (Py A)) :
  Forall (sim names names) ms -> sim names names (sequence ms).
Proof.
  induction 1 as [|m ms Hm _ IH]; simpl; [apply sim_ret|].
  eapply sim_bind; [exact Hm|]. intros a.
  eapply sim_bind; [exact IH|]. intros r. apply sim_ret.
Qed.

Lemma sim_sequence_kw (names : list string) (ms : list (string * Py val)) :
  Forall (fun p => sim names names p.2) ms -> sim names names (sequence_kw ms).
Proof.
  induction 1 as [|[x m] ms Hm _ IH]; simpl; [apply sim_ret|].
  eapply sim_bind; [exact Hm|]. intros a.
  eapply sim_bind; [exact IH|]. intros r. apply sim_ret.
Qed.

Lemma sim_list (names : list string) (es : list (Py val)) :
  Forall (sim names names) es -> sim names names (list_ es).
Proof. intros H. apply sim_fmap, sim_sequence, H. Qed.

Lemma sim_tuple (names : list string) (es : list (Py val)) :
  Forall (sim names names) es -> sim names names (tuple_ es).
Proof. intros H. apply sim_fmap, sim_sequence, H. Qed.

Lemma sim_attr (names : list string) (e : Py val) (a : string) :
  sim names names e -> sim names names (attr e a).
Proof. intros H. eapply sim_bind; [exact H|]. intros v. apply sim_ret. Qed.

Lemma sim_call (names : list string) (f : Py val) (args : list (Py val))
    (kw : list (string * Py val)) :
  sim names names f -> Forall (sim names names) args ->
  Forall (fun p => sim names names p.2) kw ->
  sim names names (call f args kw).
Proof.
  intros Hf Ha Hk. unfold call.
  eapply sim_bind; [exact Hf|]. intros fv.
  eapply sim_bind; [by apply sim_sequence|]. intros avs.
  eapply sim_bind; [by apply sim_sequence_kw|]. intros kvs.
  apply sim_apply.
Qed.

Lemma sim_pow (names : list string) (e1 e2 : Py val) :
  sim names names e1 -> sim names names e2 -> sim names names (pow e1 e2).
Proof.
  intros H1 H2. unfold pow.
  eapply sim_bind; [exact H1|]. intros a.
  eapply sim_bind; [exact H2|]. intros b. apply sim_apply.
Qed.

Lemma mem_incl_cons (x : string) (names : list string) :
  mem x names = true -> forallb (fun y => mem y (x :: names)) names = true.
Proof.
  intros _. apply forallb_forall. intros y Hy. rewrite mem_cons.
  apply orb_true_iff. right. unfold mem. apply existsb_exists.
  exists y. split; [exact Hy|apply String.eqb_refl].
Qed.

Lemma sim_call_inplace (names : list string) (x m : string) (args : list (Py val))
    (kw : list (string * Py val)) :
  mem x names = true -> Forall (sim names names) args ->
  Forall (fun p => sim names names p.2) kw ->
  sim names names (call_inplace x m args kw).
Proof.
  intros Hx Ha Hk. unfold call_inplace.
  eapply sim_bind; [apply sim_call; auto; by apply sim_attr, sim_name|].
  intros r. eapply sim_bind.
  - eapply sim_weaken; [|apply sim_mutate_name]. by apply mem_incl_cons.
  - intros _. apply sim_ret.
Qed.

Lemma sim_assign (names : list string) (x : string) (e : Py val) :
  sim names names e -> sim names (x :: names) (assign x e).
Proof. intros H. eapply sim_bind; [exact H|]. intros v. apply sim_bind_name. Qed.

Lemma sim_assign_item (names : list string) (x : string) (idx : list (Py val)) (e : Py val) :
  mem x names = true -> sim names names e -> Forall (sim names names) idx ->
  sim names names (assign_item x idx e).
Proof.
  intros Hx He Hi. unfold assign_item.
  eapply sim_bind; [exact He|]. intros v.
  eapply sim_bind; [by apply sim_name|]. intros a.
  eapply sim_bind; [by apply sim_sequence|]. intros ixs.
  destruct (ints_of ixs) as [zs|]; [|apply sim_raise].
  destruct (store_item a zs v) as [err|a']; [apply sim_raise|].
  eapply sim_weaken; [|apply sim_mutate_name]. by apply mem_incl_cons.
Qed.

Lemma sim_expr (names : list string) (e : Py val) :
  sim names names e -> sim names names (expr e).
Proof. intros H. eapply sim_bind; [exact H|]. intros v. apply sim_ret. Qed.

Lemma mem_incl_app (extra names : list string) :
  forallb (fun y => mem y (extra ++ names)) names = true.
Proof.
  apply forallb_forall. intros y Hy. rewrite mem_app.
  apply orb_true_iff. right. unfold mem. apply existsb_exists.
  exists y. split; [exact Hy|apply String.eqb_refl].
Qed.

Lemma map_fst_combine {A B} (l : list A) (k : list B) :
  length l = length k -> map fst (combine l k) = l.
Proof.
  revert k. induction l as [|a l IH]; intros [|b k]; simpl; try done.
  intros E. f_equal. apply IH. lia.
Qed.

(** Binding the targets of a loop leaves the kernels in agreement on the
    names they agreed on before. *)
Lemma sim_bind_targets (names xs : list string) (v : val) :
  sim names (xs ++ names) (bind_targets xs v).
Proof.
  assert (forall (ps : list (string * val)) (names : list string),
    sim names (rev (map fst ps) ++ names)
      ((fix go (ps : list (string * val)) : Py unit :=
          match ps with
          | [] => mret tt
          | (x, v) :: ps' => _ ← bind_name x v; go ps'
          end) ps)) as Hgo.
  { induction ps as [|[x w] ps IH]; intros names0; simpl.
    - apply sim_ret.
    - eapply sim_bind; [apply sim_bind_name|]. intros _.
      rewrite <- app_assoc. simpl. apply IH. }
  assert (forall l : list string,
    forallb (fun y => mem y (rev l ++ names)) (l ++ names) = true) as Hsub.
  { intros l. apply forallb_forall. intros y Hy.
    rewrite mem_app. unfold mem. apply orb_true_iff.
    apply in_app_or in Hy as [Hy|Hy]; [left|right]; apply existsb_exists;
      exists y; (split; [|apply String.eqb_refl]); [|done].
    by apply in_rev in Hy. }
  unfold bind_targets.
  destruct xs as [|x [|x' xs]].
  - destruct (iter_items v) as [vs|]; [|apply sim_raise].
    destruct vs; simpl; [apply sim_ret|apply sim_raise].
  - apply sim_bind_name.
  - destruct (iter_items v) as [vs|]; [|apply sim_raise].
    destruct (length (x :: x' :: xs) =? length vs)%nat eqn:E; [|apply sim_raise].
    apply Nat.eqb_eq in E.
    eapply sim_weaken; [|apply Hgo].
    rewrite map_fst_combine by exact E. apply Hsub.
Qed.

Lemma sim_for_items (names names' xs : list string) (items : list val) (body : Py unit) :
  sim (xs ++ names) names' body ->
  forallb (fun y => mem y names') names = true ->
  sim names names (for_items xs items body).
Proof.
  intros Hbody Hsub. induction items as [|v items IH]; simpl; [apply sim_ret|].
  eapply sim_bind; [apply sim_bind_targets|]. intros _.
  eapply sim_bind; [eapply sim_weaken; [exact Hsub|exact Hbody]|]. intros _.
  exact IH.
Qed.

Lemma sim_for_in (names names' xs : list string) (e : Py val) (body : Py unit) :
  sim names names e ->
  sim (xs ++ names) names' body ->
  forallb (fun y => mem y names') names = true ->
  sim names names (for_in xs e body).
Proof.
  intros He Hbody Hsub. unfold for_in.
  eapply sim_bind; [exact He|]. intros v.
  destruct (iter_items v); [|apply sim_raise].
  eapply sim_for_items; eauto.
Qed.

Lemma sim_import_as (names : list string) (path alias : string) :
  sim names (alias :: names) (import_as path alias).
Proof.
  unfold import_as. eapply sim_bind; [apply sim_perform|]. intros _.
  apply sim_bind_name.
Qed.

Lemma sim_from_import (names : list string) (path : string) (xs : list string) :
  sim names (rev xs ++ names) (from_import path xs).
Proof.
  unfold from_import. eapply sim_bind; [apply sim_perform|]. intros _.
  revert names. induction xs as [|x xs IH]; intros names; simpl.
  - apply sim_ret.
  - eapply sim_bind; [apply sim_bind_name|]. intros _.
    rewrite <- app_assoc. simpl. apply IH.
Qed.

Lemma sim_shell (names : list string) (cmd : string) : sim names names (shell cmd).
Proof. apply sim_emit. Qed.

Lemma sim_block_nil (names : list string) : sim names names (block []).
Proof. apply sim_ret. Qed.

Lemma sim_block_cons (names names' names'' : list string) (s : Py unit)
    (stmts : list (Py unit)) :
  sim names names' s -> sim names' names'' (block stmts) ->
  sim names names'' (block (s :: stmts)).
Proof. intros Hs Hb. simpl. eapply sim_bind; [exact Hs|]. intros _. exact Hb. Qed.

Lemma sim_run_cell (names names' : list string) (n : nat) (body : Py unit) :
  sim names names' body -> sim names names' (run_cell n body).
Proof. intros H. eapply sim_bind; [apply sim_emit|]. intros _. exact H. Qed.

End SimCells.

(** Rule by rule through a cell. *)
Ltac sim_solve :=
  lazymatch goal with
  | |- sim _ _ (block []) => apply sim_block_nil
  | |- sim _ _ (block (_ :: _)) => eapply sim_block_cons; [sim_solve|sim_solve]
  | |- sim _ _ (block (_ ++ _)) => cbn [app]; sim_solve
  | |- sim _ _ (run_cell _ _) => eapply sim_run_cell; sim_solve
  | |- sim _ _ (assign _ _) => eapply sim_assign; sim_solve
  | |- sim _ _ (assign_item _ _ _) =>
      eapply sim_assign_item; [reflexivity|sim_solve|sim_solve]
  | |- sim _ _ (expr _) => eapply sim_expr; sim_solve
  | |- sim _ _ (call_inplace _ _ _ _) =>
      eapply sim_call_inplace; [reflexivity|sim_solve|sim_solve]
  | |- sim _ _ (call _ _ _) => eapply sim_call; [sim_solve|sim_solve|sim_solve]
  | |- sim _ _ (attr _ _) => eapply sim_attr; sim_solve
  | |- sim _ _ (pow _ _) => eapply sim_pow; [sim_solve|sim_solve]
  | |- sim _ _ (name _) => eapply sim_name; reflexivity
  | |- sim _ _ (list_ _) => eapply sim_list; sim_solve
  | |- sim _ _ (tuple_ _) => eapply sim_tuple; sim_solve
  | |- sim _ _ (for_in _ _ _) => eapply sim_for_in; [sim_solve|sim_solve|reflexivity]
  | |- sim _ _ (import_as _ _) => eapply sim_import_as
  | |- sim _ _ (import _) => eapply sim_import_as
  | |- sim _ _ (from_import _ _) => eapply sim_from_import
  | |- sim _ _ (shell _) => eapply sim_shell
  | |- sim _ _ (mret _) => eapply sim_ret
  | |- sim _ _ (int_ _) => eapply sim_ret
  | |- sim _ _ (float_ _) => eapply sim_ret
  | |- sim _ _ (str_ _) => eapply sim_ret
  | |- sim _ _ True_ => eapply sim_ret
  | |- sim _ _ False_ => eapply sim_ret
  | |- Forall _ [] => apply Forall_nil_2
  | |- Forall _ (_ :: _) => apply Forall_cons_2; [cbn [snd]; sim_solve|sim_solve]
  | |- sim _ _ Notebook.setup => unfold Notebook.setup; sim_solve
  | |- sim _ _ Notebook.simulation => unfold Notebook.simulation; sim_solve
  | |- sim _ _ Notebook.simulate_once => unfold Notebook.simulate_once; sim_solve
  | |- sim _ _ Notebook.zeros_like_results => unfold Notebook.zeros_like_results; sim_solve
  | |- sim _ _ Notebook.plot_mse =>
      unfold Notebook.plot_mse, Notebook.figure; sim_solve
  | |- sim _ _ Notebook.plot_shrinkage =>
      unfold Notebook.plot_shrinkage, Notebook.figure; sim_solve
  | |- sim _ _ Notebook.show_figure => unfold Notebook.show_figure; sim_solve
  | |- sim _ _ Notebook.publish => unfold Notebook.publish; sim_solve
  | |- sim _ _ (Notebook.line_trace _ _ _ _) => unfold Notebook.line_trace; sim_solve
  | |- sim _ _ (Notebook.mean1 _) => unfold Notebook.mean1; sim_solve
  | |- sim _ _ (Notebook.std1 _) => unfold Notebook.std1; sim_solve
  | |- sim _ _ ?m => fail "no rule for" m
  end.

Lemma calc_sim `{W : World} :
  exists names',
    sim seeded_reads names' (block rest_of_calc)
    /\ forallb (fun x => mem x names') later_reads = true.
Proof.
  eexists. split.
  - unfold rest_of_calc. sim_solve.
  - reflexivity.
Qed.

Lemma later_sim `{W : World} :
  exists names',
    sim later_reads names' (block notebook_later)
    /\ forallb (fun x => mem x names')
         ["lw_mse"; "oa_mse"; "lw_shrinkage"; "oa_shrinkage"] = true.
Proof.
  eexists. split.
  - unfold notebook_later. sim_solve.
  - reflexivity.
Qed.

(** ** Cells that handle no failure: the rules *)

Section StrictCells.
Context `{W : World}.

Lemma accepted_app (l1 l2 : list event) :
  accepted (l1 ++ l2) = accepted l1 && accepted l2.
Proof. unfold accepted. apply forallb_app. Qed.

Lemma strict_ret {A} (a : A) : strict (mret a).
Proof. intros k. by exists []. Qed.

Lemma strict_raise {A} (e : exn) : plain e -> strict (A:=A) (raise e).
Proof. intros He k. exists []. split; [done|]. by destruct e. Qed.

Lemma strict_bind {A B} (m : Py A) (f : A -> Py B) :
  strict m -> (forall a, strict (f a)) -> strict (m ≫= f).
Proof.
  intros Hm Hf k. specialize (Hm k). unfold mbind, Py_bind.
  destruct (m k) as [a k'|e k'].
  - destruct Hm as (evs & Hl & Hacc). specialize (Hf a k').
    destruct (f a k') as [b k''|e k''].
    + destruct Hf as (evs' & Hl' & Hacc'). exists (evs' ++ evs).
      rewrite Hl', Hl, app_assoc, accepted_app, Hacc, Hacc'. done.
    + destruct Hf as (evs' & Hl' & He). exists (evs' ++ evs).
      rewrite Hl', Hl, app_assoc. split; [done|].
      destruct e; try (by rewrite accepted_app, He, Hacc).
      destruct He as (evs'' & -> & Href & Hacc'). exists (evs'' ++ evs).
      by rewrite accepted_app, Hacc, Hacc'.
  - exact Hm.
Qed.

Lemma strict_fmap {A B} (f : A -> B) (m : Py A) : strict m -> strict (f <$> m).
Proof.
  intros Hm k. specialize (Hm k). unfold fmap, Py_fmap.
  by destruct (m k).
Qed.

Lemma strict_emit (e : event) : refused e = false -> strict (emit e).
Proof.
  intros He k. exists [e]. split; [done|].
  unfold accepted. simpl. by rewrite He.
Qed.

Lemma strict_get_rng : strict get_rng.
Proof. intros k. by exists []. Qed.

Lemma strict_put_rng (g : gen) : strict (put_rng g).
Proof. intros k. by exists []. Qed.

Lemma strict_name (x : string) : strict (name x).
Proof.
  intros k. unfold name, mbind, Py_bind, emit, get_ns. simpl.
  destruct (lookup_name (ns k) x); exists [ELoad x]; done.
Qed.

Lemma strict_bind_name (x : string) (v : val) : strict (bind_name x v).
Proof. intros k. by exists [EBind x]. Qed.

Lemma strict_mutate_name (x : string) (v : val) : strict (mutate_name x v).
Proof. intros k. by exists [EMutate x]. Qed.

(** An import or a call: raised at once when the world refuses it. *)
Lemma strict_perform (a : action) :
  (forall c s, a <> AShell c s) -> strict (perform a).
Proof.
  intros Ha k. unfold perform, mbind, Py_bind, emit. simpl.
  destruct (fails a) eqn:E.
  - exists [EAct a]. split; [done|]. exists []. repeat split.
    destruct a; try done. by destruct (Ha cmd status).
  - exists [EAct a]. split; [done|]. unfold accepted. simpl.
    destruct a; try by rewrite E.
    done.
Qed.

Lemma plain_not_iterable (v : val) : plain (not_iterable v).
Proof. unfold not_iterable. by destruct (is_term v). Qed.

Lemma strict_result_of (f : val) (args : list val) (kw : kwargs) :
  strict (result_of f args kw).
Proof.
  unfold result_of.
  repeat first
    [ apply strict_ret
    | apply strict_raise, plain_not_iterable
    | apply strict_get_rng
    | apply strict_put_rng
    | eapply strict_bind; [|intros ?]
    | case_match ].
Qed.

Lemma strict_apply (f : val) (args : list val) (kw : kwargs) :
  strict (apply f args kw).
Proof.
  unfold apply. destruct (not_callable f); [by apply strict_raise|].
  eapply strict_bind; [by apply strict_perform|]. intros _. apply strict_result_of.
Qed.

Lemma strict_sequence {A} (ms : list (Py A)) :
  Forall strict ms -> strict (sequence ms).
Proof.
  induction 1 as [|m ms Hm _ IH]; simpl; [apply strict_ret|].
  eapply strict_bind; [exact Hm|]. intros a.
  eapply strict_bind; [exact IH|]. intros r. apply strict_ret.
Qed.

Lemma strict_sequence_kw (ms : list (string * Py val)) :
  Forall (fun p => strict p.2) ms -> strict (sequence_kw ms).
Proof.
  induction 1 as [|[x m] ms Hm _ IH]; simpl; [apply strict_ret|].
  eapply strict_bind; [exact Hm|]. intros a.
  eapply strict_bind; [exact IH|]. intros r. apply strict_ret.
Qed.

Lemma strict_list (es : list (Py val)) : Forall strict es -> strict (list_ es).
Proof. intros H. apply strict_fmap, strict_sequence, H. Qed.

Lemma strict_tuple (es : list (Py val)) : Forall strict es -> strict (tuple_ es).
Proof. intros H. apply strict_fmap, strict_sequence, H. Qed.

Lemma strict_attr (e : Py val) (a : string) : strict e -> strict (attr e a).
Proof. intros H. eapply strict_bind; [exact H|]. intros v. apply strict_ret. Qed.

Lemma strict_call (f : Py val) (args : list (Py val)) (kw : list (string * Py val)) :
  strict f -> Forall strict args -> Forall (fun p => strict p.2) kw ->
  strict (call f args kw).
Proof.
  intros Hf Ha Hk. unfold call.
  eapply strict_bind; [exact Hf|]. intros fv.
  eapply strict_bind; [by apply strict_sequence|]. intros avs.
  eapply strict_bind; [by apply strict_sequence_kw|]. intros kvs.
  apply strict_apply.
Qed.

Lemma strict_pow (e1 e2 : Py val) : strict e1 -> strict e2 -> strict (pow e1 e2).
Proof.
  intros H1 H2. unfold pow.
  eapply strict_bind; [exact H1|]. intros a.
  eapply strict_bind; [exact H2|]. intros b. apply strict_apply.
Qed.

Lemma strict_call_inplace (x m : string) (args : list (Py val))
    (kw : list (string * Py val)) :
  Forall strict args -> Forall (fun p => strict p.2) kw ->
  strict (call_inplace x m args kw).
Proof.
  intros Ha Hk. unfold call_inplace.
  eapply strict_bind; [apply strict_call; auto; apply strict_attr, strict_name|].
  intros r. eapply strict_bind; [apply strict_mutate_name|].
  intros _. apply strict_ret.
Qed.

Lemma strict_assign (x : string) (e : Py val) : strict e -> strict (assign x e).
Proof. intros H. eapply strict_bind; [exact H|]. intros v. apply strict_bind_name. Qed.

Lemma plain_store_item (a : val) (idx : list Z) (v : val) (e : exn) :
  store_item a idx v = inl e -> plain e.
Proof.
  revert a. induction idx as [|i idx IH]; intros a; simpl; [done|].
  destruct a; try (intros [= <-]; done).
  destruct (norm_index _ _); [|intros [= <-]; done].
  destruct (_ !! _) as [row|]; [|intros [= <-]; done].
  destruct (store_item row idx v) eqn:E; [|done].
  intros [= <-]. eauto.
Qed.

Lemma strict_assign_item (x : string) (idx : list (Py val)) (e : Py val) :
  strict e -> Forall strict idx -> strict (assign_item x idx e).
Proof.
  intros He Hi. unfold assign_item.
  eapply strict_bind; [exact He|]. intros v.
  eapply strict_bind; [apply strict_name|]. intros a.
  eapply strict_bind; [by apply strict_sequence|]. intros ixs.
  destruct (ints_of ixs) as [zs|]; [|by apply strict_raise].
  destruct (store_item a zs v) as [err|a'] eqn:E.
  - eapply strict_raise, plain_store_item, E.
  - apply strict_mutate_name.
Qed.

Lemma strict_expr (e : Py val) : strict e -> strict (expr e).
Proof. intros H. eapply strict_bind; [exact H|]. intros v. apply strict_ret. Qed.

Lemma strict_bind_targets (xs : list string) (v : val) : strict (bind_targets xs v).
Proof.
  assert (forall ps : list (string * val),
    strict ((fix go (ps : list (string * val)) : Py unit :=
               match ps with
               | [] => mret tt
               | (x, v) :: ps' => _ ← bind_name x v; go ps'
               end) ps)) as Hgo.
  { induction ps as [|[x w] ps IH]; [apply strict_ret|].
    eapply strict_bind; [apply strict_bind_name|]. intros _. exact IH. }
  unfold bind_targets.
  destruct xs as [|x [|x' xs]]; try apply strict_bind_name;
    (destruct (iter_items v) as [vs|]; [|by apply strict_raise]);
    (destruct (_ =? _)%nat; [apply Hgo|by apply strict_raise]).
Qed.

Lemma strict_for_items (xs : list string) (items : list val) (body : Py unit) :
  strict body -> strict (for_items xs items body).
Proof.
  intros Hbody. induction items as [|v items IH]; simpl; [apply strict_ret|].
  eapply strict_bind; [apply strict_bind_targets|]. intros _.
  eapply strict_bind; [exact Hbody|]. intros _. exact IH.
Qed.

Lemma strict_for_in (xs : list string) (e : Py val) (body : Py unit) :
  strict e -> strict body -> strict (for_in xs e body).
Proof.
  intros He Hbody. unfold for_in.
  eapply strict_bind; [exact He|]. intros v.
  destruct (iter_items v); [|apply strict_raise, plain_not_iterable].
  by apply strict_for_items.
Qed.

Lemma strict_import_as (path alias : string) : strict (import_as path alias).
Proof.
  unfold import_as. eapply strict_bind; [by apply strict_perform|]. intros _.
  apply strict_bind_name.
Qed.

Lemma strict_from_import (path : string) (xs : list string) :
  strict (from_import path xs).
Proof.
  unfold from_import. eapply strict_bind; [by apply strict_perform|]. intros _.
  induction xs as [|x xs IH]; [apply strict_ret|].
  eapply strict_bind; [apply strict_bind_name|]. intros _. exact IH.
Qed.

(** The one place where a failure is not raised: the exit status of a
    shell command is logged and dropped. *)
Lemma strict_shell (cmd : string) : strict (shell cmd).
Proof. by apply strict_emit. Qed.

Lemma strict_block (stmts : list (Py unit)) : Forall strict stmts -> strict (block stmts).
Proof.
  induction 1 as [|s stmts Hs _ IH]; simpl; [apply strict_ret|].
  eapply strict_bind; [exact Hs|]. intros _. exact IH.
Qed.

Lemma strict_run_cell (n : nat) (body : Py unit) : strict body -> strict (run_cell n body).
Proof. intros H. eapply strict_bind; [by apply strict_emit|]. intros _. exact H. Qed.

End StrictCells.

Ltac head_of t :=
  lazymatch t with
  | ?f _ => head_of f
  | _ => t
  end.

Ltac strict_solve :=
  lazymatch goal with
  | |- strict (block _) => apply strict_block; strict_solve
  | |- strict (run_cell _ _) => apply strict_run_cell; strict_solve
  | |- strict (assign _ _) => apply strict_assign; strict_solve
  | |- strict (assign_item _ _ _) => apply strict_assign_item; [strict_solve|strict_solve]
  | |- strict (expr _) => apply strict_expr; strict_solve
  | |- strict (call_inplace _ _ _ _) =>
      apply strict_call_inplace; [strict_solve|strict_solve]
  | |- strict (call _ _ _) => apply strict_call; [strict_solve|strict_solve|strict_solve]
  | |- strict (attr _ _) => apply strict_attr; strict_solve
  | |- strict (pow _ _) => apply strict_pow; [strict_solve|strict_solve]
  | |- strict (name _) => apply strict_name
  | |- strict (list_ _) => apply strict_list; strict_solve
  | |- strict (tuple_ _) => apply strict_tuple; strict_solve
  | |- strict (for_in _ _ _) => apply strict_for_in; [strict_solve|strict_solve]
  | |- strict (import_as _ _) => apply strict_import_as
  | |- strict (import _) => apply strict_import_as
  | |- strict (from_import _ _) => apply strict_from_import
  | |- strict (shell _) => apply strict_shell
  | |- strict (mret _) => apply strict_ret
  | |- strict (int_ _) => apply strict_ret
  | |- strict (float_ _) => apply strict_ret
  | |- strict (str_ _) => apply strict_ret
  | |- strict True_ => apply strict_ret
  | |- strict False_ => apply strict_ret
  | |- Forall _ [] => apply Forall_nil_2
  | |- Forall _ (_ :: _) => apply Forall_cons_2; [cbn [snd]; strict_solve|strict_solve]
  | |- Forall _ (_ ++ _) => apply Forall_app_2; [strict_solve|strict_solve]
  | |- Forall _ (map _ _) => cbn [map]; strict_solve
  | |- Forall _ ?l => let h := head_of l in unfold h; strict_solve
  | |- strict ?m => let h := head_of m in unfold h; strict_solve
  end.

Lemma notebook_strict `{W : World} : Forall strict Notebook.cells.
Proof. unfold Notebook.cells. strict_solve. Qed.

Lemma error_bars_strict `{W : World} : Forall strict ErrorBars.cells.
Proof. unfold ErrorBars.cells. strict_solve. Qed.

(** ** In [3] from any kernel with the imports in scope *)

Lemma seeding_run (st : Z) (k : kernel) :
  ns k !! "np" = Some Expected.numpy ->
  run_cell 3 (Notebook.seeding (W:=world st)) k = Ok tt (seeded k).
Proof.
  intros Hnp. destruct k as [m r l]. simpl in Hnp.
  unfold run_cell, Notebook.seeding, expr, call, attr, name, int_, seeded.
  unfold mbind, Py_bind, mret, Py_ret, emit, get_ns, lookup_name. cbn [ns rng log].
  rewrite Hnp. reflexivity.
Qed.

Lemma calc_split `{W : World} (k : kernel) :
  run_cell 3 Notebook.calculations k =
  match run_cell 3 Notebook.seeding k with
  | Ok _ k' => block rest_of_calc k'
  | Raise e k' => Raise e k'
  end.
Proof.
  unfold rest_of_calc, run_cell, Notebook.calculations.
  cbn [block]. unfold mbind, Py_bind.
  destruct (emit (EEnter 3) k) as [[] k0|]; [|done].
  destruct (Notebook.seeding k0) as [[] k1|]; done.
Qed.

Lemma calc_ok `{W : World} (k k1 k2 : kernel) :
  run_cell 3 Notebook.seeding k = Ok tt k1 -> block rest_of_calc k1 = Ok tt k2 ->
  run_cell 3 Notebook.calculations k = Ok tt k2.
Proof. intros H1 H2. rewrite calc_split, H1. exact H2. Qed.

Lemma calc_inv `{W : World} (k k1 k2 : kernel) :
  run_cell 3 Notebook.calculations k = Ok tt k2 ->
  run_cell 3 Notebook.seeding k = Ok tt k1 ->
  block rest_of_calc k1 = Ok tt k2.
Proof. intros H H1. rewrite calc_split, H1 in H. exact H. Qed.

Lemma block_single (s : Py unit) (k : kernel) : block [s] k = s k.
Proof.
  cbn [block]. unfold mbind, Py_bind. by destruct (s k) as [[] k'|].
Qed.

Lemma block_app_inv (l1 l2 : list (Py unit)) (k k1 k2 : kernel) :
  block (l1 ++ l2) k = Ok tt k2 -> block l1 k = Ok tt k1 -> block l2 k1 = Ok tt k2.
Proof. intros H H1. rewrite block_app, H1 in H. exact H. Qed.

(** What [sim] gives when one of the two runs is known to end normally. *)
Lemma sim_ok {A} (names names' : list string) (m : Py A) (k1 k2 k2' : kernel) (a : A) :
  sim names names' m -> agree names k1 k2 -> m k2 = Ok a k2' ->
  exists k1', m k1 = Ok a k1' /\ agree names' k1' k2' /\ same_added k1 k1' k2 k2'.
Proof.
  intros Hs Ha H2. specialize (Hs k1 k2 Ha). rewrite H2 in Hs.
  destruct (m k1) as [a1 k1'|]; [|done].
  destruct Hs as (-> & Hag & Hadd). eauto.
Qed.

Lemma imports_run (g : gen) (st : Z) :
  block (notebook_imports (W:=world st)) (fresh g) = Ok tt (imports_kernel g).
Proof. vm_compute. reflexivity. Qed.

Lemma imports_actions : actions_of Expected.imports_log = Expected.import_actions.
Proof. reflexivity. Qed.

Lemma rng_seeded (k : kernel) : rng (seeded k) = Gen (GSeed 0) [].
Proof. reflexivity. Qed.

Lemma ns_seeded (k : kernel) : ns (seeded k) = ns k.
Proof. reflexivity. Qed.

(** The canonical run of In [3]: in the kernel In [2] leaves when the
    notebook starts in a fresh kernel. *)
Lemma canonical_calc (st : Z) (g : gen) :
  exists l,
    block (rest_of_calc (W:=world st)) (seeded (imports_kernel g))
    = Ok tt (calc_kernel Expected.lw_mse Expected.oa_mse Expected.lw_shrinkage
               Expected.oa_shrinkage Expected.gen_after l)
    /\ actions_of l = Expected.calc_actions.
Proof.
  destruct (calc_run g st) as (l & Hrun & Hacts & _).
  exists l. split; [|exact Hacts].
  pose proof (block_app_inv notebook_imports [run_cell 3 Notebook.calculations]
                (fresh g) _ _ Hrun (imports_run g st)) as H.
  rewrite block_single in H.
  exact (calc_inv _ _ _ H (seeding_run st (imports_kernel g) eq_refl)).
Qed.

Lemma in_scope_agree (k : kernel) (g : gen) :
  imports_in_scope k -> agree seeded_reads (seeded k) (seeded (imports_kernel g)).
Proof.
  intros H. split; [by rewrite !rng_seeded|].
  intros x Hx. rewrite !ns_seeded.
  unfold imports_in_scope in H. rewrite List.Forall_forall in H. apply H.
  unfold mem in Hx. apply existsb_exists in Hx as (y & Hy & E).
  apply String.eqb_eq in E. by subst.
Qed.

Lemma in_scope_np (k : kernel) : imports_in_scope k -> ns k !! "np" = Some Expected.numpy.
Proof.
  intros H. unfold imports_in_scope in H. rewrite List.Forall_forall in H.
  rewrite (H "np"); [reflexivity|]. by left.
Qed.


Lemma after_publish_results (a b c d : val) :
  map (fun x => Expected.after_publish a b c d !! x)
    ["lw_mse"; "oa_mse"; "lw_shrinkage"; "oa_shrinkage"]
  = [Some a; Some b; Some c; Some d].
Proof. vm_compute. reflexivity. Qed.

Lemma agree_names (names names' : list string) (k1 k2 : kernel) :
  forallb (fun x => mem x names') names = true ->
  agree names' k1 k2 -> Forall (fun x => ns k1 !! x = ns k2 !! x) names.
Proof.
  intros Hin [_ Hn]. apply List.Forall_forall. intros x Hx. apply Hn.
  rewrite forallb_forall in Hin. by apply Hin.
Qed.


Lemma new_actions_added (k k' : kernel) (evs : list event) :
  log k' = evs ++ log k -> new_actions k k' = actions_of evs.
Proof.
  intros H. unfold new_actions. rewrite H, length_app.
  replace (length evs + length (log k) - length (log k))%nat with (length evs) by lia.
  by rewrite take_app_length.
Qed.

(** In [3], run in any kernel that has the imports of In [2] in scope,
    ends normally, leaves the expected arrays and does the expected
    actions. *)
Lemma calc_cell_run (st : Z) (k : kernel) :
  imports_in_scope k ->
  exists k' evs,
    run_cell 3 (Notebook.calculations (W:=world st)) k = Ok tt k'
    /\ ready_to_plot k'
    /\ log k' = evs ++ log k
    /\ actions_of evs = Expected.cell3_actions.
Proof.
  intros Hk. set (g := Gen (GStart 0) []).
  destruct (canonical_calc st g) as (l & Hcan & Hacts).
  destruct (calc_sim (W:=world st)) as (names' & Hsim & Hin).
  destruct (sim_ok _ _ _ _ _ _ _ Hsim (in_scope_agree k g Hk) Hcan)
    as (k' & Hrun & Hag & evs & Hlog & Hlog').
  exists k', (evs ++ [EAct (ACall (Expected.np_random "seed") [VInt 0] []);
                      ELoad "np"; EEnter 3]).
  split; [|split; [|split]].
  - exact (calc_ok _ _ _ (seeding_run st k (in_scope_np k Hk)) Hrun).
  - exact (agree_names _ _ _ _ Hin Hag).
  - rewrite Hlog. cbn [seeded log]. by rewrite <- app_assoc.
  - cbn [seeded calc_kernel log] in Hlog'.
    rewrite Hlog' in Hacts.
    change (imports_kernel g) with
      {| ns := Expected.after_imports; rng := g; log := Expected.imports_log |} in Hacts.
    cbn [log] in Hacts.
    rewrite app_assoc, actions_of_app, imports_actions in Hacts.
    unfold Expected.calc_actions in Hacts.
    apply app_inv_head in Hacts. exact Hacts.
Qed.

(** The cells after In [3], run in any kernel that binds what they read
    as In [3] leaves it, end normally, leave the arrays alone and do the
    expected actions. *)
Lemma later_cells_run (st : Z) (k : kernel) :
  ready_to_plot k ->
  exists k' evs,
    block (notebook_later (W:=world st)) k = Ok tt k'
    /\ results k' = Expected.results
    /\ log k' = evs ++ log k
    /\ actions_of evs = later_actions st.
Proof.
  intros Hk.
  assert (block (notebook_later (W:=world st))
            (calc_kernel Expected.lw_mse Expected.oa_mse Expected.lw_shrinkage
               Expected.oa_shrinkage (rng k) [])
          = Ok tt {| ns := Expected.after_publish Expected.lw_mse Expected.oa_mse
                             Expected.lw_shrinkage Expected.oa_shrinkage;
                     rng := rng k;
                     log := log (end_kernel st []) |}) as Hcan.
  { exact (later_run st (Expected.table_rows (Expected.mse Expected.LedoitWolf))
             (Expected.table_rows (Expected.mse Expected.OAS))
             (Expected.table_rows (Expected.shrinkage Expected.LedoitWolf))
             (Expected.table_rows (Expected.shrinkage Expected.OAS)) (rng k) []). }
  destruct (later_sim (W:=world st)) as (names' & Hsim & Hin).
  assert (agree later_reads k
            (calc_kernel Expected.lw_mse Expected.oa_mse Expected.lw_shrinkage
               Expected.oa_shrinkage (rng k) [])) as Hag0.
  { split; [reflexivity|]. intros x Hx.
    unfold ready_to_plot in Hk. rewrite List.Forall_forall in Hk. apply Hk.
    unfold mem in Hx. apply existsb_exists in Hx as (y & Hy & E).
    apply String.eqb_eq in E. by subst. }
  destruct (sim_ok _ _ _ _ _ _ _ Hsim Hag0 Hcan)
    as (k' & Hrun & Hag & evs & Hlog & Hlog').
  exists k', evs. split; [exact Hrun|]. split; [|split; [exact Hlog|]].
  - pose proof (agree_names _ _ _ _ Hin Hag) as Hr. unfold Expected.results.
    rewrite <- (after_publish_results Expected.lw_mse Expected.oa_mse
                  Expected.lw_shrinkage Expected.oa_shrinkage).
    unfold results. cbn [map ns] in *.
    repeat (apply Forall_cons_1 in Hr as [? Hr]).
    congruence.
  - cbn [calc_kernel end_kernel log] in Hlog'. rewrite !app_nil_r in Hlog'.
    unfold later_actions. by rewrite Hlog'.
Qed.

(** ** What the two documents do, from a fresh kernel *)

Lemma fits_calc : list_eqb action_eqb (fits Expected.calc_actions) Expected.all_fits = true.
Proof. vm_compute. reflexivity. Qed.

Lemma notebook_actions (g : gen) (st : Z) (l : list event) :
  actions_of l = Expected.calc_actions ->
  actions (end_kernel st l) = Expected.calc_actions ++ later_actions st.
Proof.
  intros H. unfold actions, end_kernel. cbn [log].
  by rewrite actions_of_app, H.
Qed.

(** The whole notebook from a fresh kernel: it ends normally, and these
    are its arrays, its actions and its uses of names. *)
Lemma notebook_facts (g : gen) (st : Z) :
  exists k,
    notebook (W:=world st) (fresh g) = Ok tt k
    /\ results k = Expected.results
    /\ actions k = Expected.calc_actions ++ later_actions st
    /\ sends (actions k) = Expected.all_sends
    /\ fits (actions k) = Expected.all_fits
    /\ steps k = Expected.all_steps
    /\ cross_reads k = Expected.cross_reads
    /\ all_writes k = Expected.all_writes.
Proof.
  destruct (notebook_run g st) as (l & Hrun & Hacts & Huses).
  exists (end_kernel st l).
  pose proof (notebook_actions g st l Hacts) as Ha.
  split; [exact Hrun|]. split; [apply after_publish_results|].
  split; [exact Ha|].
  split; [|split; [|split; [|split]]].
  - rewrite Ha, sends_app, calc_sends. apply later_sends.
  - rewrite Ha, fits_app. unfold later_actions. rewrite later_fits, app_nil_r.
    apply actions_eqb_sound, fits_calc.
  - unfold steps. rewrite Ha. apply notebook_steps.
  - unfold cross_reads, end_kernel. cbn [log]. rewrite scan_log_app, Huses.
    exact (later_cross_reads st _ _ _ _).
  - unfold all_writes, end_kernel. cbn [log]. rewrite scan_log_app, Huses.
    exact (later_writes st _ _ _ _).
Qed.

(** The error bars page from a fresh kernel, whatever the generator and
    the exit status of shell commands. *)
Lemma error_bars_run (g : gen) (st : Z) :
  error_bars (W:=world st) (fresh g) = Ok tt (bars_kernel g).
Proof. vm_compute. reflexivity. Qed.

Lemma bars_kernel_log (g : gen) : log (bars_kernel g) = bars_log.
Proof. vm_compute. reflexivity. Qed.

Lemma bars_sends : sends (actions_of bars_log) = ExpectedBars.all_sends.
Proof. vm_compute. reflexivity. Qed.

Lemma bars_steps : steps_of (actions_of bars_log) = ExpectedBars.all_steps.
Proof. vm_compute. reflexivity. Qed.

Lemma bars_uses :
  filter (fun u => crosses u) (reads (scan_log bars_log)) = []
  /\ filter (fun u => crosses u) (writes (scan_log bars_log)) = [].
Proof. vm_compute. split; reflexivity. Qed.

(** The error bars page in the kernel the notebook leaves, whatever the
    arrays, the generator and the log: the same events as in a fresh
    kernel. *)
Lemma error_bars_after_notebook (st : Z) (a b c d : val) (r : gen) (l : list event) :
  let k := {| ns := Expected.after_publish a b c d; rng := r; log := l |} in
  error_bars (W:=world st) k = Ok tt (final (error_bars (W:=world st) k))
  /\ log (final (error_bars (W:=world st) k)) = bars_log ++ l.
Proof. intros k. split; vm_compute; reflexivity. Qed.

Lemma same_binding_sound (m1 m2 : gmap string val) (x : string) :
  same_binding m1 m2 x = true -> m1 !! x = m2 !! x.
Proof.
  unfold same_binding. destruct (m1 !! x), (m2 !! x); try done.
  intros H. f_equal. by apply val_eqb_sound.
Qed.

Lemma imports_checked_sound (k : kernel) : imports_checked k = true -> imports_in_scope k.
Proof.
  unfold imports_checked, imports_in_scope. rewrite forallb_forall, List.Forall_forall.
  intros H x Hx. apply same_binding_sound, H, Hx.
Qed.

Lemma plot_checked_sound (k : kernel) : plot_checked k = true -> ready_to_plot k.
Proof.
  unfold plot_checked, ready_to_plot. rewrite forallb_forall, List.Forall_forall.
  intros H x Hx. apply same_binding_sound, H, Hx.
Qed.

(** In [1] and In [2] in the kernel the error bars page leaves. *)
Lemma imports_after_error_bars (g : gen) (st : Z) :
  let k' := final (block (notebook_imports (W:=world st)) (bars_kernel g)) in
  block (notebook_imports (W:=world st)) (bars_kernel g) = Ok tt k'
  /\ imports_checked k' = true
  /\ log k' = Expected.imports_log ++ log (bars_kernel g).
Proof. intros k'. split; [|split]; vm_compute; reflexivity. Qed.

(** The publishing cell on its own, whatever pip exits with. *)
Lemma publish_run (g : gen) (st : Z) :
  exists k,
    run_cell 8 (Notebook.publish (W:=world st)) (fresh g) = Ok tt k
    /\ actions k = Expected.publish_actions st.
Proof. eexists. split; vm_compute; reflexivity. Qed.

(** Entries of the expected arrays. *)
Lemma entry_table (f : nat -> nat -> val) (i j : nat) :
  (i < 25)%nat -> (j < Expected.repeat)%nat ->
  entry (Expected.table f) i j = Some (f i j).
Proof.
  intros Hi Hj. unfold entry, Expected.table, Expected.table_rows.
  rewrite list_lookup_fmap, lookup_seq_lt by exact Hi. cbn [fmap option_fmap option_map].
  rewrite list_lookup_fmap, lookup_seq_lt by exact Hj. reflexivity.
Qed.

Lemma dims_table (f : nat -> nat -> val) :
  dims (Expected.table f) = (25%nat, replicate 25 Expected.repeat).
Proof. reflexivity. Qed.

(** ** The notebook in any kernel where its first two cells run as in a
    fresh one *)

Lemma notebook_from (st : Z) (k k2 : kernel) :
  block (notebook_imports (W:=world st)) k = Ok tt k2 ->
  imports_in_scope k2 ->
  log k2 = Expected.imports_log ++ log k ->
  exists k',
    notebook (W:=world st) k = Ok tt k'
    /\ new_actions k k' = Expected.calc_actions ++ later_actions st
    /\ results k' = Expected.results.
Proof.
  intros Himp Hscope Hlog2.
  destruct (calc_cell_run st k2 Hscope) as (k3 & evs3 & Hcalc & Hready & Hlog3 & Hacts3).
  destruct (later_cells_run st k3 Hready) as (k' & evs & Hlater & Hres & Hlog & Hacts).
  exists k'. split; [|split; [|exact Hres]].
  - apply (block_app_ok notebook_imports from_calc k k2 _ Himp).
    unfold from_calc. cbn [block]. unfold mbind, Py_bind. rewrite Hcalc. exact Hlater.
  - rewrite (new_actions_added k k' (evs ++ evs3 ++ Expected.imports_log)).
    + rewrite !actions_of_app, imports_actions, Hacts3, Hacts.
      unfold Expected.calc_actions. by rewrite <- app_assoc.
    + rewrite Hlog, Hlog3, Hlog2. by rewrite <- !app_assoc.
Qed.

(** In [4] rebinds [OAS], imported by In [2], to a trace: after it the
    imports of In [2] are no longer all in scope, and In [3] cannot be
    run again as it ran. *)
Lemma plot_rebinds_OAS (a b c d : val) (r : gen) (l : list event) :
  imports_checked {| ns := Expected.after_publish a b c d; rng := r; log := l |} = false.
Proof. vm_compute. reflexivity. Qed.

Lemma tables_differ (f f' : nat -> nat -> val) :
  f 0%nat 0%nat <> f' 0%nat 0%nat -> Expected.table f <> Expected.table f'.
Proof.
  intros Hne Heq. apply Hne.
  assert (entry (Expected.table f) 0 0 = entry (Expected.table f') 0 0) as H by (by rewrite Heq).
  unfold Expected.repeat in *.
  rewrite !entry_table in H by (unfold Expected.repeat; lia). congruence.
Qed.

Lemma bars_isolated (g : gen) : isolated (bars_kernel g).
Proof.
  unfold isolated, cross_reads, cross_writes. rewrite bars_kernel_log.
  destruct bars_uses as [H1 H2]. rewrite H1, H2. split; reflexivity.
Qed.

Lemma some_eq (a b : val) : Some a = Some b -> a = b.
Proof. congruence. Qed.

Lemma std1_inj (a b : val) : Expected.std1 a = Expected.std1 b -> a = b.
Proof. unfold Expected.std1. congruence. Qed.

(** ** Cells that swallow no NameError: the rules *)

Lemma lookup_name_mono (m1 m2 : gmap string val) (x : string) :
  (forall y, is_Some (m1 !! y) -> is_Some (m2 !! y)) ->
  is_Some (lookup_name m1 x) -> is_Some (lookup_name m2 x).
Proof.
  intros Hm. unfold lookup_name. destruct (m1 !! x) as [v|] eqn:E.
  - intros _. destruct (Hm x) as [w ->]; [by rewrite E|]. done.
  - destruct (is_builtin x); [|by intros [? ?]]. intros _. by destruct (m2 !! x).
Qed.

Lemma loads_app (l1 l2 : list event) : loads (l1 ++ l2) = loads l1 ++ loads l2.
Proof. apply omap_app. Qed.

Lemma finds_ret {A} (a : A) : finds (mret a).
Proof.
  intros k a' k' H. injection H as <- <-. split; [done|]. exists []. split; [done|].
  apply Forall_nil_2.
Qed.

Lemma finds_raise {A} (e : exn) : finds (A:=A) (raise e).
Proof. intros k a k' H. discriminate H. Qed.

Lemma finds_bind {A B} (m : Py A) (f : A -> Py B) :
  finds m -> (forall a, finds (f a)) -> finds (m ≫= f).
Proof.
  intros Hm Hf k b k2 H. unfold mbind, Py_bind in H.
  destruct (m k) as [a k1|e k1] eqn:E; [|discriminate].
  destruct (Hm k a k1 E) as (M1 & evs1 & L1 & F1).
  destruct (Hf a k1 b k2 H) as (M2 & evs2 & L2 & F2).
  split; [auto|]. exists (evs2 ++ evs1). split; [by rewrite L2, L1, app_assoc|].
  rewrite loads_app. apply Forall_app. split; [exact F2|].
  eapply Forall_impl; [exact F1|]. intros x. by apply lookup_name_mono.
Qed.

Lemma finds_fmap {A B} (f : A -> B) (m : Py A) : finds m -> finds (f <$> m).
Proof.
  intros Hm k b k' H. unfold fmap, Py_fmap in H.
  destruct (m k) as [a k1|e k1] eqn:E; [|discriminate]. injection H as <- <-.
  exact (Hm k a k1 E).
Qed.

Lemma finds_emit (e : event) : (forall x, e <> ELoad x) -> finds (emit e).
Proof.
  intros He k a k' H. injection H as <- <-. split; [intros x Hx; exact Hx|].
  exists [e]. split; [reflexivity|]. unfold loads. cbn [omap list_omap].
  destruct e; try apply Forall_nil_2. by edestruct He.
Qed.

Lemma finds_get_ns : finds get_ns.
Proof.
  intros k a k' H. injection H as <- <-. split; [done|]. exists []. split; [done|].
  apply Forall_nil_2.
Qed.

Lemma finds_get_rng : finds get_rng.
Proof.
  intros k a k' H. injection H as <- <-. split; [done|]. exists []. split; [done|].
  apply Forall_nil_2.
Qed.

Lemma finds_put_rng (g : gen) : finds (put_rng g).
Proof.
  intros k a k' H. injection H as <- <-. split; [done|]. exists []. split; [done|].
  apply Forall_nil_2.
Qed.

(** A name is loaded, and the load goes on only if the name is found. *)
Lemma finds_name (x : string) : finds (name x).
Proof.
  intros k v k' H. unfold name, mbind, Py_bind, emit, get_ns in H. cbn [ns rng log] in H.
  destruct (lookup_name (ns k) x) as [w|] eqn:E; [|discriminate].
  injection H as <- <-. split; [done|]. exists [ELoad x]. split; [done|].
  cbn. apply Forall_cons_2; [by rewrite E|apply Forall_nil_2].
Qed.

Lemma finds_bind_name (x : string) (v : val) : finds (bind_name x v).
Proof.
  intros k a k' H. injection H as <- <-. cbn [ns]. split.
  - intros y Hy. destruct (decide (y = x)) as [->|Hne].
    + by rewrite lookup_insert_eq.
    + by rewrite lookup_insert_ne.
  - exists [EBind x]. split; [done|]. apply Forall_nil_2.
Qed.

Lemma finds_mutate_name (x : string) (v : val) : finds (mutate_name x v).
Proof.
  intros k a k' H. injection H as <- <-. cbn [ns]. split.
  - intros y Hy. destruct (decide (y = x)) as [->|Hne].
    + by rewrite lookup_insert_eq.
    + by rewrite lookup_insert_ne.
  - exists [EMutate x]. split; [done|]. apply Forall_nil_2.
Qed.

Section FindsCells.
Context `{W : World}.

Lemma finds_perform (a : action) : finds (perform a).
Proof.
  unfold perform. apply finds_bind; [by apply finds_emit|]. intros _.
  destruct (fails a); [apply finds_raise|apply finds_ret].
Qed.

Lemma finds_result_of (f : val) (args : list val) (kw : kwargs) :
  finds (result_of f args kw).
Proof.
  unfold result_of.
  repeat first
    [ apply finds_ret
    | apply finds_raise
    | apply finds_get_rng
    | apply finds_put_rng
    | apply finds_bind; [|intros ?]
    | case_match ].
Qed.

Lemma finds_apply (f : val) (args : list val) (kw : kwargs) : finds (apply f args kw).
Proof.
  unfold apply. destruct (not_callable f); [apply finds_raise|].
  apply finds_bind; [apply finds_perform|]. intros _. apply finds_result_of.
Qed.

Lemma finds_sequence {A} (ms : list (Py A)) : Forall finds ms -> finds (sequence ms).
Proof.
  induction 1 as [|m ms Hm _ IH]; simpl; [apply finds_ret|].
  apply finds_bind; [exact Hm|]. intros a.
  apply finds_bind; [exact IH|]. intros r. apply finds_ret.
Qed.

Lemma finds_sequence_kw (ms : list (string * Py val)) :
  Forall (fun p => finds p.2) ms -> finds (sequence_kw ms).
Proof.
  induction 1 as [|[x m] ms Hm _ IH]; simpl; [apply finds_ret|].
  apply finds_bind; [exact Hm|]. intros a.
  apply finds_bind; [exact IH|]. intros r. apply finds_ret.
Qed.

Lemma finds_call (f : Py val) (args : list (Py val)) (kw : list (string * Py val)) :
  finds f -> Forall finds args -> Forall (fun p => finds p.2) kw -> finds (call f args kw).
Proof.
  intros Hf Ha Hk. unfold call.
  apply finds_bind; [exact Hf|]. intros fv.
  apply finds_bind; [by apply finds_sequence|]. intros avs.
  apply finds_bind; [by apply finds_sequence_kw|]. intros kvs.
  apply finds_apply.
Qed.

Lemma finds_bind_targets (xs : list string) (v : val) : finds (bind_targets xs v).
Proof.
  assert (forall ps : list (string * val),
    finds ((fix go (ps : list (string * val)) : Py unit :=
              match ps with
              | [] => mret tt
              | (x, v) :: ps' => _ ← bind_name x v; go ps'
              end) ps)) as Hgo.
  { induction ps as [|[x w] ps IH]; [apply finds_ret|].
    apply finds_bind; [apply finds_bind_name|]. intros _. exact IH. }
  unfold bind_targets.
  destruct xs as [|x [|x' xs]].
  - destruct (iter_items v) as [vs|]; [|apply finds_raise].
    destruct (_ =? _)%nat; [apply Hgo|apply finds_raise].
  - apply finds_bind_name.
  - destruct (iter_items v) as [vs|]; [|apply finds_raise].
    destruct (_ =? _)%nat; [apply Hgo|apply finds_raise].
Qed.

Lemma finds_for_in (xs : list string) (e : Py val) (body : Py unit) :
  finds e -> finds body -> finds (for_in xs e body).
Proof.
  intros He Hb. unfold for_in. apply finds_bind; [exact He|]. intros v.
  destruct (iter_items v) as [items|]; [|apply finds_raise].
  induction items as [|w items IH]; simpl; [apply finds_ret|].
  apply finds_bind; [apply finds_bind_targets|]. intros _.
  apply finds_bind; [exact Hb|]. intros _. exact IH.
Qed.

Lemma finds_block (stmts : list (Py unit)) : Forall finds stmts -> finds (block stmts).
Proof.
  induction 1 as [|s stmts Hs _ IH]; simpl; [apply finds_ret|].
  apply finds_bind; [exact Hs|]. intros _. exact IH.
Qed.

(** Every expression and every statement of the forms above swallows
    no NameError, and stops where the world refuses an action. *)
Lemma expression_finds (e : Py val) : expression e -> finds e.
Proof.
  apply expression_all.
  - apply finds_name.
  - apply finds_ret.
  - intros e' a He. apply finds_bind; [exact He|]. intros v. apply finds_ret.
  - apply finds_call.
  - intros e1 e2 H1 H2. unfold pow. apply finds_bind; [exact H1|]. intros a.
    apply finds_bind; [exact H2|]. intros b. apply finds_apply.
  - intros es H. by apply finds_fmap, finds_sequence.
  - intros es H. by apply finds_fmap, finds_sequence.
  - intros x m args kw Ha Hk. unfold call_inplace.
    apply finds_bind.
    + apply finds_call; [|exact Ha|exact Hk].
      apply finds_bind; [apply finds_name|]. intros v. apply finds_ret.
    + intros r. apply finds_bind; [apply finds_mutate_name|]. intros _. apply finds_ret.
Qed.

Lemma expression_strict (e : Py val) : expression e -> strict e.
Proof.
  apply expression_all.
  - apply strict_name.
  - apply strict_ret.
  - apply strict_attr.
  - apply strict_call.
  - apply strict_pow.
  - apply strict_list.
  - apply strict_tuple.
  - apply strict_call_inplace.
Qed.

Lemma statement_finds (s : Py unit) : statement s -> finds s.
Proof.
  apply statement_all.
  - intros x e He. apply finds_bind; [by apply expression_finds|]. intros v.
    apply finds_bind_name.
  - intros x idx e Hi He. unfold assign_item.
    apply finds_bind; [by apply expression_finds|]. intros v.
    apply finds_bind; [apply finds_name|]. intros a.
    apply finds_bind.
    { apply finds_sequence. eapply Forall_impl; [exact Hi|]. apply expression_finds. }
    intros ixs. destruct (ints_of ixs) as [zs|]; [|apply finds_raise].
    destruct (store_item a zs v); [apply finds_raise|apply finds_mutate_name].
  - intros e He. apply finds_bind; [by apply expression_finds|]. intros v. apply finds_ret.
  - intros xs e body He Hb. apply finds_for_in; [by apply expression_finds|exact Hb].
  - intros path alias. unfold import_as. apply finds_bind; [apply finds_perform|].
    intros _. apply finds_bind_name.
  - intros path xs. unfold from_import. apply finds_bind; [apply finds_perform|].
    intros _. induction xs as [|x xs IH]; [apply finds_ret|].
    apply finds_bind; [apply finds_bind_name|]. intros _. exact IH.
  - intros cmd. by apply finds_emit.
  - apply finds_block.
Qed.

Lemma statement_strict (s : Py unit) : statement s -> strict s.
Proof.
  apply statement_all.
  - intros x e He. by apply strict_assign, expression_strict.
  - intros x idx e Hi He. apply strict_assign_item; [by apply expression_strict|].
    eapply Forall_impl; [exact Hi|]. apply expression_strict.
  - intros e He. by apply strict_expr, expression_strict.
  - intros xs e body He Hb. apply strict_for_in; [by apply expression_strict|exact Hb].
  - apply strict_import_as.
  - apply strict_from_import.
  - apply strict_shell.
  - apply strict_block.
Qed.

End FindsCells.

(** The cells are written with these forms. *)
Ltac forms_solve :=
  lazymatch goal with
  | |- statement (block (?l ++ _)) =>
      first [progress cbn [app] | let h := head_of l in unfold h]; forms_solve
  | |- statement (block _) => apply statement_block; forms_solve
  | |- statement (assign _ _) => apply statement_assign; forms_solve
  | |- statement (assign_item _ _ _) => apply statement_assign_item; forms_solve
  | |- statement (expr _) => apply statement_expr; forms_solve
  | |- statement (for_in _ _ _) => apply statement_for; forms_solve
  | |- statement (import_as _ _) => apply statement_import_as
  | |- statement (import _) => apply statement_import_as
  | |- statement (from_import _ _) => apply statement_from_import
  | |- statement (shell _) => apply statement_shell
  | |- expression (name _) => apply expression_name
  | |- expression (attr _ _) => apply expression_attr; forms_solve
  | |- expression (call_inplace _ _ _ _) => apply expression_method; forms_solve
  | |- expression (call _ _ _) => apply expression_call; forms_solve
  | |- expression (pow _ _) => apply expression_pow; forms_solve
  | |- expression (list_ _) => apply expression_list; forms_solve
  | |- expression (tuple_ _) => apply expression_tuple; forms_solve
  | |- expression (mret _) => apply expression_literal
  | |- expression (int_ _) => apply expression_literal
  | |- expression (float_ _) => apply expression_literal
  | |- expression (str_ _) => apply expression_literal
  | |- expression True_ => apply expression_literal
  | |- expression False_ => apply expression_literal
  | |- Forall _ [] => apply Forall_nil_2
  | |- Forall _ (_ :: _) => apply Forall_cons_2; [cbn [snd]; forms_solve|forms_solve]
  | |- Forall _ (map _ _) => cbn [map]; forms_solve
  | |- statement ?m => let h := head_of m in unfold h; forms_solve
  | |- expression ?m => let h := head_of m in unfold h; forms_solve
  | |- Forall _ ?l => let h := head_of l in unfold h; forms_solve
  end.

Lemma notebook_statements `{W : World} : Forall statement Notebook.cells.
Proof. forms_solve. Qed.

Lemma error_bars_statements `{W : World} : Forall statement ErrorBars.cells.
Proof. forms_solve. Qed.

(** ** The routines the documents call *)





(** * The claims *)

(** C1, as stated, fails: in the notebook In [4] loads [lw_mse], which
    In [3] bound, so an object created in one cell is read by a later
    cell. *)
Lemma notebook_cells_not_isolated :
  ~ isolated (final (notebook (W:=world 0) (fresh (Gen (GStart 0) [])))).
Proof.
  destruct (notebook_facts (Gen (GStart 0) []) 0)
    as (k & Hrun & _ & _ & _ & _ & _ & Hreads & _).
  rewrite Hrun. cbn [final]. intros [H _]. rewrite Hreads in H. discriminate H.
Qed.

(** C1, amended: in the notebook the later cells load objects bound by
    earlier cells (the imports of In [2] in In [3]; [n_samples_range] and
    the result arrays of In [3] in In [4] and In [6]; [fig] in In [5] and
    In [7]), but no cell changes in place an object another cell bound:
    every in-place change happens in In [3] on an object In [3] bound.
    In the error bars page no cell loads or changes an object another
    cell bound. *)
Theorem cells_read_but_do_not_write_across (g : gen) (st : Z) :
  let nb := final (notebook (W:=world st) (fresh g)) in
  let eb := final (error_bars (W:=world st) (fresh g)) in
  cross_reads nb = Expected.cross_reads
  /\ cross_writes nb = []
  /\ all_writes nb = Expected.all_writes
  /\ Forall (fun u => user u = 3%nat /\ binder u = 3%nat) (all_writes nb)
  /\ isolated eb.
Proof.
  intros nb eb. subst nb eb.
  destruct (notebook_facts g st) as (k & Hrun & _ & _ & _ & _ & _ & Hreads & Hwrites).
  rewrite Hrun, (error_bars_run g st). cbn [final].
  split; [exact Hreads|]. split; [|split; [exact Hwrites|split]].
  - assert (cross_writes k
            = reverse (filter (fun u => crosses u) (reverse (all_writes k)))) as ->.
    { unfold cross_writes, all_writes. by rewrite reverse_involutive. }
    rewrite Hwrites. reflexivity.
  - rewrite Hwrites. unfold Expected.all_writes. cbn [map].
    repeat (apply Forall_cons_2; [split; reflexivity|]). apply Forall_nil_2.
  - apply bars_isolated.
Qed.

(** C2, as stated, fails: the steps of the notebook are not the recipe
    dataset, statistics, chart, send, and some of them are of none of
    the four kinds. *)
Lemma notebook_off_recipe :
  recipe (steps (final (notebook (W:=world 0) (fresh (Gen (GStart 0) []))))) = false
  /\ existsb (kind_eqb Other)
       (steps (final (notebook (W:=world 0) (fresh (Gen (GStart 0) []))))) = true.
Proof.
  destruct (notebook_facts (Gen (GStart 0) []) 0)
    as (k & Hrun & _ & _ & _ & _ & Hsteps & _).
  rewrite Hrun. cbn [final]. rewrite Hsteps. split; vm_compute; reflexivity.
Qed.

(** C2, amended: both documents do steps of the four kinds and send each
    chart right after building it, but not in one pass.  The error bars
    page builds and sends six charts whose data are literals inside the
    chart, then generates data with numpy and builds and sends a seventh.
    The notebook prints [__doc__], alternates draws and estimator calls
    2500 times, twice summarises the arrays with numpy while it builds a
    chart and sends it, and ends with the publishing cell, which does
    none of the four. *)
Theorem documents_steps (g : gen) (st : Z) :
  let nb := final (notebook (W:=world st) (fresh g)) in
  let eb := final (error_bars (W:=world st) (fresh g)) in
  steps nb = Expected.all_steps
  /\ steps eb = ExpectedBars.all_steps
  /\ sends_follow_charts (steps nb) = true
  /\ sends_follow_charts (steps eb) = true.
Proof.
  intros nb eb. subst nb eb.
  destruct (notebook_facts g st) as (k & Hrun & _ & _ & _ & _ & Hsteps & _).
  rewrite Hrun, (error_bars_run g st). cbn [final].
  assert (steps (bars_kernel g) = ExpectedBars.all_steps) as Hb.
  { unfold steps, actions. rewrite bars_kernel_log. apply bars_steps. }
  rewrite Hsteps, Hb. repeat split; vm_compute; reflexivity.
Qed.

(** C3: every call of py.iplot submits the chart written in the source.
    The error bars page makes the seven calls of [ExpectedBars.all_sends],
    the first of them the basic symmetric example; the notebook submits
    its two figures. *)
Theorem charts_sent_as_written (g : gen) (st : Z) :
  exists eb nb,
    error_bars (W:=world st) (fresh g) = Ok tt eb
    /\ notebook (W:=world st) (fresh g) = Ok tt nb
    /\ sends (actions eb) = ExpectedBars.all_sends
    /\ head (sends (actions eb))
       = Some (ACall (VAttr (VModule "plotly.plotly") "iplot")
                 [VList [VCall (VAttr (VModule "plotly.graph_objs") "Scatter") []
                    [ ("x", VList [VInt 0; VInt 1; VInt 2]);
                      ("y", VList [VInt 6; VInt 10; VInt 2]);
                      ("error_y", VDict [ ("type", VStr "data");
                                          ("array", VList [VInt 1; VInt 2; VInt 3]);
                                          ("visible", VBool true) ]) ]]]
                 [("filename", VStr "basic-error-bar")])
    /\ sends (actions nb) = Expected.all_sends.
Proof.
  destruct (notebook_facts g st) as (k & Hrun & _ & _ & Hsends & _).
  exists (bars_kernel g), k.
  assert (sends (actions (bars_kernel g)) = ExpectedBars.all_sends) as Hb.
  { unfold actions. rewrite bars_kernel_log. apply bars_sends. }
  split; [apply error_bars_run|]. split; [exact Hrun|]. split; [exact Hb|].
  split; [|exact Hsends]. rewrite Hb. reflexivity.
Qed.

(** C4: neither document consumes what the other leaves.  Run in the
    kernel the notebook leaves, the error bars page does the actions it
    does alone; run in the kernel the error bars page leaves, the notebook
    does the actions it does alone and computes the same arrays. *)
Theorem documents_independent (g : gen) (st : Z) :
  let nb := final (notebook (W:=world st) (fresh g)) in
  let eb := final (error_bars (W:=world st) (fresh g)) in
  (exists eb', error_bars (W:=world st) nb = Ok tt eb'
               /\ new_actions nb eb' = actions eb)
  /\ (exists nb', notebook (W:=world st) eb = Ok tt nb'
                  /\ new_actions eb nb' = actions nb
                  /\ results nb' = results nb).
Proof.
  intros nb eb. subst nb eb.
  destruct (notebook_run g st) as (l & Hrun & Hacts & _).
  pose proof (notebook_actions g st l Hacts) as Ha.
  rewrite Hrun, (error_bars_run g st). cbn [final]. split.
  - destruct (error_bars_after_notebook st Expected.lw_mse Expected.oa_mse
                Expected.lw_shrinkage Expected.oa_shrinkage Expected.gen_after
                (log (end_kernel st l))) as [Hbars Hlog].
    eexists. split; [exact Hbars|].
    rewrite (new_actions_added _ _ bars_log Hlog).
    unfold actions. by rewrite bars_kernel_log.
  - destruct (imports_after_error_bars g st) as (Himp & Hchk & Hlog).
    destruct (notebook_from st (bars_kernel g) _ Himp (imports_checked_sound _ Hchk) Hlog)
      as (k' & Hnb & Hnew & Hres).
    exists k'. split; [exact Hnb|]. split.
    + by rewrite Hnew, Ha.
    + rewrite Hres. symmetry. apply after_publish_results.
Qed.

(** C5: the front matter of the error bars page gives the site generator
    permalink, title and thumbnail, each once. *)
Theorem front_matter_fields :
  field "permalink" = Some "python/error-bars/"
  /\ field "title" = Some "Error Bars | plotly"
  /\ field "thumbnail" = Some "thumbnail/error-bar.jpg"
  /\ map occurrences ["permalink"; "title"; "thumbnail"] = [1; 1; 1]%nat
  /\ length metadata = length front_matter.
Proof. repeat split; vm_compute; reflexivity. Qed.

(** C6: one stored output shows a failed installation, pip's of
    [publisher] under the publishing cell of the notebook, and no other
    output shows a failure.  No cell handles a failure: whatever the
    world refuses, every cell of both documents stops at the refused
    import or call with its exception, and the publishing cell goes on to
    import and call [publisher] whatever pip exits with.  Every cell of
    both documents is a sequence of statements of the forms of
    [statement]: assignments, expression statements, [for] loops,
    imports and the shell line, over names, literals, attributes, calls,
    powers, lists and tuples; there is no [try], no [if], no [while]
    among them.  Whatever is written with these forms stops where the
    world refuses an action, and ends normally only if every name it
    loaded was found: it swallows neither a failure of a library nor a
    NameError. *)
Theorem failures_shown_not_handled :
  filter (fun o => failed_install "publisher" o) all_outputs = [Stream "stdout" pip_transcript]
  /\ filter (fun o => shows_failure o) all_outputs = [Stream "stdout" pip_transcript]
  /\ (outputs <$> notebook_stored !! 7%nat)
     = Some [ Shown html_object (Some Notebook.fonts_link);
              Shown html_object (Some Notebook.css_link);
              Stream "stdout" pip_transcript ]
  /\ (forall W : World,
        Forall (strict (W:=W)) (Notebook.cells (W:=W))
        /\ Forall (strict (W:=W)) (ErrorBars.cells (W:=W)))
  /\ (forall (g : gen) (st : Z),
        exists k, run_cell 8 (Notebook.publish (W:=world st)) (fresh g) = Ok tt k
                  /\ actions k = Expected.publish_actions st)
  /\ (forall W : World,
        Forall (statement (W:=W)) (Notebook.cells (W:=W))
        /\ Forall (statement (W:=W)) (ErrorBars.cells (W:=W)))
  /\ (forall (W : World) (s : Py unit),
        statement (W:=W) s -> strict (W:=W) s /\ finds s).
Proof.
  split; [vm_compute; reflexivity|]. split; [vm_compute; reflexivity|].
  split; [reflexivity|]. split; [|split; [|split]].
  - intros W. split; [apply notebook_strict|apply error_bars_strict].
  - apply publish_run.
  - intros W. split; [apply notebook_statements|apply error_bars_statements].
  - intros W s Hs. split; [by apply statement_strict|by apply statement_finds].
Qed.



(** C8: the simulation fits both estimators on the same sample.  The
    sample sizes are 6..30; the fit calls of the run are, for each of the
    25 sizes and each of the 100 repetitions in order, LedoitWolf's on
    [X i j] and then OAS's on the same [X i j]; [X i j] is one draw of
    shape [(6 + i, 100)] times the coloring matrix, with fewer samples
    than features.  When the notebook ends each of the four arrays is
    25 x 100 and holds at [(i, j)], in place of the zero it was created
    with, what was read off the estimator returned by the fit on
    [X i j]: the Ledoit-Wolf and the OAS entry of a position come from
    fits on one and the same sample. *)
Theorem simulation_pairs_and_fills (g : gen) (st : Z) (i j : nat) :
  (i < 25)%nat -> (j < 100)%nat ->
  exists k lw_mse oa_mse lw_shrinkage oa_shrinkage,
    notebook (W:=world st) (fresh g) = Ok tt k
    /\ arange_items Expected.n_samples_range
       = Some (map (fun i => VInt (6 + Z.of_nat i)) (seq 0 25))
    /\ fits (actions k)
       = flat_map (fun i =>
           flat_map (fun j =>
             [ ACall (VAttr (Expected.estimator Expected.LedoitWolf) "fit") [Expected.X i j] [];
               ACall (VAttr (Expected.estimator Expected.OAS) "fit") [Expected.X i j] [] ])
             (seq 0 100)) (seq 0 25)
    /\ Expected.X i j
       = VCall (VAttr (VModule "numpy") "dot")
           [ VSample (Expected.gen_at i j) [6 + Z.of_nat i; 100];
             VAttr Expected.coloring_matrix "T" ] []
    /\ 6 + Z.of_nat i < Expected.n_features
    /\ results k = [Some lw_mse; Some oa_mse; Some lw_shrinkage; Some oa_shrinkage]
    /\ entry lw_mse i j
       = Some (VCall
                 (VAttr (VCall (VAttr (Expected.estimator Expected.LedoitWolf) "fit")
                           [Expected.X i j] []) "error_norm")
                 [Expected.real_cov] [("scaling", VBool false)])
    /\ entry oa_mse i j
       = Some (VCall
                 (VAttr (VCall (VAttr (Expected.estimator Expected.OAS) "fit")
                           [Expected.X i j] []) "error_norm")
                 [Expected.real_cov] [("scaling", VBool false)])
    /\ entry lw_shrinkage i j
       = Some (VAttr (VCall (VAttr (Expected.estimator Expected.LedoitWolf) "fit")
                        [Expected.X i j] []) "shrinkage_")
    /\ entry oa_shrinkage i j
       = Some (VAttr (VCall (VAttr (Expected.estimator Expected.OAS) "fit")
                        [Expected.X i j] []) "shrinkage_")
    /\ Forall (fun r => exists a v,
                 r = Some a
                 /\ dims a = (25%nat, replicate 25 100%nat)
                 /\ entry a i j = Some v
                 /\ entry (zeros [25; 100]) i j = Some (VFloat "0.0")
                 /\ origin v = Some "sklearn.covariance")
         (results k).
Proof.
  intros Hi Hj.
  destruct (notebook_facts g st) as (k & Hrun & Hres & _ & _ & Hfits & _).
  exists k, Expected.lw_mse, Expected.oa_mse, Expected.lw_shrinkage, Expected.oa_shrinkage.
  split; [exact Hrun|]. split; [vm_compute; reflexivity|].
  split; [exact Hfits|]. split; [reflexivity|].
  split; [unfold Expected.n_features; lia|].
  split; [exact Hres|].
  assert (entry (zeros [25; 100]) i j = Some (VFloat "0.0")) as Hz.
  { unfold entry, zeros. cbn [fold_right]. change (Z.to_nat 25) with 25%nat.
    change (Z.to_nat 100) with 100%nat.
    rewrite lookup_replicate_2 by exact Hi. by rewrite lookup_replicate_2 by exact Hj. }
  rewrite Hres. unfold Expected.results, Expected.lw_mse, Expected.oa_mse,
    Expected.lw_shrinkage, Expected.oa_shrinkage.
  rewrite !entry_table by (unfold Expected.repeat; lia).
  do 4 (split; [reflexivity|]).
  repeat (apply Forall_cons_2;
          [eexists _, _; split; [reflexivity|]; split; [apply dims_table|];
           split; [apply entry_table; unfold Expected.repeat; lia|];
           split; [exact Hz|reflexivity]|]).
  apply Forall_nil_2.
Qed.

Lemma simulation_pairs_and_fills_witness :
  exists k lw_mse oa_mse lw_shrinkage oa_shrinkage,
    notebook (W:=world 0) (fresh (Gen (GStart 0) [])) = Ok tt k
    /\ arange_items Expected.n_samples_range
       = Some (map (fun i => VInt (6 + Z.of_nat i)) (seq 0 25))
    /\ fits (actions k)
       = flat_map (fun i =>
           flat_map (fun j =>
             [ ACall (VAttr (Expected.estimator Expected.LedoitWolf) "fit") [Expected.X i j] [];
               ACall (VAttr (Expected.estimator Expected.OAS) "fit") [Expected.X i j] [] ])
             (seq 0 100)) (seq 0 25)
    /\ Expected.X 3 7
       = VCall (VAttr (VModule "numpy") "dot")
           [ VSample (Expected.gen_at 3 7) [6 + Z.of_nat 3; 100];
             VAttr Expected.coloring_matrix "T" ] []
    /\ 6 + Z.of_nat 3 < Expected.n_features
    /\ results k = [Some lw_mse; Some oa_mse; Some lw_shrinkage; Some oa_shrinkage]
    /\ entry lw_mse 3 7
       = Some (VCall
                 (VAttr (VCall (VAttr (Expected.estimator Expected.LedoitWolf) "fit")
                           [Expected.X 3 7] []) "error_norm")
                 [Expected.real_cov] [("scaling", VBool false)])
    /\ entry oa_mse 3 7
       = Some (VCall
                 (VAttr (VCall (VAttr (Expected.estimator Expected.OAS) "fit")
                           [Expected.X 3 7] []) "error_norm")
                 [Expected.real_cov] [("scaling", VBool false)])
    /\ entry lw_shrinkage 3 7
       = Some (VAttr (VCall (VAttr (Expected.estimator Expected.LedoitWolf) "fit")
                        [Expected.X 3 7] []) "shrinkage_")
    /\ entry oa_shrinkage 3 7
       = Some (VAttr (VCall (VAttr (Expected.estimator Expected.OAS) "fit")
                        [Expected.X 3 7] []) "shrinkage_")
    /\ Forall (fun r => exists a v,
                 r = Some a
                 /\ dims a = (25%nat, replicate 25 100%nat)
                 /\ entry a 3 7 = Some v
                 /\ entry (zeros [25; 100]) 3 7 = Some (VFloat "0.0")
                 /\ origin v = Some "sklearn.covariance")
         (results k).
Proof.
  exact (simulation_pairs_and_fills (Gen (GStart 0) []) 0 3 7 ltac:(lia) ltac:(lia)).
Defined.

(** C9: the second figure the notebook submits, the shrinkage figure,
    has two traces over the row means of [lw_shrinkage] and
    [oa_shrinkage]; [error_y.arrayminus] of the Ledoit-Wolf trace is
    [lw_mse.std(1)], that of the OAS trace is [oa_shrinkage.std(1)], and
    the former is not [lw_shrinkage.std(1)]. *)
Theorem shrinkage_error_bars_asymmetric (g : gen) (st : Z) :
  exists k lw_mse oa_mse lw_shrinkage oa_shrinkage fig lw_trace oa_trace,
    notebook (W:=world st) (fresh g) = Ok tt k
    /\ results k = [Some lw_mse; Some oa_mse; Some lw_shrinkage; Some oa_shrinkage]
    /\ (submitted <$> sends (actions k)) !! 1%nat = Some (Some fig)
    /\ length (sends (actions k)) = 2%nat
    /\ traces_of fig = [lw_trace; oa_trace]
    /\ trace_field lw_trace "name" = Some (VStr "Ledoit-Wolf")
    /\ trace_field oa_trace "name" = Some (VStr "OAS")
    /\ trace_field lw_trace "y" = Some (Expected.mean1 lw_shrinkage)
    /\ trace_field oa_trace "y" = Some (Expected.mean1 oa_shrinkage)
    /\ error_minus lw_trace = Some (Expected.std1 lw_mse)
    /\ error_minus oa_trace = Some (Expected.std1 oa_shrinkage)
    /\ error_minus lw_trace <> Some (Expected.std1 lw_shrinkage).
Proof.
  destruct (notebook_facts g st) as (k & Hrun & Hres & _ & Hsends & _).
  exists k, Expected.lw_mse, Expected.oa_mse, Expected.lw_shrinkage, Expected.oa_shrinkage,
    (Expected.shrinkage_figure Expected.lw_mse Expected.lw_shrinkage Expected.oa_shrinkage),
    (Expected.shrinkage_lw_trace Expected.lw_mse Expected.lw_shrinkage),
    (Expected.shrinkage_oa_trace Expected.oa_shrinkage).
  split; [exact Hrun|]. split; [exact Hres|]. rewrite Hsends.
  do 9 (split; [reflexivity|]).
  change (Some (Expected.std1 Expected.lw_mse) <> Some (Expected.std1 Expected.lw_shrinkage)).
  intros H.
  apply (tables_differ (Expected.mse Expected.LedoitWolf) (Expected.shrinkage Expected.LedoitWolf)).
  - unfold Expected.mse, Expected.shrinkage. discriminate.
  - exact (std1_inj Expected.lw_mse Expected.lw_shrinkage (some_eq _ _ H)).
Qed.



(** * Further properties *)


(** ** The error bars page: cells that read nothing but [dict] *)









(** ** The notebook: cells that need the cells before them *)

(** X2: In [3] needs the imports of In [2].  In any kernel where [np] is
    not bound, whatever the world, it stops at its first statement,
    [np.random.seed(0)], with NameError: nothing is seeded, bound or
    called. *)
Theorem calculations_need_imports `{W : World} (k : kernel) :
  ns k !! "np" = None ->
  run_cell 3 Notebook.calculations k
  = Raise (NameError "np")
      {| ns := ns k; rng := rng k; log := ELoad "np" :: EEnter 3 :: log k |}.
Proof.
  intros Hnp. rewrite calc_split.
  destruct k as [m r l]. cbn [ns rng log] in *.
  unfold run_cell, Notebook.seeding, expr, call, attr, name, int_.
  unfold mbind, Py_bind, mret, Py_ret, emit, get_ns, lookup_name. cbn [ns rng log].
  rewrite Hnp. reflexivity.
Qed.

Lemma calculations_need_imports_witness :
  run_cell 3 (Notebook.calculations (W:=world 0)) (fresh (Gen (GStart 0) []))
  = Raise (NameError "np")
      {| ns := ns (fresh (Gen (GStart 0) [])); rng := rng (fresh (Gen (GStart 0) []));
         log := ELoad "np" :: EEnter 3 :: log (fresh (Gen (GStart 0) [])) |}.
Proof.
  apply (calculations_need_imports (W:=world 0) (fresh (Gen (GStart 0) []))).
  reflexivity.
Defined.

Lemma run_cell_enters (n : nat) (body : Py unit) (k : kernel) :
  run_cell n body k = body {| ns := ns k; rng := rng k; log := EEnter n :: log k |}.
Proof. reflexivity. Qed.

Lemma assign_raises (x : string) (e : Py val) (k k' : kernel) (ex : exn) :
  e k = Raise ex k' -> assign x e k = Raise ex k'.
Proof. intros H. unfold assign, mbind, Py_bind. by rewrite H. Qed.

Lemma block_raises (s : Py unit) (rest : list (Py unit)) (k k' : kernel) (ex : exn) :
  s k = Raise ex k' -> block (s :: rest) k = Raise ex k'.
Proof. intros H. cbn [block]. unfold mbind, Py_bind. by rewrite H. Qed.

Lemma line_trace_unbound `{W : World} (ys errs : Py val) (label colour : string)
    (m : gmap string val) (r : gen) (l : list event) :
  m !! "go" = Some (VModule "plotly.graph_objs") -> m !! "n_samples_range" = None ->
  Notebook.line_trace ys errs label colour {| ns := m; rng := r; log := l |}
  = Raise (NameError "n_samples_range")
      {| ns := m; rng := r; log := ELoad "n_samples_range" :: ELoad "go" :: l |}.
Proof.
  intros Hgo Hn.
  unfold Notebook.line_trace, call, attr, name, sequence_kw.
  unfold mbind, Py_bind, mret, Py_ret, emit, get_ns, lookup_name. cbn [ns rng log].
  rewrite Hgo. cbn. unfold mbind, Py_bind, mret, Py_ret, emit, get_ns, lookup_name.
  cbn [ns rng log]. rewrite Hn. reflexivity.
Qed.

(** X3: the plotting cells need In [3].  In any kernel where [go] and
    [py] are the plotly modules, as In [2] binds them, but
    [n_samples_range] and [fig] are not bound, as after In [2], In [4]
    and In [6] stop with NameError at [n_samples_range], before
    [go.Scatter] is called, and In [5] and In [7] stop with NameError at
    [fig], before [py.iplot] is called: nothing is bound, no library is
    called, whatever the world. *)
Theorem plots_need_calculations `{W : World} (k : kernel) :
  ns k !! "go" = Some (VModule "plotly.graph_objs") ->
  ns k !! "py" = Some (VModule "plotly.plotly") ->
  ns k !! "n_samples_range" = None -> ns k !! "fig" = None ->
  let stopped n module x :=
    Raise (A:=unit) (NameError x)
      {| ns := ns k; rng := rng k; log := ELoad x :: ELoad module :: EEnter n :: log k |} in
  run_cell 4 Notebook.plot_mse k = stopped 4%nat "go" "n_samples_range"
  /\ run_cell 5 Notebook.show_figure k = stopped 5%nat "py" "fig"
  /\ run_cell 6 Notebook.plot_shrinkage k = stopped 6%nat "go" "n_samples_range"
  /\ run_cell 7 Notebook.show_figure k = stopped 7%nat "py" "fig".
Proof.
  intros Hgo Hpy Hn Hfig stopped. subst stopped.
  destruct k as [m r l]. cbn [ns rng log] in *.
  assert (forall n, run_cell n Notebook.show_figure {| ns := m; rng := r; log := l |}
          = Raise (NameError "fig")
              {| ns := m; rng := r; log := ELoad "fig" :: ELoad "py" :: EEnter n :: l |}) as Hshow.
  { intros n. unfold run_cell, Notebook.show_figure, expr, call, attr, name.
    unfold mbind, Py_bind, mret, Py_ret, emit, get_ns, lookup_name. cbn [ns rng log].
    rewrite Hpy. cbn. unfold mbind, Py_bind, mret, Py_ret, emit, get_ns, lookup_name.
    cbn [ns rng log]. rewrite Hfig. reflexivity. }
  split; [|split; [apply Hshow|split; [|apply Hshow]]].
  - rewrite run_cell_enters. unfold Notebook.plot_mse. cbn [app ns rng log].
    apply block_raises, assign_raises, (line_trace_unbound _ _ _ _ _ _ _ Hgo Hn).
  - rewrite run_cell_enters. unfold Notebook.plot_shrinkage. cbn [app ns rng log].
    apply block_raises, assign_raises, (line_trace_unbound _ _ _ _ _ _ _ Hgo Hn).
Qed.

Lemma plots_need_calculations_witness :
  let k := imports_kernel (Gen (GStart 0) []) in
  let stopped n module x :=
    Raise (A:=unit) (NameError x)
      {| ns := ns k; rng := rng k; log := ELoad x :: ELoad module :: EEnter n :: log k |} in
  run_cell 4 (Notebook.plot_mse (W:=world 0)) k = stopped 4%nat "go" "n_samples_range"
  /\ run_cell 5 (Notebook.show_figure (W:=world 0)) k = stopped 5%nat "py" "fig"
  /\ run_cell 6 (Notebook.plot_shrinkage (W:=world 0)) k = stopped 6%nat "go" "n_samples_range"
  /\ run_cell 7 (Notebook.show_figure (W:=world 0)) k = stopped 7%nat "py" "fig".
Proof.
  apply (plots_need_calculations (W:=world 0) (imports_kernel (Gen (GStart 0) [])));
    reflexivity.
Defined.

(** ** What In [3] leaves of the generator *)

(** X4: In [3] leaves numpy's generator in one state, whatever state it
    found it in: seeded with 0 and advanced by 100 draws of each shape
    (6, 100), ..., (30, 100), that is 2500 arrays and 4.5 million
    variates.  This holds from any kernel with the imports of In [2] in
    scope. *)
Theorem calculations_leave_generator (st : Z) (k : kernel) :
  imports_in_scope k ->
  exists k',
    run_cell 3 (Notebook.calculations (W:=world st)) k = Ok tt k'
    /\ rng k' = Gen (GSeed 0) (map (fun i => ([6 + Z.of_nat i; 100], 100)) (reverse (seq 0 25)))
    /\ arrays_drawn (rng k') = 2500
    /\ variates_drawn (rng k') = 4500000.
Proof.
  intros Hk. set (g := Gen (GStart 0) []).
  destruct (canonical_calc st g) as (l & Hcan & _).
  destruct (calc_sim (W:=world st)) as (names' & Hsim & _).
  destruct (sim_ok _ _ _ _ _ _ _ Hsim (in_scope_agree k g Hk) Hcan)
    as (k' & Hrun & [Hrng _] & _).
  exists k'. split; [exact (calc_ok _ _ _ (seeding_run st k (in_scope_np k Hk)) Hrun)|].
  cbn [calc_kernel rng] in Hrng. rewrite Hrng.
  split; [reflexivity|]. split; reflexivity.
Qed.

Lemma calculations_leave_generator_witness :
  exists k',
    run_cell 3 (Notebook.calculations (W:=world 0)) (imports_kernel (Gen (GSeed 3) [([2; 2], 5)]))
    = Ok tt k'
    /\ rng k' = Gen (GSeed 0) (map (fun i => ([6 + Z.of_nat i; 100], 100)) (reverse (seq 0 25)))
    /\ arrays_drawn (rng k') = 2500
    /\ variates_drawn (rng k') = 4500000.
Proof.
  apply (calculations_leave_generator 0 (imports_kernel (Gen (GSeed 3) [([2; 2], 5)]))).
  apply imports_checked_sound. vm_compute. reflexivity.
Defined.

(** ** The publishing cell on its own *)





(** ** Sends and stored plots *)

Lemma file_action_acc (n : nat) (l : list event) (p f : list action) :
  (fold_left (file_action n) l (p, f)).2
  = (fold_left (file_action n) l (p, [])).2 ++ f
  /\ (fold_left (file_action n) l (p, f)).1 = (fold_left (file_action n) l (p, [])).1.
Proof.
  revert p f. induction l as [|e l IH]; intros p f; [done|].
  cbn [fold_left]. destruct e as [m| | | |a]; cbn [file_action fst snd]; try apply IH.
  destruct (Nat.eqb m n).
  - destruct (IH [] (p ++ f)) as [E1 E2]. destruct (IH [] (p ++ [])) as [E3 E4].
    rewrite E1, E2, E3, E4. rewrite app_nil_r. by rewrite <- app_assoc.
  - apply IH.
Qed.

Lemma file_action_in (n : nat) (l : list event) (s : list action * list action)
    (a : action) :
  In a (fold_left (file_action n) l s).2 -> In a s.1 \/ In a s.2 \/ In (EAct a) l.
Proof.
  revert s. induction l as [|e l IH]; intros s H; [cbn in H; tauto|].
  cbn [fold_left] in H. apply IH in H.
  destruct e as [m| | | |b]; cbn [file_action fst snd] in H;
    try (destruct H as [H|[H|H]]; [tauto|tauto|right; right; by right]).
  - destruct H as [H|[H|H]]; [done| |right; right; by right].
    destruct (Nat.eqb m n); [|tauto]. apply in_app_or in H. tauto.
  - destruct H as [H|[H|H]]; [|tauto|right; right; by right].
    destruct H as [->|H]; [right; right; by left|tauto].
Qed.

Lemma in_actions_of (l : list event) (a : action) : In (EAct a) l -> In a (actions_of l).
Proof.
  induction l as [|e l IH]; [done|]. intros [->|H].
  - change (EAct a :: l) with ([EAct a] ++ l). rewrite actions_of_app.
    apply in_or_app. right. by left.
  - change (e :: l) with ([e] ++ l). rewrite actions_of_app.
    apply in_or_app. left. by apply IH.
Qed.

(** A log with no send in it has none in any of its cells. *)
Lemma no_sends_in_cells (n : nat) (l : list event) :
  sends (actions_of l) = [] -> sends (cell_actions n l) = [].
Proof.
  intros H. unfold sends in *.
  destruct (filter _ (cell_actions n l)) as [|a rest] eqn:E; [done|].
  assert (a ∈ filter (fun a => is_send a) (cell_actions n l)) as Ha
    by (rewrite E; apply list_elem_of_here).
  apply list_elem_of_filter in Ha as [Hs Hin].
  apply list_elem_of_In, file_action_in in Hin as [Hin|[Hin|Hin]]; [done|done|].
  apply in_actions_of, list_elem_of_In in Hin.
  assert (a ∈ filter (fun a => is_send a) (actions_of l)) as Hf
    by (apply list_elem_of_filter; done).
  rewrite H in Hf. by apply elem_of_nil in Hf.
Qed.

(** The sends of a cell in a log that continues one without sends. *)
Lemma sends_after_calc (n : nat) (later l : list event) :
  (fold_left (file_action n) later ([], [])).1 = [] ->
  sends (actions_of l) = [] ->
  sends (cell_actions n (later ++ l)) = sends (cell_actions n later).
Proof.
  intros Hp Hl. unfold cell_actions. rewrite fold_left_app.
  destruct (fold_left (file_action n) later ([], [])) as [p f] eqn:E.
  cbn [fst snd] in *. subst p.
  destruct (file_action_acc n l [] f) as [-> _].
  rewrite sends_app. fold (cell_actions n l). by rewrite (no_sends_in_cells n l Hl).
Qed.

Lemma later_pending (st : Z) (a b c d : list val) (n : nat) :
  (fold_left (file_action n) (later_log st a b c d) ([], [])).1 = [].
Proof. vm_compute. reflexivity. Qed.

Lemma later_sends_by_cell (st : Z) (a b c d : list val) :
  map (fun i => length (sends (cell_actions i (later_log st a b c d)))) (seq 1 9)
  = [0; 0; 0; 0; 1; 0; 1; 0; 0]%nat.
Proof. vm_compute. reflexivity. Qed.

Lemma bars_sends_by_cell :
  map (fun i => length (sends (cell_actions i bars_log))) (seq 1 7)
  = [1; 1; 1; 1; 1; 1; 1]%nat.
Proof. vm_compute. reflexivity. Qed.

(** X7: the plots a document stores are those its code sends.  Cell by
    cell, the number of charts a run of the document submits with
    py.iplot is the number of plots stored under the cell: one under
    In [5] and In [7] of the notebook and none under its other cells,
    one under each of the seven cells of the error bars page. *)
Theorem stored_plots_match_sends (g : gen) (st : Z) :
  exists nb eb,
    notebook (W:=world st) (fresh g) = Ok tt nb
    /\ error_bars (W:=world st) (fresh g) = Ok tt eb
    /\ sends_by_cell 9 nb = plots_by_cell notebook_stored
    /\ sends_by_cell 7 eb = plots_by_cell error_bars_stored
    /\ plots_by_cell notebook_stored = [0; 0; 0; 0; 1; 0; 1; 0; 0]%nat
    /\ plots_by_cell error_bars_stored = [1; 1; 1; 1; 1; 1; 1]%nat.
Proof.
  destruct (notebook_run g st) as (l & Hrun & Hacts & _).
  exists (end_kernel st l), (bars_kernel g).
  split; [exact Hrun|]. split; [apply error_bars_run|].
  assert (plots_by_cell notebook_stored = [0; 0; 0; 0; 1; 0; 1; 0; 0]%nat) as Hn
    by (vm_compute; reflexivity).
  assert (plots_by_cell error_bars_stored = [1; 1; 1; 1; 1; 1; 1]%nat) as Hb
    by (vm_compute; reflexivity).
  rewrite Hn, Hb. split; [|split; [|split; reflexivity]].
  - unfold sends_by_cell, end_kernel. cbn [log].
    generalize (Expected.table_rows (Expected.mse Expected.LedoitWolf))
               (Expected.table_rows (Expected.mse Expected.OAS))
               (Expected.table_rows (Expected.shrinkage Expected.LedoitWolf))
               (Expected.table_rows (Expected.shrinkage Expected.OAS)).
    intros a b c d. rewrite <- (later_sends_by_cell st a b c d).
    apply map_ext. intros i. f_equal.
    apply sends_after_calc; [apply later_pending|].
    rewrite Hacts. apply calc_sends.
  - unfold sends_by_cell. rewrite bars_kernel_log. apply bars_sends_by_cell.
Qed.

(** ** The front matter as a mapping *)

(** X8: every line of the front matter of the error bars page is a
    [key: value] pair, but the lines do not form a mapping: [name] and
    [has_thumbnail] are given twice.  The two values of [has_thumbnail]
    agree; those of [name] differ, the first being the title, and the
    later one, "Error Bars", is the one that counts.  The other ten keys
    occur once.  The keywords the notebook passes to [publisher.publish]
    are all among these keys. *)
Theorem front_matter_keys :
  length metadata = length front_matter
  /\ remove_dups keys
     = ["permalink"; "description"; "thumbnail"; "layout"; "name"; "language"; "title";
        "display_as"; "has_thumbnail"; "page_type"; "order"; "ipynb"]
  /\ filter (fun x => occurrences x <> 1%nat) (remove_dups keys) = ["name"; "has_thumbnail"]
  /\ values_of "has_thumbnail" = ["true"; "true"]
  /\ values_of "name" = ["Error Bars | plotly"; "Error Bars"]
  /\ field "name" = Some "Error Bars"
  /\ field "title" = head (values_of "name")
  /\ publish_keywords
     = ["title"; "name"; "has_thumbnail"; "thumbnail"; "language"; "page_type";
        "display_as"; "order"; "ipynb"]
  /\ forallb (fun x => bool_decide (x ∈ keys)) publish_keywords = true.
Proof.
  split; [reflexivity|]. split; [vm_compute; reflexivity|].
  split; [vm_compute; reflexivity|]. split; [vm_compute; reflexivity|].
  split; [vm_compute; reflexivity|]. split; [vm_compute; reflexivity|].
  split; [vm_compute; reflexivity|]. split; vm_compute; reflexivity.
Qed.

(** ** Sizes of the data sent *)

Lemma bars_sizes :
  map sizes (flat_map sent_traces ExpectedBars.all_sends)
  = [ [3; 3; 3]; [4; 4; 4; 4]; [3; 3]; [4; 4]; [4; 4]; [3; 3; 3]; [3; 3; 3]; []; [14; 14] ]%nat.
Proof. vm_compute. reflexivity. Qed.

Lemma notebook_sizes (a b c d : list val) :
  map sizes (flat_map sent_traces
               (Expected.sends_of (VArray a) (VArray b) (VArray c) (VArray d)))
  = [ [25]; [25]; [25]; [25] ]%nat.
Proof. vm_compute. reflexivity. Qed.

(** X9: in every trace the documents submit, the coordinates and error
    arrays given as lists have one length: x, y, [array] and
    [arrayminus] of a trace never differ in size.  In the error bars
    page the sizes are 3, 4, 3, 4, 4, 3, 3 and 14 (the curve sinc(x) is
    computed by numpy); in the notebook each of the four traces has the
    25 sample sizes as x, as many as the arrays whose row means and
    deviations it plots have rows. *)
Theorem traces_have_one_size (g : gen) (st : Z) :
  exists nb eb,
    notebook (W:=world st) (fresh g) = Ok tt nb
    /\ error_bars (W:=world st) (fresh g) = Ok tt eb
    /\ forallb same_sizes (flat_map sent_traces (sends (actions eb))) = true
    /\ forallb same_sizes (flat_map sent_traces (sends (actions nb))) = true
    /\ map sizes (flat_map sent_traces (sends (actions eb)))
       = [ [3; 3; 3]; [4; 4; 4; 4]; [3; 3]; [4; 4]; [4; 4]; [3; 3; 3]; [3; 3; 3]; [];
           [14; 14] ]%nat
    /\ map sizes (flat_map sent_traces (sends (actions nb))) = [ [25]; [25]; [25]; [25] ]%nat
    /\ Forall (fun r => exists a, r = Some a /\ length (rows a) = 25%nat) (results nb).
Proof.
  destruct (notebook_facts g st) as (nb & Hrun & Hres & _ & Hsends & _).
  exists nb, (bars_kernel g).
  split; [exact Hrun|]. split; [apply error_bars_run|].
  assert (sends (actions (bars_kernel g)) = ExpectedBars.all_sends) as ->.
  { unfold actions. rewrite bars_kernel_log. apply bars_sends. }
  rewrite Hsends, Hres, bars_sizes.
  unfold Expected.all_sends, Expected.results, Expected.lw_mse, Expected.oa_mse,
    Expected.lw_shrinkage, Expected.oa_shrinkage, Expected.table.
  assert (forall f, length (Expected.table_rows f) = 25%nat) as Hrows by reflexivity.
  split; [vm_compute; reflexivity|].
  split; [|split; [reflexivity|split]].
  - generalize (Expected.table_rows (Expected.mse Expected.LedoitWolf))
               (Expected.table_rows (Expected.mse Expected.OAS))
               (Expected.table_rows (Expected.shrinkage Expected.LedoitWolf))
               (Expected.table_rows (Expected.shrinkage Expected.OAS)).
    intros a b c d. vm_compute. reflexivity.
  - apply notebook_sizes.
  - repeat (apply Forall_cons_2; [eexists; split; [reflexivity|apply Hrows]|]).
    apply Forall_nil_2.
Qed.

(** ** The error bars page without plotly *)

Lemma import_refused `{W : World} (path alias : string) (k : kernel) :
  fails (AImport path) = true ->
  import_as path alias k
  = Raise (LibraryError (AImport path))
      {| ns := ns k; rng := rng k; log := EAct (AImport path) :: log k |}.
Proof.
  intros H. unfold import_as, perform, mbind, Py_bind, emit, raise. cbn [ns rng log].
  by rewrite H.
Qed.

(** X10: every cell of the error bars page begins by importing
    plotly.plotly.  In a world where that import raises, each cell, run
    in any kernel, stops there with the import's exception: it binds
    nothing and calls nothing, and the page as a whole stops in its
    first cell. *)
Theorem error_bars_need_plotly `{W : World} (k : kernel) (i : nat) :
  fails (AImport "plotly.plotly") = true ->
  (i < 7)%nat ->
  let stopped n :=
    Raise (A:=unit) (LibraryError (AImport "plotly.plotly"))
      {| ns := ns k; rng := rng k;
         log := EAct (AImport "plotly.plotly") :: EEnter n :: log k |} in
  bars_cell i k = stopped (1 + i)%nat /\ error_bars k = stopped 1%nat.
Proof.
  intros H Hi stopped. subst stopped.
  assert (forall n body rest,
            run_cell n (block (ErrorBars.plotly_imports ++ body) ) k
            = Raise (LibraryError (AImport "plotly.plotly"))
                {| ns := ns k; rng := rng k;
                   log := EAct (AImport "plotly.plotly") :: EEnter n :: log k |}
            /\ block (run_cell n (block (ErrorBars.plotly_imports ++ body)) :: rest) k
               = Raise (LibraryError (AImport "plotly.plotly"))
                   {| ns := ns k; rng := rng k;
                      log := EAct (AImport "plotly.plotly") :: EEnter n :: log k |}) as Hcell.
  { intros n body rest.
    assert (run_cell n (block (ErrorBars.plotly_imports ++ body)) k
            = Raise (LibraryError (AImport "plotly.plotly"))
                {| ns := ns k; rng := rng k;
                   log := EAct (AImport "plotly.plotly") :: EEnter n :: log k |}) as E.
    { rewrite run_cell_enters. unfold ErrorBars.plotly_imports. cbn [app].
      apply block_raises. by rewrite import_refused. }
    split; [exact E|]. by apply block_raises. }
  split.
  - do 7 (destruct i as [|i]; [apply (Hcell _ _ [])|]). lia.
  - apply Hcell.
Qed.

Lemma error_bars_need_plotly_witness :
  let k := fresh (Gen (GStart 0) []) in
  let stopped n :=
    Raise (A:=unit) (LibraryError (AImport "plotly.plotly"))
      {| ns := ns k; rng := rng k;
         log := EAct (AImport "plotly.plotly") :: EEnter n :: log k |} in
  bars_cell (W:=world_without "plotly.plotly" 0) 4 k = stopped (1 + 4)%nat
  /\ error_bars (W:=world_without "plotly.plotly" 0) k = stopped 1%nat.
Proof.
  apply (error_bars_need_plotly (W:=world_without "plotly.plotly" 0)
           (fresh (Gen (GStart 0) [])) 4); [reflexivity|lia].
Defined.

(** ** The same cells in another world: the rules *)

Section FollowRules.
Variables W1 W2 : World.

Notation "m1 ~> m2" := (follows (W:=W2) m1 m2) (at level 70).

Lemma follows_ret {A} (a : A) : mret a ~> mret a.
Proof. intros k a' k' H. injection H as <- <-. by exists []. Qed.

Lemma follows_raise {A} (e : exn) (m2 : Py A) : raise e ~> m2.
Proof. intros k a k' H. discriminate H. Qed.

Lemma follows_bind {A B} (m1 m2 : Py A) (f1 f2 : A -> Py B) :
  m1 ~> m2 -> (forall a, f1 a ~> f2 a) -> (m1 ≫= f1) ~> (m2 ≫= f2).
Proof.
  intros Hm Hf k b k'' H. unfold mbind, Py_bind in *.
  destruct (m1 k) as [a k'|e k'] eqn:E1; [|discriminate].
  destruct (Hm k a k' E1) as (evs & Hl & Hok).
  destruct (Hf a k' b k'' H) as (evs' & Hl' & Hok').
  exists (evs' ++ evs). split; [by rewrite Hl', Hl, app_assoc|].
  rewrite (accepted_app (W:=W2)). intros [H1 H2]%andb_prop.
  rewrite (Hok H2). exact (Hok' H1).
Qed.

Lemma follows_fmap {A B} (f : A -> B) (m1 m2 : Py A) : m1 ~> m2 -> (f <$> m1) ~> (f <$> m2).
Proof.
  intros Hm k b k' H. unfold fmap, Py_fmap in *.
  destruct (m1 k) as [a k1|e k1] eqn:E1; [|discriminate]. injection H as <- <-.
  destruct (Hm k a k1 E1) as (evs & Hl & Hok). exists evs. split; [exact Hl|].
  intros Hacc. by rewrite (Hok Hacc).
Qed.

Lemma follows_emit (e : event) : emit e ~> emit e.
Proof. intros k a k' H. injection H as <- <-. by exists [e]. Qed.

Lemma follows_get_ns : get_ns ~> get_ns.
Proof. intros k a k' H. injection H as <- <-. by exists []. Qed.

Lemma follows_put_ns (m : gmap string val) : put_ns m ~> put_ns m.
Proof. intros k a k' H. injection H as <- <-. by exists []. Qed.

Lemma follows_get_rng : get_rng ~> get_rng.
Proof. intros k a k' H. injection H as <- <-. by exists []. Qed.

Lemma follows_put_rng (g : gen) : put_rng g ~> put_rng g.
Proof. intros k a k' H. injection H as <- <-. by exists []. Qed.

Lemma follows_name (x : string) : name x ~> name x.
Proof.
  unfold name. eapply follows_bind; [apply follows_emit|]. intros _.
  eapply follows_bind; [apply follows_get_ns|]. intros m.
  destruct (lookup_name m x); [apply follows_ret|apply follows_raise].
Qed.

Lemma follows_bind_name (x : string) (v : val) : bind_name x v ~> bind_name x v.
Proof.
  unfold bind_name. eapply follows_bind; [apply follows_get_ns|]. intros m.
  eapply follows_bind; [apply follows_put_ns|]. intros _. apply follows_emit.
Qed.

Lemma follows_mutate_name (x : string) (v : val) : mutate_name x v ~> mutate_name x v.
Proof.
  unfold mutate_name. eapply follows_bind; [apply follows_get_ns|]. intros m.
  eapply follows_bind; [apply follows_put_ns|]. intros _. apply follows_emit.
Qed.

(** An import or a call goes through where the second world accepts it. *)
Lemma follows_perform (a : action) :
  (forall cmd status, a <> AShell cmd status) ->
  perform (W:=W1) a ~> perform (W:=W2) a.
Proof.
  intros Hshell k [] k' H. unfold perform, mbind, Py_bind, emit in *.
  destruct (@fails W1 a); [discriminate|]. injection H as <-.
  exists [EAct a]. split; [done|]. cbn. rewrite andb_true_r. intros Hacc.
  assert (@fails W2 a = false) as ->; [|done].
  destruct a; try (by apply negb_true_iff in Hacc). by destruct (Hshell cmd status).
Qed.

Lemma follows_result_of (f : val) (args : list val) (kw : kwargs) :
  result_of f args kw ~> result_of f args kw.
Proof.
  unfold result_of.
  repeat first
    [ apply follows_ret
    | apply follows_raise
    | apply follows_get_rng
    | apply follows_put_rng
    | eapply follows_bind; [|intros ?]
    | case_match ].
Qed.

Lemma follows_apply (f : val) (args : list val) (kw : kwargs) :
  apply (W:=W1) f args kw ~> apply (W:=W2) f args kw.
Proof.
  unfold apply. destruct (not_callable f); [apply follows_raise|].
  eapply follows_bind; [by apply follows_perform|]. intros _. apply follows_result_of.
Qed.

Lemma follows_sequence {A} (ms1 ms2 : list (Py A)) :
  Forall2 (fun m1 m2 => m1 ~> m2) ms1 ms2 -> sequence ms1 ~> sequence ms2.
Proof.
  induction 1 as [|m1 m2 ms1 ms2 Hm _ IH]; simpl; [apply follows_ret|].
  eapply follows_bind; [exact Hm|]. intros a.
  eapply follows_bind; [exact IH|]. intros r. apply follows_ret.
Qed.

Lemma follows_sequence_kw (ms1 ms2 : list (string * Py val)) :
  Forall2 (fun p1 p2 => p1.1 = p2.1 /\ p1.2 ~> p2.2) ms1 ms2 ->
  sequence_kw ms1 ~> sequence_kw ms2.
Proof.
  induction 1 as [|[x m1] [y m2] ms1 ms2 [Hx Hm] _ IH]; simpl; [apply follows_ret|].
  cbn in Hx, Hm. subst y.
  eapply follows_bind; [exact Hm|]. intros a.
  eapply follows_bind; [exact IH|]. intros r. apply follows_ret.
Qed.

Lemma follows_list (es1 es2 : list (Py val)) :
  Forall2 (fun m1 m2 => m1 ~> m2) es1 es2 -> list_ es1 ~> list_ es2.
Proof. intros H. apply follows_fmap, follows_sequence, H. Qed.

Lemma follows_tuple (es1 es2 : list (Py val)) :
  Forall2 (fun m1 m2 => m1 ~> m2) es1 es2 -> tuple_ es1 ~> tuple_ es2.
Proof. intros H. apply follows_fmap, follows_sequence, H. Qed.

Lemma follows_attr (e1 e2 : Py val) (a : string) : e1 ~> e2 -> attr e1 a ~> attr e2 a.
Proof. intros H. eapply follows_bind; [exact H|]. intros v. apply follows_ret. Qed.

Lemma follows_call (f1 f2 : Py val) (args1 args2 : list (Py val))
    (kw1 kw2 : list (string * Py val)) :
  f1 ~> f2 -> Forall2 (fun m1 m2 => m1 ~> m2) args1 args2 ->
  Forall2 (fun p1 p2 => p1.1 = p2.1 /\ p1.2 ~> p2.2) kw1 kw2 ->
  call (W:=W1) f1 args1 kw1 ~> call (W:=W2) f2 args2 kw2.
Proof.
  intros Hf Ha Hk. unfold call.
  eapply follows_bind; [exact Hf|]. intros fv.
  eapply follows_bind; [by apply follows_sequence|]. intros avs.
  eapply follows_bind; [by apply follows_sequence_kw|]. intros kvs.
  apply follows_apply.
Qed.

Lemma follows_pow (a1 a2 b1 b2 : Py val) :
  a1 ~> a2 -> b1 ~> b2 -> pow (W:=W1) a1 b1 ~> pow (W:=W2) a2 b2.
Proof.
  intros Ha Hb. unfold pow.
  eapply follows_bind; [exact Ha|]. intros a.
  eapply follows_bind; [exact Hb|]. intros b. apply follows_apply.
Qed.

Lemma follows_call_inplace (x m : string) (args1 args2 : list (Py val))
    (kw1 kw2 : list (string * Py val)) :
  Forall2 (fun m1 m2 => m1 ~> m2) args1 args2 ->
  Forall2 (fun p1 p2 => p1.1 = p2.1 /\ p1.2 ~> p2.2) kw1 kw2 ->
  call_inplace (W:=W1) x m args1 kw1 ~> call_inplace (W:=W2) x m args2 kw2.
Proof.
  intros Ha Hk. unfold call_inplace.
  eapply follows_bind; [apply follows_call; auto; apply follows_attr, follows_name|].
  intros r. eapply follows_bind; [apply follows_mutate_name|]. intros _. apply follows_ret.
Qed.

Lemma follows_assign (x : string) (e1 e2 : Py val) : e1 ~> e2 -> assign x e1 ~> assign x e2.
Proof. intros H. eapply follows_bind; [exact H|]. intros v. apply follows_bind_name. Qed.

Lemma follows_assign_item (x : string) (idx1 idx2 : list (Py val)) (e1 e2 : Py val) :
  e1 ~> e2 -> Forall2 (fun m1 m2 => m1 ~> m2) idx1 idx2 ->
  assign_item x idx1 e1 ~> assign_item x idx2 e2.
Proof.
  intros He Hi. unfold assign_item.
  eapply follows_bind; [exact He|]. intros v.
  eapply follows_bind; [apply follows_name|]. intros a.
  eapply follows_bind; [by apply follows_sequence|]. intros ixs.
  destruct (ints_of ixs); [|apply follows_raise].
  destruct (store_item a l v); [apply follows_raise|apply follows_mutate_name].
Qed.

Lemma follows_expr (e1 e2 : Py val) : e1 ~> e2 -> expr e1 ~> expr e2.
Proof. intros H. eapply follows_bind; [exact H|]. intros v. apply follows_ret. Qed.

Lemma follows_bind_targets (xs : list string) (v : val) :
  bind_targets xs v ~> bind_targets xs v.
Proof.
  assert (forall ps : list (string * val),
    (fix go (ps : list (string * val)) : Py unit :=
       match ps with
       | [] => mret tt
       | (x, v) :: ps' => _ ← bind_name x v; go ps'
       end) ps
    ~> (fix go (ps : list (string * val)) : Py unit :=
          match ps with
          | [] => mret tt
          | (x, v) :: ps' => _ ← bind_name x v; go ps'
          end) ps) as Hgo.
  { induction ps as [|[x w] ps IH]; [apply follows_ret|].
    eapply follows_bind; [apply follows_bind_name|]. intros _. exact IH. }
  unfold bind_targets.
  destruct xs as [|x [|x' xs]].
  - destruct (iter_items v) as [vs|]; [|apply follows_raise].
    destruct (_ =? _)%nat; [apply Hgo|apply follows_raise].
  - apply follows_bind_name.
  - destruct (iter_items v) as [vs|]; [|apply follows_raise].
    destruct (_ =? _)%nat; [apply Hgo|apply follows_raise].
Qed.

Lemma follows_for_items (xs : list string) (items : list val) (body1 body2 : Py unit) :
  body1 ~> body2 -> for_items xs items body1 ~> for_items xs items body2.
Proof.
  intros Hb. induction items as [|v items IH]; simpl; [apply follows_ret|].
  eapply follows_bind; [apply follows_bind_targets|]. intros _.
  eapply follows_bind; [exact Hb|]. intros _. exact IH.
Qed.

Lemma follows_for_in (xs : list string) (e1 e2 : Py val) (body1 body2 : Py unit) :
  e1 ~> e2 -> body1 ~> body2 -> for_in xs e1 body1 ~> for_in xs e2 body2.
Proof.
  intros He Hb. unfold for_in.
  eapply follows_bind; [exact He|]. intros v.
  destruct (iter_items v); [|apply follows_raise].
  by apply follows_for_items.
Qed.

Lemma follows_import_as (path alias : string) :
  import_as (W:=W1) path alias ~> import_as (W:=W2) path alias.
Proof.
  unfold import_as. eapply follows_bind; [by apply follows_perform|]. intros _.
  apply follows_bind_name.
Qed.

Lemma follows_from_import (path : string) (xs : list string) :
  from_import (W:=W1) path xs ~> from_import (W:=W2) path xs.
Proof.
  unfold from_import. eapply follows_bind; [by apply follows_perform|]. intros _.
  induction xs as [|x xs IH]; [apply follows_ret|].
  eapply follows_bind; [apply follows_bind_name|]. intros _. exact IH.
Qed.

Lemma follows_shell (cmd : string) :
  @exit_status W1 cmd = @exit_status W2 cmd ->
  shell (W:=W1) cmd ~> shell (W:=W2) cmd.
Proof. intros H. unfold shell. rewrite H. apply follows_emit. Qed.

Lemma follows_block_nil : block [] ~> block [].
Proof. apply follows_ret. Qed.

Lemma follows_block_cons (s1 s2 : Py unit) (l1 l2 : list (Py unit)) :
  s1 ~> s2 -> block l1 ~> block l2 -> block (s1 :: l1) ~> block (s2 :: l2).
Proof. intros Hs Hb. simpl. eapply follows_bind; [exact Hs|]. intros _. exact Hb. Qed.

Lemma follows_run_cell (n : nat) (b1 b2 : Py unit) : b1 ~> b2 -> run_cell n b1 ~> run_cell n b2.
Proof. intros H. eapply follows_bind; [apply follows_emit|]. intros _. exact H. Qed.

End FollowRules.

(** Rule by rule through a cell, in two worlds. *)
Ltac follows_solve :=
  lazymatch goal with
  | |- follows (block []) _ => apply follows_block_nil
  | |- follows (block (_ :: _)) _ => apply follows_block_cons; [follows_solve|follows_solve]
  | |- follows (block (_ ++ _)) _ => cbn [app]; follows_solve
  | |- follows (run_cell _ _) _ => apply follows_run_cell; follows_solve
  | |- follows (assign _ _) _ => apply follows_assign; follows_solve
  | |- follows (assign_item _ _ _) _ => apply follows_assign_item; [follows_solve|follows_solve]
  | |- follows (expr _) _ => apply follows_expr; follows_solve
  | |- follows (call_inplace _ _ _ _) _ =>
      apply follows_call_inplace; [follows_solve|follows_solve]
  | |- follows (call _ _ _) _ => apply follows_call; [follows_solve|follows_solve|follows_solve]
  | |- follows (attr _ _) _ => apply follows_attr; follows_solve
  | |- follows (pow _ _) _ => apply follows_pow; [follows_solve|follows_solve]
  | |- follows (name _) _ => apply follows_name
  | |- follows (list_ _) _ => apply follows_list; follows_solve
  | |- follows (tuple_ _) _ => apply follows_tuple; follows_solve
  | |- follows (for_in _ _ _) _ => apply follows_for_in; [follows_solve|follows_solve]
  | |- follows (import_as _ _) _ => apply follows_import_as
  | |- follows (import _) _ => apply follows_import_as
  | |- follows (from_import _ _) _ => apply follows_from_import
  | |- follows (shell _) _ => apply follows_shell; reflexivity
  | |- follows (mret _) _ => apply follows_ret
  | |- follows (int_ _) _ => apply follows_ret
  | |- follows (float_ _) _ => apply follows_ret
  | |- follows (str_ _) _ => apply follows_ret
  | |- follows True_ _ => apply follows_ret
  | |- follows False_ _ => apply follows_ret
  | |- Forall2 _ [] [] => apply Forall2_nil_2
  | |- Forall2 _ (_ :: _) (_ :: _) =>
      apply Forall2_cons_2;
      [cbn beta; first [split; [reflexivity|cbn [snd]; follows_solve]|follows_solve]
      |follows_solve]
  | |- follows ?m _ =>
      let h := head_of m in unfold h; follows_solve
  end.

Lemma notebook_first_follows (W1 W2 : World) :
  follows (W:=W2) (block (notebook_first (W:=W1))) (block (notebook_first (W:=W2))).
Proof.
  unfold notebook_first, Notebook.version, Notebook.imports, Notebook.calculations.
  follows_solve.
Qed.

Lemma notebook_later_follows (W1 W2 : World) :
  @exit_status W1 Notebook.pip_install = @exit_status W2 Notebook.pip_install ->
  follows (W:=W2) (block (notebook_later (W:=W1))) (block (notebook_later (W:=W2))).
Proof.
  intros Hst.
  unfold notebook_later, Notebook.plot_mse, Notebook.plot_shrinkage, Notebook.figure,
    Notebook.show_figure, Notebook.publish.
  cbn [app].
  repeat (apply follows_block_cons; [apply follows_run_cell|]);
    try apply follows_block_nil.
  all: try follows_solve.
  apply follows_block_cons; [follows_solve|].
  apply follows_block_cons; [follows_solve|].
  apply follows_block_cons; [follows_solve|].
  apply follows_block_cons; [by apply follows_shell|].
  follows_solve.
Qed.

(** A world accepts a log if it accepts the actions in it. *)
Lemma accepted_actions `{W : World} (evs : list event) :
  Forall (fun a => refused (EAct a) = false) (actions_of evs) -> accepted evs = true.
Proof.
  intros H. unfold accepted. apply forallb_forall. intros e He.
  destruct e as [| | | |a]; try reflexivity.
  rewrite List.Forall_forall in H. rewrite (H a); [reflexivity|].
  by apply in_actions_of.
Qed.

(** The first three cells in a world that accepts what they do. *)
Lemma first_cells_in (W : World) (g : gen) (k : kernel) :
  block (notebook_first (W:=world 0)) (fresh g) = Ok tt k ->
  Forall (fun a => refused (W:=W) (EAct a) = false) (actions k) ->
  block (notebook_first (W:=W)) (fresh g) = Ok tt k.
Proof.
  intros Hrun Hacc.
  destruct (notebook_first_follows (world 0) W (fresh g) tt k Hrun) as (evs & Hl & Hok).
  apply Hok. apply accepted_actions.
  cbn [fresh log] in Hl. rewrite app_nil_r in Hl. unfold actions in Hacc. by rewrite <- Hl.
Qed.

(** The later cells in a world that accepts what they do. *)
Lemma later_cells_in (W : World) (a b c d : list val) (r : gen) (l : list event) :
  Forall (fun x => refused (W:=W) (EAct x) = false)
    (actions_of (later_log (@exit_status W Notebook.pip_install) a b c d)) ->
  block (notebook_later (W:=W))
    (calc_kernel (VArray a) (VArray b) (VArray c) (VArray d) r l)
  = Ok tt {| ns := Expected.after_publish (VArray a) (VArray b) (VArray c) (VArray d);
             rng := r;
             log := later_log (@exit_status W Notebook.pip_install) a b c d ++ l |}.
Proof.
  intros Hacc. set (st := @exit_status W Notebook.pip_install) in *.
  destruct (notebook_later_follows (world st) W eq_refl _ _ _ (later_run st a b c d r l))
    as (evs & Hl & Hok).
  apply Hok. apply accepted_actions.
  cbn [calc_kernel log] in Hl. apply app_inv_tail in Hl. by rewrite <- Hl.
Qed.

(** The whole notebook in a world that accepts what it does. *)
Lemma notebook_in (W : World) (g : gen) (l : list event) :
  let st := @exit_status W Notebook.pip_install in
  block (notebook_first (W:=world 0)) (fresh g)
  = Ok tt (calc_kernel Expected.lw_mse Expected.oa_mse Expected.lw_shrinkage
             Expected.oa_shrinkage Expected.gen_after l) ->
  actions_of l = Expected.calc_actions ->
  Forall (fun a => refused (W:=W) (EAct a) = false)
    (Expected.calc_actions ++ later_actions st) ->
  notebook (W:=W) (fresh g) = Ok tt (end_kernel st l).
Proof.
  intros st Hrun Hacts Hacc. apply Forall_app in Hacc as [H1 H2].
  assert (block (notebook_first (W:=W)) (fresh g)
          = Ok tt (calc_kernel Expected.lw_mse Expected.oa_mse Expected.lw_shrinkage
                     Expected.oa_shrinkage Expected.gen_after l)) as Hfirst.
  { apply first_cells_in; [exact Hrun|]. unfold actions. cbn [calc_kernel log].
    by rewrite Hacts. }
  exact (block_app_ok notebook_first notebook_later (fresh g) _ _ Hfirst
           (later_cells_in W (Expected.table_rows (Expected.mse Expected.LedoitWolf))
              (Expected.table_rows (Expected.mse Expected.OAS))
              (Expected.table_rows (Expected.shrinkage Expected.LedoitWolf))
              (Expected.table_rows (Expected.shrinkage Expected.OAS))
              Expected.gen_after l H2)).
Qed.

(** ** The notebook in other worlds *)

(** X11: the notebook depends on the world only through the acceptance
    of what it does.  In any world that refuses none of the imports and
    calls the notebook makes where nothing is refused, whatever else it
    refuses, the notebook runs exactly as it does there: same outcome,
    same kernel, same log. *)
Theorem notebook_in_any_world (W : World) (g : gen) :
  let st := @exit_status W Notebook.pip_install in
  Forall (fun a => refused (W:=W) (EAct a) = false)
    (Expected.calc_actions ++ later_actions st) ->
  notebook (W:=W) (fresh g) = notebook (W:=world st) (fresh g)
  /\ exists k,
       notebook (W:=W) (fresh g) = Ok tt k
       /\ results k = Expected.results
       /\ actions k = Expected.calc_actions ++ later_actions st
       /\ sends (actions k) = Expected.all_sends.
Proof.
  intros st Hacc.
  destruct (calc_run g 0) as (l & Hrun & Hacts & _).
  pose proof (notebook_in W g l Hrun Hacts Hacc) as HW.
  assert (Forall (fun a => refused (W:=world st) (EAct a) = false)
            (Expected.calc_actions ++ later_actions st)) as Hall.
  { apply Forall_forall. intros a _. by destruct a. }
  pose proof (notebook_in (world st) g l Hrun Hacts Hall) as Hst.
  assert (notebook (W:=W) (fresh g) = notebook (W:=world st) (fresh g)) as E
    by exact (eq_trans HW (eq_sym Hst)).
  split; [exact E|].
  destruct (notebook_facts g st) as (k & Hk & Hres & Ha & Hs & _).
  exists k. split; [exact (eq_trans E Hk)|]. by repeat split.
Qed.


(** ** Worlds with a module missing, or traces that cannot be called *)

Lemma calc_accepted :
  forallb (fun a => negb (refused (W:=traces_not_callable 0) (EAct a))
                    && negb (refused (W:=world_without "publisher" 0) (EAct a)))
    Expected.calc_actions = true.
Proof. vm_compute. reflexivity. Qed.

Lemma later_accepted (st : Z) (a b c d : list val) :
  forallb (fun x => negb (refused (W:=traces_not_callable 0) (EAct x)))
    (actions_of (later_log st a b c d)) = true.
Proof. vm_compute. reflexivity. Qed.

Lemma refused_status (a : action) (st : Z) :
  refused (W:=traces_not_callable st) (EAct a) = refused (W:=traces_not_callable 0) (EAct a)
  /\ refused (W:=world_without "publisher" st) (EAct a)
     = refused (W:=world_without "publisher" 0) (EAct a).
Proof. by destruct a. Qed.

Lemma calc_accepted_traces (st : Z) :
  Forall (fun a => refused (W:=traces_not_callable st) (EAct a) = false) Expected.calc_actions.
Proof.
  apply List.Forall_forall. intros a Ha.
  pose proof calc_accepted as H. rewrite forallb_forall in H. specialize (H a Ha).
  apply andb_prop in H as [H _]. apply negb_true_iff in H.
  by rewrite (proj1 (refused_status a st)).
Qed.

Lemma calc_accepted_without (st : Z) :
  Forall (fun a => refused (W:=world_without "publisher" st) (EAct a) = false)
    Expected.calc_actions.
Proof.
  apply List.Forall_forall. intros a Ha.
  pose proof calc_accepted as H. rewrite forallb_forall in H. specialize (H a Ha).
  apply andb_prop in H as [_ H]. apply negb_true_iff in H.
  by rewrite (proj2 (refused_status a st)).
Qed.

Lemma later_accepted_traces (st : Z) :
  Forall (fun a => refused (W:=traces_not_callable st) (EAct a) = false) (later_actions st).
Proof.
  apply List.Forall_forall. intros a Ha. unfold later_actions in Ha.
  pose proof (later_accepted st (Expected.table_rows (Expected.mse Expected.LedoitWolf))
                (Expected.table_rows (Expected.mse Expected.OAS))
                (Expected.table_rows (Expected.shrinkage Expected.LedoitWolf))
                (Expected.table_rows (Expected.shrinkage Expected.OAS))) as H.
  rewrite forallb_forall in H. specialize (H a Ha). apply negb_true_iff in H.
  by rewrite (proj1 (refused_status a st)).
Qed.

Lemma notebook_in_any_world_witness :
  notebook (W:=traces_not_callable 0) (fresh (Gen (GStart 0) []))
  = notebook (W:=world (@exit_status (traces_not_callable 0) Notebook.pip_install))
      (fresh (Gen (GStart 0) []))
  /\ exists k,
       notebook (W:=traces_not_callable 0) (fresh (Gen (GStart 0) [])) = Ok tt k
       /\ results k = Expected.results
       /\ actions k
          = Expected.calc_actions
            ++ later_actions (@exit_status (traces_not_callable 0) Notebook.pip_install)
       /\ sends (actions k) = Expected.all_sends.
Proof.
  apply (notebook_in_any_world (traces_not_callable 0) (Gen (GStart 0) [])).
  apply Forall_app. split.
  - apply List.Forall_forall. intros a Ha.
    pose proof calc_accepted as H. rewrite forallb_forall in H. specialize (H a Ha).
    apply andb_prop in H as [H _]. by apply negb_true_iff in H.
  - apply List.Forall_forall. intros a Ha. unfold later_actions in Ha.
    pose proof (later_accepted 0 (Expected.table_rows (Expected.mse Expected.LedoitWolf))
                  (Expected.table_rows (Expected.mse Expected.OAS))
                  (Expected.table_rows (Expected.shrinkage Expected.LedoitWolf))
                  (Expected.table_rows (Expected.shrinkage Expected.OAS))) as H.
    rewrite forallb_forall in H. specialize (H a Ha). by apply negb_true_iff in H.
Defined.

(** ** The error bars page in other worlds *)

Lemma error_bars_follows (W1 W2 : World) :
  follows (W:=W2) (error_bars (W:=W1)) (error_bars (W:=W2)).
Proof.
  change (follows (W:=W2)
            (block (imap (fun i c => run_cell (1 + i) c) (ErrorBars.cells (W:=W1))))
            (block (imap (fun i c => run_cell (1 + i) c) (ErrorBars.cells (W:=W2))))).
  unfold ErrorBars.cells. cbn [imap Nat.add].
  unfold ErrorBars.basic, ErrorBars.asymmetric, ErrorBars.percent,
    ErrorBars.asymmetric_constant, ErrorBars.horizontal, ErrorBars.bar_chart,
    ErrorBars.styled, ErrorBars.bar_trace, ErrorBars.styled_error,
    ErrorBars.plotly_imports, ErrorBars.iplot_data, ErrorBars.ints, ErrorBars.floats.
  cbn [app map]. follows_solve.
Qed.

(** X13: the error bars page, too, depends on the world only through
    the acceptance of what it does: in any world that refuses none of
    the imports and calls of its run, it runs as in the world that
    refuses nothing and submits the same seven charts. *)
Theorem error_bars_in_any_world (W : World) (g : gen) :
  Forall (fun a => refused (W:=W) (EAct a) = false) (actions_of bars_log) ->
  error_bars (W:=W) (fresh g) = error_bars (W:=world 0) (fresh g)
  /\ exists k,
       error_bars (W:=W) (fresh g) = Ok tt k
       /\ sends (actions k) = ExpectedBars.all_sends.
Proof.
  intros Hacc.
  pose proof (error_bars_run g 0) as Hrun.
  destruct (error_bars_follows (world 0) W (fresh g) tt _ Hrun) as (evs & Hl & Hok).
  cbn [fresh log] in Hl. rewrite app_nil_r, bars_kernel_log in Hl. subst evs.
  specialize (Hok (accepted_actions _ Hacc)).
  split; [exact (eq_trans Hok (eq_sym Hrun))|].
  exists (bars_kernel g). split; [exact Hok|].
  unfold actions. rewrite bars_kernel_log. apply bars_sends.
Qed.

Lemma error_bars_in_any_world_witness :
  error_bars (W:=world_without "publisher" 1) (fresh (Gen (GStart 0) []))
  = error_bars (W:=world 0) (fresh (Gen (GStart 0) []))
  /\ exists k,
       error_bars (W:=world_without "publisher" 1) (fresh (Gen (GStart 0) [])) = Ok tt k
       /\ sends (actions k) = ExpectedBars.all_sends.
Proof.
  apply (error_bars_in_any_world (world_without "publisher" 1) (Gen (GStart 0) [])).
  vm_compute. repeat constructor.
Defined.

(** ** Running In [3] again after the plots *)

Lemma rerun_raises (st : Z) (a b c d : val) (r : gen) (l : list event) :
  raised (rerun st a b c d r l)
  = Some (LibraryError
            (ACall (Expected.shrinkage_oa_trace d) []
               [("store_precision", VBool false); ("assume_centered", VBool true)])).
Proof. vm_compute. reflexivity. Qed.

Lemma rerun_log (st : Z) (a b c d : val) (r : gen) (l : list event) :
  log (final (rerun st a b c d r l)) = log (final (rerun st a b c d r [])) ++ l.
Proof. vm_compute. reflexivity. Qed.

Lemma rerun_fits (st : Z) (a b c d : val) (r : gen) :
  fits (actions_of (log (final (rerun st a b c d r []))))
  = [ACall (VAttr (Expected.estimator Expected.LedoitWolf) "fit") [Expected.X 0 0] []].
Proof. vm_compute. reflexivity. Qed.

Lemma rerun_results (st : Z) (a b c d : val) (r : gen) (l : list event) :
  results (final (rerun st a b c d r l))
  = [ Some (only_first (Expected.mse Expected.LedoitWolf 0 0));
      Some (zeros [25; 100]);
      Some (only_first (Expected.shrinkage Expected.LedoitWolf 0 0));
      Some (zeros [25; 100]) ].
Proof. vm_compute. reflexivity. Qed.

Lemma after_publish_OAS (a b c d : val) :
  Expected.after_publish a b c d !! "OAS" = Some (Expected.shrinkage_oa_trace d)
  /\ Expected.after_publish a b c d !! "LedoitWolf" = Some Expected.LedoitWolf.
Proof. split; vm_compute; reflexivity. Qed.

(** X6: In [4] and In [6] assign their OAS trace to the name [OAS], which
    In [2] imported as the estimator class.  The notebook therefore ends
    with [OAS] bound to the OAS trace of the shrinkage figure, and In [3]
    cannot be run again: in a world where a trace cannot be called, the
    notebook runs as usual, but a second run of In [3] in the kernel it
    leaves seeds the generator, creates the four arrays anew, fits
    Ledoit-Wolf once and stops with the error of calling the trace.  The
    arrays of the first run are lost: only [lw_mse[0, 0]] and
    [lw_shrinkage[0, 0]] are filled in, the rest is zero. *)
Theorem rerun_after_plots_fails (g : gen) (st : Z) :
  exists k,
    notebook (W:=traces_not_callable st) (fresh g) = Ok tt k
    /\ results k = Expected.results
    /\ ns k !! "LedoitWolf" = Some (VAttr (VModule "sklearn.covariance") "LedoitWolf")
    /\ ns k !! "OAS" = Some (Expected.shrinkage_oa_trace Expected.oa_shrinkage)
    /\ raised (run_cell 3 (Notebook.calculations (W:=traces_not_callable st)) k)
       = Some (LibraryError
                 (ACall (Expected.shrinkage_oa_trace Expected.oa_shrinkage) []
                    [("store_precision", VBool false); ("assume_centered", VBool true)]))
    /\ fits (new_actions k
               (final (run_cell 3 (Notebook.calculations (W:=traces_not_callable st)) k)))
       = [ACall (VAttr (Expected.estimator Expected.LedoitWolf) "fit") [Expected.X 0 0] []]
    /\ results (final (run_cell 3 (Notebook.calculations (W:=traces_not_callable st)) k))
       = [ Some (only_first (Expected.mse Expected.LedoitWolf 0 0));
           Some (zeros [25; 100]);
           Some (only_first (Expected.shrinkage Expected.LedoitWolf 0 0));
           Some (zeros [25; 100]) ].
Proof.
  destruct (calc_run g 0) as (l & Hfirst & Hacts & _).
  assert (notebook (W:=traces_not_callable st) (fresh g) = Ok tt (end_kernel st l)) as Hrun.
  { apply (notebook_in (traces_not_callable st) g l Hfirst Hacts).
    apply Forall_app. split; [apply calc_accepted_traces|apply later_accepted_traces]. }
  exists (end_kernel st l). split; [exact Hrun|].
  split; [apply after_publish_results|].
  destruct (after_publish_OAS Expected.lw_mse Expected.oa_mse Expected.lw_shrinkage
              Expected.oa_shrinkage) as [Hoas Hlw].
  split; [exact Hlw|]. split; [exact Hoas|].
  unfold end_kernel.
  generalize (later_log st (Expected.table_rows (Expected.mse Expected.LedoitWolf))
                (Expected.table_rows (Expected.mse Expected.OAS))
                (Expected.table_rows (Expected.shrinkage Expected.LedoitWolf))
                (Expected.table_rows (Expected.shrinkage Expected.OAS)) ++ l).
  intros L.
  pose proof (rerun_raises st Expected.lw_mse Expected.oa_mse Expected.lw_shrinkage
                Expected.oa_shrinkage Expected.gen_after L) as Hraised.
  pose proof (rerun_log st Expected.lw_mse Expected.oa_mse Expected.lw_shrinkage
                Expected.oa_shrinkage Expected.gen_after L) as Hlog.
  pose proof (rerun_fits st Expected.lw_mse Expected.oa_mse Expected.lw_shrinkage
                Expected.oa_shrinkage Expected.gen_after) as Hfits.
  pose proof (rerun_results st Expected.lw_mse Expected.oa_mse Expected.lw_shrinkage
                Expected.oa_shrinkage Expected.gen_after L) as Hres.
  unfold rerun in Hraised, Hlog, Hres.
  split; [exact Hraised|]. split; [|exact Hres].
  match goal with
  | |- context [new_actions ?k ?k'] =>
      rewrite (new_actions_added k k'
                 (log (final (rerun st Expected.lw_mse Expected.oa_mse Expected.lw_shrinkage
                                Expected.oa_shrinkage Expected.gen_after []))) Hlog)
  end.
  exact Hfits.
Qed.

(** ** The notebook without publisher *)

Lemma raised_final {A} (o : outcome A) (e : exn) : raised o = Some e -> o = Raise e (final o).
Proof. destruct o; [discriminate|]. by intros [= ->]. Qed.

Lemma without_raises (st : Z) (a b c d : list val) (r : gen) (l : list event) :
  raised (later_without st a b c d r l) = Some (LibraryError (AImport "publisher")).
Proof. vm_compute. reflexivity. Qed.

Lemma without_log (st : Z) (a b c d : list val) (r : gen) (l : list event) :
  log (final (later_without st a b c d r l))
  = log (final (later_without st a b c d r [])) ++ l.
Proof. vm_compute. reflexivity. Qed.

Lemma without_actions (st : Z) (a b c d : list val) (r : gen) :
  exists publish,
    last (Expected.publish_actions st) = Some publish
    /\ actions_of (log (final (later_without st a b c d r []))) ++ [publish]
       = actions_of (later_log st a b c d).
Proof. eexists. split; vm_compute; reflexivity. Qed.

Lemma without_last (st : Z) (a b c d : list val) (r : gen) :
  last (actions_of (log (final (later_without st a b c d r []))))
  = Some (AImport "publisher").
Proof. vm_compute. reflexivity. Qed.

Lemma without_sends (st : Z) (a b c d : list val) (r : gen) :
  sends (actions_of (log (final (later_without st a b c d r []))))
  = Expected.sends_of (VArray a) (VArray b) (VArray c) (VArray d).
Proof. vm_compute. reflexivity. Qed.

Lemma without_results (st : Z) (a b c d : list val) (r : gen) (l : list event) :
  results (final (later_without st a b c d r l))
  = [Some (VArray a); Some (VArray b); Some (VArray c); Some (VArray d)].
Proof. vm_compute. reflexivity. Qed.

(** X12: the notebook where publisher cannot be imported (the stored
    transcript shows pip failing to install it).  Whatever pip exits
    with, the notebook computes the four arrays and submits both figures
    as usual; it stops in its last cell at [import publisher] with the
    import's exception, having done everything it does otherwise but the
    call of [publisher.publish]. *)
Theorem notebook_without_publisher (g : gen) (st : Z) :
  exists k publish,
    notebook (W:=world_without "publisher" st) (fresh g)
    = Raise (LibraryError (AImport "publisher")) k
    /\ results k = Expected.results
    /\ sends (actions k) = Expected.all_sends
    /\ last (actions k) = Some (AImport "publisher")
    /\ last (Expected.publish_actions st) = Some publish
    /\ actions k ++ [publish] = Expected.calc_actions ++ later_actions st.
Proof.
  destruct (calc_run g 0) as (l & Hfirst & Hacts & _).
  pose proof (first_cells_in (world_without "publisher" st) g _ Hfirst) as Hrun.
  unfold actions in Hrun. cbn [calc_kernel log] in Hrun. rewrite Hacts in Hrun.
  specialize (Hrun (calc_accepted_without st)).
  set (A := Expected.table_rows (Expected.mse Expected.LedoitWolf)).
  set (B := Expected.table_rows (Expected.mse Expected.OAS)).
  set (C := Expected.table_rows (Expected.shrinkage Expected.LedoitWolf)).
  set (D := Expected.table_rows (Expected.shrinkage Expected.OAS)).
  pose proof (block_app_ok notebook_first notebook_later (fresh g) _
                (later_without st A B C D Expected.gen_after l) Hrun eq_refl) as Hnb.
  pose proof (raised_final _ _ (without_raises st A B C D Expected.gen_after l)) as Hraise.
  pose proof (without_log st A B C D Expected.gen_after l) as Hlog.
  destruct (without_actions st A B C D Expected.gen_after) as (publish & Hp & Hact).
  pose proof (without_last st A B C D Expected.gen_after) as Hlast.
  pose proof (without_sends st A B C D Expected.gen_after) as Hsends.
  pose proof (without_results st A B C D Expected.gen_after l) as Hres.
  exists (final (later_without st A B C D Expected.gen_after l)), publish.
  split; [exact (eq_trans Hnb Hraise)|]. split; [exact Hres|].
  unfold actions. rewrite Hlog, actions_of_app, Hacts.
  split; [|split; [|split; [exact Hp|]]].
  - rewrite sends_app, calc_sends. exact Hsends.
  - rewrite last_app, Hlast. reflexivity.
  - rewrite <- app_assoc, Hact. reflexivity.
Qed.

(** ** In [3] run again in the kernel the notebook leaves *)


